(** * SFDX-Falcon: command sanitizer, executor and error taxonomy

  A shallow embedding of
    - [modules/sfdx-falcon-recipe/executors/sfdx.ts]
    - [modules/sfdx-falcon-error/index.ts]
    - [modules/sfdx-falcon-recipe/engines/appx/actions/delete-scratch-org.ts]
    - [helpers/falcon-helper.ts]
    - [generators/create-appx-package-project.ts]
  together with the properties the specification states about them.

  Conventions of the embedding.  A JavaScript string is a Rocq [string];
  its characters stand for code units of the ASCII range, which is the
  domain of the command names, aliases, flag keys and CLI output the code
  handles (case conversion leaves every other character alone).  A dynamic
  JavaScript value is a [value]; integers stand for numbers, in the range
  in which JavaScript prints a number digit by digit (below 10^21 in
  magnitude).  No value is a function, so a member named [toString] that an
  object holds is data.  Code that can throw returns a [completion]; the
  conversion of a value to a string is such code.  Built-ins of the platform
  and the modules these files import from elsewhere are parameters: the
  fields of a [Platform] and Section variables. *)

From Stdlib Require Import List String Ascii ZArith Lia Bool Arith.
From Stdlib Require Import DecimalString.
Import ListNotations.
Open Scope string_scope.
Set Warnings "-register-all".

(* ================================================================== *)
(** ** JavaScript strings *)

Module JsString.

Definition nl : string := String (ascii_of_nat 10) "".

Definition isUpper (c : ascii) : bool :=
  let n := nat_of_ascii c in (65 <=? n)%nat && (n <=? 90)%nat.
Definition isLower (c : ascii) : bool :=
  let n := nat_of_ascii c in (97 <=? n)%nat && (n <=? 122)%nat.
Definition isDigit (c : ascii) : bool :=
  let n := nat_of_ascii c in (48 <=? n)%nat && (n <=? 57)%nat.

(** White space of [String.prototype.trim] (TAB, LF, VT, FF, CR, SP). *)
Definition isWhiteSpace (c : ascii) : bool :=
  let n := nat_of_ascii c in
  ((9 <=? n)%nat && (n <=? 13)%nat) || (n =? 32)%nat.

Definition toLowerChar (c : ascii) : ascii :=
  if isUpper c then ascii_of_nat (nat_of_ascii c + 32) else c.
Definition toUpperChar (c : ascii) : ascii :=
  if isLower c then ascii_of_nat (nat_of_ascii c - 32) else c.

Fixpoint mapChars (f : ascii -> ascii) (s : string) : string :=
  match s with
  | EmptyString => EmptyString
  | String c r => String (f c) (mapChars f r)
  end.

Fixpoint filterChars (p : ascii -> bool) (s : string) : string :=
  match s with
  | EmptyString => EmptyString
  | String c r => if p c then String c (filterChars p r) else filterChars p r
  end.

Fixpoint existsChar (p : ascii -> bool) (s : string) : bool :=
  match s with
  | EmptyString => false
  | String c r => p c || existsChar p r
  end.

Fixpoint allChars (p : ascii -> bool) (s : string) : bool :=
  match s with
  | EmptyString => true
  | String c r => p c && allChars p r
  end.

Definition flatten (parts : list string) : string :=
  fold_right String.append "" parts.

Definition toLowerCase : string -> string := mapChars toLowerChar.
Definition toUpperCase : string -> string := mapChars toUpperChar.

Definition isEmptyStr (s : string) : bool :=
  match s with EmptyString => true | _ => false end.

Fixpoint trimStart (s : string) : string :=
  match s with
  | EmptyString => EmptyString
  | String c r => if isWhiteSpace c then trimStart r else s
  end.

Fixpoint trimEnd (s : string) : string :=
  match s with
  | EmptyString => EmptyString
  | String c r =>
      let r' := trimEnd r in
      if isWhiteSpace c && isEmptyStr r' then EmptyString else String c r'
  end.

Definition trim (s : string) : string := trimEnd (trimStart s).

(** [s.substr(start, len)], with the clamping of negative and oversized
    arguments that ECMAScript prescribes. *)
Definition substr (s : string) (start len : Z) : string :=
  let size := Z.of_nat (String.length s) in
  let st := if (start <? 0)%Z then Z.max (size + start) 0 else Z.min start size in
  let ln := Z.min (Z.max len 0) (size - st) in
  String.substring (Z.to_nat st) (Z.to_nat ln) s.

(** [s.substring(start)]: from [start], clamped to [0, length], to the end. *)
Definition substringFrom (s : string) (start : Z) : string :=
  let size := Z.of_nat (String.length s) in
  let st := Z.min (Z.max start 0) size in
  String.substring (Z.to_nat st) (Z.to_nat (size - st)) s.

(** [s.indexOf(pat)]: position of the first occurrence, or -1. *)
Definition indexOf (s pat : string) : Z :=
  match String.index 0 pat s with
  | Some i => Z.of_nat i
  | None => (-1)%Z
  end.

(** [s.replace(/pat/g, rep)] for a literal, non-empty pattern: matches are
    found left to right and do not overlap.  [skip] counts the characters
    of the current match that are still to be consumed. *)
Fixpoint replaceAllFrom (pat rep : string) (skip : nat) (s : string) : string :=
  match s with
  | EmptyString => EmptyString
  | String c r =>
      match skip with
      | S k => replaceAllFrom pat rep k r
      | O =>
          if String.prefix pat s
          then rep ++ replaceAllFrom pat rep (String.length pat - 1) r
          else String c (replaceAllFrom pat rep 0 r)
      end
  end.

Definition replaceAll (pat rep s : string) : string :=
  replaceAllFrom pat rep 0 s.

(** [s.replace(pat, rep)] with a string pattern: first occurrence only. *)
Definition replaceFirst (pat rep s : string) : string :=
  match String.index 0 pat s with
  | Some i =>
      String.substring 0 i s ++ rep
        ++ String.substring (i + String.length pat)
             (String.length s - (i + String.length pat)) s
  | None => s
  end.

Definition ofZ (z : Z) : string := NilZero.string_of_int (Z.to_int z).

End JsString.

(* ================================================================== *)
(** ** JavaScript values *)

Module Js.
Import JsString.

(** The classes whose instances the code tells apart with [instanceof]. *)
Inductive cls : Type :=
| CObject | CError | CSfdxError | CSfdxFalconError | CSfdxCliError | CShellError.

Definition cls_eqb (a b : cls) : bool :=
  match a, b with
  | CObject, CObject | CError, CError | CSfdxError, CSfdxError
  | CSfdxFalconError, CSfdxFalconError | CSfdxCliError, CSfdxCliError
  | CShellError, CShellError => true
  | _, _ => false
  end.

(** [super_of c]: the class [c] extends. *)
Definition super_of (c : cls) : option cls :=
  match c with
  | CObject => None
  | CError => Some CObject
  | CSfdxError => Some CError
  | CSfdxFalconError => Some CSfdxError
  | CSfdxCliError => Some CSfdxFalconError
  | CShellError => Some CSfdxFalconError
  end.

Fixpoint extends_upto (fuel : nat) (c d : cls) : bool :=
  cls_eqb c d ||
  match fuel with
  | O => false
  | S f => match super_of c with
           | Some p => extends_upto f p d
           | None => false
           end
  end.

Definition extends (c d : cls) : bool := extends_upto 5 c d.

(** A value.  An object carries the identity it got when it was created,
    its class and its own properties in creation order. *)
Inductive value : Type :=
| VUndefined
| VNull
| VBool (b : bool)
| VNum (n : Z)
| VStr (s : string)
| VArr (xs : list value)
| VObj (oid : nat) (c : cls) (props : list (string * value)).

Definition props := list (string * value).

(** [v instanceof C] *)
Definition instanceOf (v : value) (d : cls) : bool :=
  match v with
  | VObj _ c _ => extends c d
  | VArr _ => cls_eqb d CObject
  | _ => false
  end.

Inductive jstype := TUndefined | TObject | TBoolean | TNumber | TString.

Definition typeOf (v : value) : jstype :=
  match v with
  | VUndefined => TUndefined
  | VNull => TObject
  | VBool _ => TBoolean
  | VNum _ => TNumber
  | VStr _ => TString
  | VArr _ => TObject
  | VObj _ _ _ => TObject
  end.

Definition isBoolean (v : value) : bool :=
  match typeOf v with TBoolean => true | _ => false end.
Definition isString (v : value) : bool :=
  match typeOf v with TString => true | _ => false end.

(** ToBoolean *)
Definition truthy (v : value) : bool :=
  match v with
  | VUndefined | VNull => false
  | VBool b => b
  | VNum n => negb (n =? 0)%Z
  | VStr s => negb (isEmptyStr s)
  | VArr _ | VObj _ _ _ => true
  end.

Fixpoint lookup (k : string) (ps : props) : value :=
  match ps with
  | [] => VUndefined
  | (k', v) :: r => if String.eqb k k' then v else lookup k r
  end.

Fixpoint hasKey (k : string) (ps : props) : bool :=
  match ps with
  | [] => false
  | (k', _) :: r => String.eqb k k' || hasKey k r
  end.

(** [o.k = v] on the property list: overwrite in place, or append. *)
Fixpoint assign (k : string) (v : value) (ps : props) : props :=
  match ps with
  | [] => [(k, v)]
  | (k', v') :: r =>
      if String.eqb k k' then (k, v) :: r else (k', v') :: assign k v r
  end.

Definition setProp (o : value) (k : string) (v : value) : value :=
  match o with
  | VObj i c ps => VObj i c (assign k v ps)
  | _ => o
  end.

(** The accessors [SfdxFalconError.prototype] defines over private members. *)
Definition accessorTarget (k : string) : option string :=
  if String.eqb k "detail" then Some "_detail"
  else if String.eqb k "debugInfo" then Some "_debugInfo"
  else if String.eqb k "devInfo" then Some "_devInfo"
  else if String.eqb k "resultStack" then Some "_resultStack"
  else if String.eqb k "userInfo" then Some "_userInfo"
  else None.

(** What [Error.prototype] gives an Error that has no own [name] or
    [message]. *)
Definition inherited (c : cls) (k : string) : value :=
  if extends c CError then
    if String.eqb k "name" then VStr "Error"
    else if String.eqb k "message" then VStr ""
    else VUndefined
  else VUndefined.

(** [v.k] for a [v] that is neither [undefined] nor [null]. *)
Definition prop (v : value) (k : string) : value :=
  match v with
  | VObj _ c ps =>
      match (if extends c CSfdxFalconError then accessorTarget k else None) with
      | Some k' => lookup k' ps
      | None => if hasKey k ps then lookup k ps else inherited c k
      end
  | VArr xs =>
      if String.eqb k "length" then VNum (Z.of_nat (List.length xs)) else VUndefined
  | VStr s =>
      if String.eqb k "length" then VNum (Z.of_nat (String.length s)) else VUndefined
  | _ => VUndefined
  end.

(** [message] and [stack] of an Error are own but not enumerable. *)
Definition enumerable (c : cls) (k : string) : bool :=
  negb (extends c CError && (String.eqb k "message" || String.eqb k "stack")).

(** lodash [isEmpty]: [null], [undefined], numbers and booleans are empty;
    strings and arrays are empty at length 0; an object is empty when it
    has no own enumerable property. *)
Definition isEmpty (v : value) : bool :=
  match v with
  | VUndefined | VNull | VBool _ | VNum _ => true
  | VStr s => isEmptyStr s
  | VArr xs => match xs with [] => true | _ => false end
  | VObj _ c ps => forallb (fun kv => negb (enumerable c (fst kv))) ps
  end.

Definition joinWith (sep : string) (parts : list string) : string :=
  match parts with
  | [] => ""
  | p :: r => fold_left (fun acc q => acc ++ sep ++ q) r p
  end.

(** [String(v)], which is also the conversion a template literal applies:
    [None] when the conversion throws a TypeError.  An object that has a
    member [toString] of its own, which is no function, cannot be converted:
    the conversion skips it, and [valueOf], own or inherited, gives no
    primitive value either.  An array joins the conversions of its elements,
    and an Error prints its name and its message, so both fail when one of
    these conversions fails. *)
Fixpoint toStr (v : value) : option string :=
  match v with
  | VUndefined => Some "undefined"
  | VNull => Some "null"
  | VBool true => Some "true"
  | VBool false => Some "false"
  | VNum n => Some (ofZ n)
  | VStr s => Some s
  | VArr xs =>
      option_map (joinWith ",")
        ((fix each (l : list value) : option (list string) :=
            match l with
            | [] => Some []
            | x :: r =>
                match (match x with
                       | VUndefined | VNull => Some ""
                       | _ => toStr x
                       end), each r with
                | Some s, Some ss => Some (s :: ss)
                | _, _ => None
                end
            end) xs)
  | VObj _ c ps =>
      if hasKey "toString" ps then None
      else if extends c CError then
        let name :=
          (fix find (l : props) : option string :=
             match l with
             | [] => Some "Error"
             | (k, x) :: r =>
                 if String.eqb k "name"
                 then match x with VUndefined => Some "Error" | _ => toStr x end
                 else find r
             end) ps in
        let msg :=
          (fix find (l : props) : option string :=
             match l with
             | [] => Some ""
             | (k, x) :: r =>
                 if String.eqb k "message"
                 then match x with VUndefined => Some "" | _ => toStr x end
                 else find r
             end) ps in
        match name, msg with
        | Some name, Some msg =>
            Some (if isEmptyStr name then msg
                  else if isEmptyStr msg then name
                  else name ++ ": " ++ msg)
        | _, _ => None
        end
      else Some "[object Object]"
  end.

End Js.

(* ================================================================== *)
(** ** Throwing and allocating code *)

Module Eff.
Import Js.

Inductive exn : Type :=
| TypeError (msg : string)
| SyntaxError (msg : string)
| OtherError (msg : string).

Inductive completion (A : Type) : Type :=
| Normal (a : A)
| Throw (e : exn).
Arguments Normal {A} a.
Arguments Throw {A} e.

Definition cbind {A B} (m : completion A) (f : A -> completion B) : completion B :=
  match m with
  | Normal a => f a
  | Throw e => Throw e
  end.

(** A loop over a list whose body can throw, with the value it builds up;
    and the results of a body that can throw, element by element. *)
Fixpoint foldM {A B} (f : A -> B -> completion A) (l : list B) (a : A)
  : completion A :=
  match l with
  | [] => Normal a
  | x :: r => cbind (f a x) (foldM f r)
  end.

Fixpoint mapM {A B} (f : A -> completion B) (l : list A) : completion (list B) :=
  match l with
  | [] => Normal []
  | x :: r => cbind (f x) (fun y => cbind (mapM f r) (fun ys => Normal (y :: ys)))
  end.

(** [v.k]: a TypeError when [v] is [undefined] or [null]. *)
Definition getProp (v : value) (k : string) : completion value :=
  match v with
  | VUndefined => Throw (TypeError ("Cannot read property '" ++ k ++ "' of undefined"))
  | VNull => Throw (TypeError ("Cannot read property '" ++ k ++ "' of null"))
  | _ => Normal (prop v k)
  end.

(** The TypeError of a conversion to a string that fails. *)
Definition conversionError : exn :=
  TypeError "Cannot convert object to primitive value".

(** [String(v)] and the conversion of [v] in a template literal, as code
    that can throw. *)
Definition toString (v : value) : completion string :=
  match toStr v with
  | Some s => Normal s
  | None => Throw conversionError
  end.

(** Code that creates objects threads the next free object identity. *)
Definition M (A : Type) : Type := nat -> completion A * nat.

Definition ret {A} (a : A) : M A := fun n => (Normal a, n).
Definition throw {A} (e : exn) : M A := fun n => (Throw e, n).
Definition lift {A} (c : completion A) : M A := fun n => (c, n).
Definition bind {A B} (m : M A) (f : A -> M B) : M B :=
  fun n => match m n with
           | (Normal a, n') => f a n'
           | (Throw e, n') => (Throw e, n')
           end.
Definition tryCatch {A} (body : M A) (handler : exn -> M A) : M A :=
  fun n => match body n with
           | (Normal a, n') => (Normal a, n')
           | (Throw e, n') => handler e n'
           end.

(** [{...}]: a new plain object. *)
Definition newObject (ps : props) : M value :=
  fun n => (Normal (VObj n CObject ps), S n).

End Eff.

Declare Scope eff_scope.
Delimit Scope eff_scope with eff.
Notation "x <- m ;; k" := (Eff.bind m (fun x => k))
  (at level 61, m at next level, right associativity) : eff_scope.
Notation "x <~ m ;; k" := (Eff.cbind m (fun x => k))
  (at level 61, m at next level, right associativity) : eff_scope.

(* ================================================================== *)
(** ** executors/sfdx.ts: the command sanitizer *)

Module Sanitizer.
Import JsString Js Eff.
Local Open Scope eff_scope.

Record SfdxCommandDefinition : Type := {
  command      : string;
  progressMsg  : string;
  errorMsg     : string;
  successMsg   : string;
  commandArgs  : list string;
  (** declared [any]: [None] stands for [undefined] and [null]; every other
      value is given by its own enumerable keys in [Object.keys] order, with
      their values *)
  commandFlags : option (list (string * value));
  observer     : value
}.

(** [A-Za-z0-9_/:=-] *)
Definition safeArgChar (c : ascii) : bool :=
  isUpper c || isLower c || isDigit c ||
  Ascii.eqb c "_" || Ascii.eqb c "/" || Ascii.eqb c ":" ||
  Ascii.eqb c "=" || Ascii.eqb c "-".

(** [/^(?:'')+/]: the leading run of doubled single quotes is dropped. *)
Fixpoint dropLeadingQuotePairs (s : string) : string :=
  match s with
  | String "'" (String "'" r) => dropLeadingQuotePairs r
  | _ => s
  end.

Definition sanitizeArgument (argument : value) : completion string :=
  argument <~ toString argument ;;
  let argument := trim argument in
  if existsChar (fun c => negb (safeArgChar c)) argument then
    let argument := "'" ++ replaceAll "'" "'\''" argument ++ "'" in
    let argument := dropLeadingQuotePairs argument in
    Normal (replaceAll "\'''" "\'" argument)
  else Normal argument.

(** [a-z0-9-], case-insensitively *)
Definition flagChar (c : ascii) : bool :=
  isLower c || isUpper c || isDigit c || Ascii.eqb c "-".

Definition sanitizeFlag (flag : string) : string :=
  let flag := trim flag in
  filterChars flagChar flag.

(** One turn of the loop over [commandArgs]. *)
Definition addArgument (parsedCommand : string) (argument : string)
  : completion string :=
  sanitized <~ sanitizeArgument (VStr argument) ;;
  Normal (parsedCommand ++ " " ++ sanitized).

(** One turn of the loop over [Object.keys(commandFlags)]. *)
Definition addFlag (parsedCommand : string) (kv : string * value)
  : completion string :=
  let (objectKey, value) := kv in
  if negb (String.eqb (toUpperCase (substr objectKey 0 5)) "FLAG_")
  then Normal parsedCommand
  else
    let flag := toLowerCase (substringFrom objectKey 5) in
    let hyphen := if (String.length flag =? 1)%nat then "-" else "--" in
    let resolvedFlag := sanitizeFlag (hyphen ++ flag) in
    if isBoolean value
    then Normal (parsedCommand ++ " " ++ resolvedFlag)
    else
      sanitized <~ sanitizeArgument value ;;
      Normal (parsedCommand ++ " " ++ resolvedFlag ++ " " ++ sanitized).

(** [Object.keys(o)], with the values at the keys: a TypeError when [o] is
    [undefined] or [null]. *)
Definition objectKeys (o : option (list (string * value)))
  : completion (list (string * value)) :=
  match o with
  | Some entries => Normal entries
  | None => Throw (TypeError "Cannot convert undefined or null to object")
  end.

Definition parseSfdxCommand (sfdxCommand : SfdxCommandDefinition)
  : completion string :=
  let parsedCommand := "sfdx " ++ command sfdxCommand in
  parsedCommand <~ foldM addArgument (commandArgs sfdxCommand) parsedCommand ;;
  keys <~ objectKeys (commandFlags sfdxCommand) ;;
  foldM addFlag keys parsedCommand.

End Sanitizer.


(* ------------------------------------------------------------------ *)
(** *** What the specification says of the sanitizer *)

Module SanitizerSpec.
Import JsString Js Eff Sanitizer.
Local Open Scope eff_scope.

(** The key convention: the first five characters read FLAG_ once upper-cased. *)
Definition isFlagKey (objectKey : string) : bool :=
  String.eqb (toUpperCase (substr objectKey 0 5)) "FLAG_".

(** The flag name: what follows the prefix, lower-cased. *)
Definition flagName (objectKey : string) : string :=
  toLowerCase (substringFrom objectKey 5).

Definition dashes (name : string) : string :=
  if (String.length name =? 1)%nat then "-" else "--".

Definition flagToken (objectKey : string) : string :=
  sanitizeFlag (dashes (flagName objectKey) ++ flagName objectKey).

(** A flag as the compiler renders it: bare for a boolean value. *)
Definition renderFlag (kv : string * value) : completion string :=
  if isBoolean (snd kv) then Normal (" " ++ flagToken (fst kv))
  else
    sanitized <~ sanitizeArgument (snd kv) ;;
    Normal (" " ++ flagToken (fst kv) ++ " " ++ sanitized).

(** A flag as the specification words it: bare for [true], and for any other
    value the flag followed by the sanitized value. *)
Definition renderFlag_as_specified (kv : string * value) : completion string :=
  match snd kv with
  | VBool true => Normal (" " ++ flagToken (fst kv))
  | v =>
      sanitized <~ sanitizeArgument v ;;
      Normal (" " ++ flagToken (fst kv) ++ " " ++ sanitized)
  end.

(** A positional argument as the compiler renders it. *)
Definition renderArgument (argument : string) : completion string :=
  sanitized <~ sanitizeArgument (VStr argument) ;;
  Normal (" " ++ sanitized).

(** The compiled command: [sfdx], the command, the arguments, then the
    flags of the keys that follow the convention, in key order; it throws
    what the first rendering that fails throws, and a TypeError when there
    are no flags to look through. *)
Definition compileWith (render : string * value -> completion string)
    (def : SfdxCommandDefinition) : completion string :=
  arguments <~ mapM renderArgument (commandArgs def) ;;
  keys <~ objectKeys (commandFlags def) ;;
  flags <~ mapM render (List.filter (fun kv => isFlagKey (fst kv)) keys) ;;
  Normal ("sfdx " ++ command def ++ flatten arguments ++ flatten flags).

(** Characters a POSIX shell does not take literally outside quotes
    (XCU 2.2: the operators and quoting characters, and the characters that
    are special in some contexts). *)
Definition shellSpecial (c : ascii) : bool :=
  isWhiteSpace c ||
  existsChar (Ascii.eqb c) "|&;<>()$`*?[#~%!{}" ||
  Ascii.eqb c (ascii_of_nat 34).

(** How a POSIX shell reads one word: inside single quotes every character
    up to the closing quote is literal; outside, a backslash makes the next
    character literal.  [None] when the text is not one complete word. *)
Fixpoint shellWord (quoted : bool) (s : string) : option string :=
  match s with
  | EmptyString => if quoted then None else Some EmptyString
  | String c r =>
      if quoted then
        if Ascii.eqb c "'" then shellWord false r
        else option_map (String c) (shellWord true r)
      else if Ascii.eqb c "'" then shellWord true r
      else if Ascii.eqb c "\" then
        match r with
        | String d r' => option_map (String d) (shellWord false r')
        | EmptyString => None
        end
      else if shellSpecial c then None
      else option_map (String c) (shellWord false r)
  end.

Definition deleteOrgFlags : SfdxCommandDefinition :=
  {| command := "force:org:delete"; progressMsg := ""; errorMsg := "";
     successMsg := ""; commandArgs := []; observer := VUndefined;
     commandFlags := Some [("FLAG_TARGETUSERNAME", VStr "dev@org.com");
                           ("FLAG_NOPROMPT", VBool false);
                           ("FLAG_JSON", VBool true)] |}.

End SanitizerSpec.

(* ================================================================== *)
(** ** sfdx-falcon-error/index.ts *)

Module FalconError.
Import JsString Js Eff.
Local Open Scope eff_scope.

(** What the platform and the imported packages provide. *)
Record Platform : Type := {
  (** [JSON.parse]: the value, or [None] for a SyntaxError *)
  JSON_parse : string -> option value;
  (** the global [isNaN] on a string: the string does not read as a number *)
  notANumber : string -> bool;
  (** the stack trace the engine records in the Error created with the
      given identity *)
  stackOf : nat -> string;
  (** chalk: the text in the named style *)
  chalk : string -> string -> string;
  (** [util.inspect(v, {depth, colors: true})] *)
  inspect : value -> Z -> string
}.

(** [a || b] *)
Definition orElse (a b : value) : value := if truthy a then a else b.

(** A parameter with a default value. *)
Definition defaultTo (d : value) (a : value) : value :=
  match a with VUndefined => d | _ => a end.

(** [typeof v === 'string' && v]: the string that [v] is, when it is one
    and is not empty. *)
Definition nonEmptyText (v : value) : option string :=
  match v with
  | VStr s => if isEmptyStr s then None else Some s
  | _ => None
  end.

(** [receiver.replace(pattern, replacement)] on a receiver that is neither
    [undefined] nor [null], with strings for the pattern and the
    replacement: only a string has the method. *)
Definition replaceIn (receiver : value) (pattern replacement : string)
  : completion value :=
  match receiver with
  | VStr s => Normal (VStr (replaceFirst pattern replacement s))
  | _ => Throw (TypeError "replace is not a function")
  end.

Section WithPlatform.
Variable P : Platform.

(** The global [isNaN(v)]: [v] is converted to a number, an object by way
    of the string it converts to. *)
Definition isNaN (v : value) : completion bool :=
  match v with
  | VUndefined => Normal true
  | VNull | VBool _ | VNum _ => Normal false
  | VStr s => Normal (notANumber P s)
  | VArr _ | VObj _ _ _ => s <~ toString v ;; Normal (notANumber P s)
  end.

(** [new SfdxFalconErrorInfo()] *)
Definition newSfdxFalconErrorInfo : M value :=
  newObject [("title", VStr "UNKNOWN ERROR");
             ("message", VStr "An unknown error has occured");
             ("actions", VArr [])].

(** [SfdxError] of the package @salesforce/core, over [NamedError] of
    @salesforce/kit, constructed as an instance of [c].  [NamedError] hands
    a message that is a string to [Error] and keeps the cause it is given; a
    message that is no string it takes for the cause, and the Error is left
    without a message of its own.  [SfdxError] names the error [SfdxError]
    when it is given no name, and gives it the exit code 1 when it is given
    none. *)
Definition newSfdxError (c : cls) (message name actions exitCode cause : value)
  : M value :=
  fun n =>
    let this :=
      match message with
      | VStr _ =>
          VObj n c [("message", message); ("stack", VStr (stackOf P n));
                    ("cause", cause)]
      | _ =>
          VObj n c [("stack", VStr (stackOf P n)); ("cause", message)]
      end in
    let this := setProp this "name" (orElse name (VStr "SfdxError")) in
    let this := setProp this "actions" actions in
    let this := setProp this "exitCode" (orElse exitCode (VNum 1)) in
    (Normal this, S n).

(** [new SfdxFalconError(message, name, source, cause, actions, exitCode)],
    also the [super(...)] call of the classes that extend it. *)
Definition newSfdxFalconError (c : cls)
    (message name source cause actions exitCode : value) : M value :=
  let source := defaultTo (VStr "Unhandled Exception") source in
  let thisName := orElse name (VStr "SfdxFalconError") in
  this <- newSfdxError c message thisName (orElse actions (VArr []))
            (orElse exitCode (VNum 1)) cause ;;
  data <- newObject [] ;;
  let this := setProp this "data" data in
  let this := setProp this "source" source in
  detail <- newObject [] ;;
  let this := setProp this "_detail" detail in
  userInfo <- newSfdxFalconErrorInfo ;;
  let this := setProp this "_userInfo" userInfo in
  debugInfo <- newSfdxFalconErrorInfo ;;
  let this := setProp this "_debugInfo" debugInfo in
  devInfo <- newSfdxFalconErrorInfo ;;
  let this := setProp this "_devInfo" devInfo in
  if truthy cause
  then ret (setProp this "_resultStack" (orElse (prop cause "resultStack") (VStr "")))
  else ret (setProp this "_resultStack" (VStr "")).

(** [addToStack] *)
Definition addToStack (this : value) (stackItem : string) : completion value :=
  let indent := "    " in
  if truthy (prop this "_resultStack") then
    resultStack <~ toString (prop this "_resultStack") ;;
    Normal (setProp this "_resultStack"
              (VStr (indent ++ stackItem ++ nl ++ resultStack)))
  else Normal (setProp this "_resultStack" (VStr (indent ++ stackItem))).

(** The largest number of nested objects and arrays in a value. *)
Fixpoint height (v : value) : nat :=
  match v with
  | VArr xs => S (fold_right (fun x acc => Nat.max (height x) acc) 0%nat xs)
  | VObj _ _ ps => S (fold_right (fun kv acc => Nat.max (height (snd kv)) acc) 0%nat ps)
  | _ => 0%nat
  end.

(** The [while] loop of the [rootCause] getter; [fuel] bounds its turns. *)
Fixpoint rootCauseLoop (fuel : nat) (rootCause : value) : option value :=
  let cause := prop rootCause "cause" in
  if truthy cause && negb (isEmpty cause) then
    match fuel with
    | O => None
    | S fuel' => rootCauseLoop fuel' cause
    end
  else Some rootCause.

Definition rootCause (this : value) : option value :=
  rootCauseLoop (height this) this.

(** [SfdxFalconError.wrap(error, source)] *)
Definition wrap (error : value) (source : value) : M value :=
  if instanceOf error CSfdxFalconError then ret error
  else if instanceOf error CError then
    sfdxFalconError <-
      newSfdxFalconError CSfdxFalconError (prop error "message") (prop error "name")
        source VUndefined VUndefined VUndefined ;;
    if truthy (prop sfdxFalconError "stack") then
      name <- lift (toString (prop error "name")) ;;
      message <- lift (toString (prop error "message")) ;;
      replaced <-
        lift (replaceIn (prop sfdxFalconError "stack") (name ++ ": " ++ message)
                "Outer stack:") ;;
      let sfdxFalconError := setProp sfdxFalconError "stack" replaced in
      stack <- lift (toString (prop error "stack")) ;;
      outer <- lift (toString (prop sfdxFalconError "stack")) ;;
      ret (setProp sfdxFalconError "stack" (VStr (stack ++ nl ++ outer)))
    else ret sfdxFalconError
  else
    sfdxFalconError <-
      newSfdxFalconError CSfdxFalconError
        (VStr "Additional error detail saved to the SfdxFalconError.data Object.")
        (VStr "UnknownError") VUndefined VUndefined VUndefined VUndefined ;;
    data <- newObject [("unknownObj", error)] ;;
    ret (setProp sfdxFalconError "data" data).

(** The body of the [try] block of the SfdxCliError constructor.  Whatever
    it throws, the handler overwrites every member the block has assigned. *)
Definition readCliError (stdErrBuffer : string) (cliError : value)
    (actions : list value) : M value :=
  parsedError <-
    lift (match JSON_parse P stdErrBuffer with
          | Some v => Normal v
          | None => Throw (SyntaxError "Unexpected token in JSON")
          end) ;;
  name <- lift (getProp parsedError "name") ;;
  let cliError := setProp cliError "name" (orElse name (VStr "UnknownCliError")) in
  message <- lift (getProp parsedError "message") ;;
  let cliError :=
    setProp cliError "message"
      (orElse message
         (VStr "Unknown CLI Error (see 'cliError.result.rawResult' for original CLI response)")) in
  status <- lift (getProp parsedError "status") ;;
  statusIsNaN <- lift (isNaN status) ;;
  let cliError :=
    setProp cliError "status" (if statusIsNaN then VNum 1 else status) in
  parsedActions <- lift (getProp parsedError "actions") ;;
  let actions :=
    match parsedActions with
    | VArr xs => (actions ++ xs)%list
    | _ => actions
    end in
  action <- lift (getProp parsedError "action") ;;
  let actions := if truthy action then (actions ++ [action])%list else actions in
  let cliError := setProp cliError "actions" (VArr actions) in
  warnings <- lift (getProp parsedError "warnings") ;;
  let cliError := setProp cliError "warnings" (orElse warnings (VArr [])) in
  stack <- lift (getProp parsedError "stack") ;;
  let cliError := setProp cliError "stack" (orElse stack (VStr "")) in
  result <- lift (getProp parsedError "result") ;;
  if truthy result then ret (setProp cliError "result" result)
  else
    raw <- newObject [("rawResult", parsedError)] ;;
    ret (setProp cliError "result" raw).

(** The [catch] block of the SfdxCliError constructor. *)
Definition unparseableCliError (stdErrBuffer : string) (cliError : value) : M value :=
  let cliError := setProp cliError "name" (VStr "UnparseableCliError") in
  let cliError :=
    setProp cliError "message"
      (VStr "Unparseable CLI Error (see 'cliError.result.rawResult' for raw error)") in
  let cliError := setProp cliError "status" (VNum 999) in
  let cliError := setProp cliError "actions" (VArr []) in
  let cliError := setProp cliError "warnings" (VArr []) in
  let cliError :=
    setProp cliError "stack"
      (VStr "Unparseable CLI Error (see 'cliError.result.rawResult' for raw error)") in
  raw <- newObject [("rawResult", VStr stdErrBuffer)] ;;
  ret (setProp cliError "result" raw).

(** [new SfdxCliError(stdErrBuffer, message, source)].  The message handed
    to [super] is put together after the [try] statement: a conversion that
    fails there is not caught. *)
Definition newSfdxCliError (stdErrBuffer : string) (message source : value) : M value :=
  let message := defaultTo (VStr "Unknown CLI Error") message in
  let source := defaultTo (VStr "") source in
  cliError <- newObject [] ;;
  let actions : list value := [] in
  cliError <-
    tryCatch (readCliError stdErrBuffer cliError actions)
             (fun parsingError => unparseableCliError stdErrBuffer cliError) ;;
  message <- lift (toString message) ;;
  cliMessage <- lift (toString (prop cliError "message")) ;;
  this <-
    newSfdxFalconError CSfdxCliError (VStr (message ++ ". " ++ cliMessage))
      (VStr "SfdxCliError") source VUndefined VUndefined VUndefined ;;
  let this := setProp this "cliError" cliError in
  if negb (isEmpty (prop cliError "actions"))
  then ret (setProp this "actions" (prop cliError "actions"))
  else ret this.

(** The message a ShellError takes when its caller gives none. *)
Definition shellErrorMessage (code signal stdErrBuffer stdOutBuffer message : value)
  : completion value :=
  if negb (truthy message) then
    match nonEmptyText stdErrBuffer with
    | Some s => Normal (VStr (substr s 0 (indexOf s nl)))
    | None =>
        match nonEmptyText stdOutBuffer with
        | Some s => Normal (VStr (substr s 0 (indexOf s nl)))
        | None =>
            code <~ toString code ;;
            signal <~ toString signal ;;
            Normal (VStr ("Unknown Shell Error (code=" ++ code ++ ", signal="
                            ++ signal ++ ")"))
        end
    end
  else Normal message.

(** [new ShellError(command, code, signal, stdErrBuffer, stdOutBuffer,
    source, message)] *)
Definition newShellError
    (command code signal stdErrBuffer stdOutBuffer source message : value) : M value :=
  let stdOutBuffer := defaultTo VNull stdOutBuffer in
  let source := defaultTo (VStr "") source in
  let message := defaultTo (VStr "") message in
  message <- lift (shellErrorMessage code signal stdErrBuffer stdOutBuffer message) ;;
  text <- lift (toString message) ;;
  this <-
    newSfdxFalconError CShellError (VStr text) (VStr "ShellError") source
      VUndefined VUndefined VUndefined ;;
  shellError <- newObject [] ;;
  let shellError := setProp shellError "command" command in
  let shellError := setProp shellError "code" code in
  let shellError := setProp shellError "signal" signal in
  let shellError := setProp shellError "stdout" stdOutBuffer in
  let shellError := setProp shellError "stderr" stdErrBuffer in
  let shellError := setProp shellError "message" message in
  ret (setProp this "shellError" shellError).

(** *** Rendering *)

Record SfdxFalconErrorRenderOptions : Type := {
  headerColor        : string;
  labelColor         : string;
  errorLabelColor    : string;
  valueColor         : string;
  childInspectDepth  : Z;
  detailInspectDepth : Z;
  errorInspectDepth  : Z
}.

(** [renderOutput += chalk`<before>${v}`] when [print] holds: the chalk tag
    converts what it is given with [String]. *)
Definition appendValue (print : bool) (renderOutput before : string) (v : value)
  : completion string :=
  if print then
    text <~ toString v ;;
    Normal (renderOutput ++ before ++ text)
  else Normal renderOutput.

Definition renderBaseDetail (errorToRender : value)
    (options : SfdxFalconErrorRenderOptions) : completion string :=
  let label := chalk P (errorLabelColor options) in
  let plain := chalk P (valueColor options) in
  name <~ getProp errorToRender "name" ;;
  name <~ toString name ;;
  message <~ getProp errorToRender "message" ;;
  message <~ toString message ;;
  let renderOutput :=
    nl ++ label "Error Name:" ++ "    " ++ plain name
       ++ nl ++ label "Error Message:" ++ " " ++ plain message in
  actions <~ getProp errorToRender "actions" ;;
  let renderOutput :=
    if truthy actions && negb (isEmpty actions) then
      renderOutput ++ nl
        ++ label ("SfdxError Actions (Depth " ++ ofZ (childInspectDepth options) ++ "):")
        ++ nl ++ chalk P "reset" (inspect P actions (childInspectDepth options))
    else renderOutput in
  source <~ getProp errorToRender "source" ;;
  source <~ toString source ;;
  stack <~ getProp errorToRender "stack" ;;
  stack <~ toString stack ;;
  let renderOutput :=
    renderOutput
      ++ nl ++ label "Error Source:" ++ "  " ++ plain source
      ++ nl ++ label "Error Stack:" ++ " " ++ nl ++ plain stack in
  resultStack <~ getProp errorToRender "resultStack" ;;
  renderOutput <~
    appendValue (truthy resultStack && negb (isEmpty resultStack)) renderOutput
      (nl ++ label "Result Stack:" ++ nl) resultStack ;;
  detail <~ getProp errorToRender "detail" ;;
  let renderOutput :=
    if truthy detail && negb (isEmpty detail) then
      renderOutput ++ nl ++ label "Error Detail:" ++ nl
        ++ chalk P "reset" (inspect P detail 10)
    else renderOutput in
  data <~ getProp errorToRender "data" ;;
  let renderOutput :=
    if truthy data && negb (isEmpty data) then
      renderOutput ++ nl
        ++ label ("Error Data (Depth " ++ ofZ (errorInspectDepth options) ++ "):")
        ++ nl ++ chalk P "reset" (inspect P data (errorInspectDepth options))
    else renderOutput in
  Normal renderOutput.

(** [errorToRender.member.k] *)
Definition getMember (errorToRender : value) (member k : string) : completion value :=
  m <~ getProp errorToRender member ;; getProp m k.

(** One turn of the loop over [cliError.actions]. *)
Definition appendAction (renderOutput : string) (action : value) : completion string :=
  text <~ toString action ;;
  Normal (renderOutput ++ nl ++ chalk P "green" text).

Definition renderSfdxCliErrorDetail (errorToRender : value)
    (options : SfdxFalconErrorRenderOptions) : completion string :=
  let label := chalk P (errorLabelColor options) in
  let renderOutput := "" in
  name <~ getMember errorToRender "cliError" "name" ;;
  renderOutput <~
    appendValue (negb (isEmpty name)) renderOutput
      (nl ++ label "CLI Error Name:" ++ "    ") name ;;
  message <~ getMember errorToRender "cliError" "message" ;;
  renderOutput <~
    appendValue (negb (isEmpty message)) renderOutput
      (nl ++ label "CLI Error Message:" ++ " ") message ;;
  status <~ getMember errorToRender "cliError" "status" ;;
  renderOutput <~
    appendValue (negb (isEmpty status)) renderOutput
      (nl ++ label "CLI Error Status:" ++ "  ") status ;;
  actions <~ getMember errorToRender "cliError" "actions" ;;
  renderOutput <~
    match actions with
    | VArr xs => foldM appendAction xs (renderOutput ++ nl ++ label "CLI Error Actions:")
    | _ => Normal renderOutput
    end ;;
  warnings <~ getMember errorToRender "cliError" "warnings" ;;
  let renderOutput :=
    if negb (isEmpty warnings)
    then renderOutput ++ nl ++ label "CLI Error Warnings:" ++ nl
           ++ inspect P warnings (childInspectDepth options)
    else renderOutput in
  stack <~ getMember errorToRender "cliError" "stack" ;;
  renderOutput <~
    appendValue (negb (isEmpty stack) && (5 <=? childInspectDepth options)%Z)
      renderOutput (nl ++ label "CLI Error Stack:" ++ "   " ++ nl) stack ;;
  result <~ getMember errorToRender "cliError" "result" ;;
  let renderOutput :=
    if negb (isEmpty result) && (2 <=? childInspectDepth options)%Z
    then
      let cliRawResultDepth := 5%Z in
      renderOutput ++ nl
        ++ label ("CLI Error Raw Result: (Depth " ++ ofZ cliRawResultDepth ++ ")")
        ++ nl ++ inspect P result cliRawResultDepth
    else renderOutput in
  Normal renderOutput.

Definition renderShellErrorDetail (errorToRender : value)
    (options : SfdxFalconErrorRenderOptions) : completion string :=
  let label := chalk P (errorLabelColor options) in
  let renderOutput := "" in
  command <~ getMember errorToRender "shellError" "command" ;;
  renderOutput <~
    appendValue (negb (isEmpty command)) renderOutput
      (nl ++ label "ShellError Command:" ++ " ") command ;;
  code <~ getMember errorToRender "shellError" "code" ;;
  renderOutput <~
    appendValue (truthy code) renderOutput
      (nl ++ label "ShellError Code:" ++ "    ") code ;;
  signal <~ getMember errorToRender "shellError" "signal" ;;
  renderOutput <~
    appendValue (negb (isEmpty signal)) renderOutput
      (nl ++ label "ShellError Signal:" ++ "  ") signal ;;
  message <~ getMember errorToRender "shellError" "message" ;;
  renderOutput <~
    appendValue (negb (isEmpty message)) renderOutput
      (nl ++ label "ShellError Message:" ++ " ") message ;;
  stderr <~ getMember errorToRender "shellError" "stderr" ;;
  renderOutput <~
    appendValue (negb (isEmpty stderr)) renderOutput
      (nl ++ label "ShellError StdErr:" ++ nl) stderr ;;
  stdout <~ getMember errorToRender "shellError" "stdout" ;;
  renderOutput <~
    appendValue (negb (isEmpty stdout)) renderOutput
      (nl ++ label "ShellError StdOut:" ++ nl) stdout ;;
  Normal renderOutput.

Definition renderUnknownDetail (unknownObject : value)
    (options : SfdxFalconErrorRenderOptions) : completion string :=
  let label := chalk P (errorLabelColor options) in
  let plain := chalk P (valueColor options) in
  Normal
    (nl ++ label "Error Name:" ++ "    " ++ plain "UNKNOWN"
        ++ nl ++ label "Error Message:" ++ " "
        ++ plain "The object provided is not of type 'Error'"
        ++ nl ++ label "Error Stack:" ++ "   " ++ plain "Not Available"
        ++ nl ++ label ("Raw Object: (Depth " ++ ofZ (childInspectDepth options) ++ ")")
        ++ nl ++ inspect P unknownObject (childInspectDepth options)).

(** A numeric parameter with a default, then [|| default]. *)
Definition depthOr (given : option Z) (default : Z) : Z :=
  match given with
  | Some d => if (d =? 0)%Z then default else d
  | None => default
  end.

(** [SfdxFalconError.renderError(errorToRender, childInspectDepth,
    detailInspectDepth, errorInspectDepth)] *)
Definition renderError (errorToRender : value)
    (childDepth detailDepth errorDepth : option Z) : completion string :=
  let renderOptions :=
    {| headerColor := "yellow";
       labelColor := "blue";
       errorLabelColor := "red";
       valueColor := "reset";
       childInspectDepth := depthOr childDepth 2;
       detailInspectDepth := depthOr detailDepth 4;
       errorInspectDepth := depthOr errorDepth 1 |} in
  if negb (instanceOf errorToRender CError)
  then renderUnknownDetail errorToRender renderOptions
  else
    renderOutput <~ renderBaseDetail errorToRender renderOptions ;;
    renderOutput <~
      (if instanceOf errorToRender CSfdxCliError
       then more <~ renderSfdxCliErrorDetail errorToRender renderOptions ;;
            Normal (renderOutput ++ more)
       else Normal renderOutput) ;;
    if instanceOf errorToRender CShellError
    then more <~ renderShellErrorDetail errorToRender renderOptions ;;
         Normal (renderOutput ++ more)
    else Normal renderOutput.

End WithPlatform.
End FalconError.

(* ------------------------------------------------------------------ *)
(** *** What the specification says of the error classes *)

Module FalconErrorSpec.
Import JsString Js Eff FalconError.

(** [r] is reached from [e] by following [cause] links, each of them
    present and not empty. *)
Inductive causeChain : value -> value -> Prop :=
| chain_here (e : value) : causeChain e e
| chain_step (e r : value) :
    truthy (prop e "cause") = true ->
    isEmpty (prop e "cause") = false ->
    causeChain (prop e "cause") r ->
    causeChain e r.

(** The text of [s] before its first newline; the empty string when [s]
    has no newline. *)
Fixpoint upToNewline (s : string) : option string :=
  match s with
  | EmptyString => None
  | String c r =>
      if Ascii.eqb c (ascii_of_nat 10) then Some EmptyString
      else option_map (String c) (upToNewline r)
  end.

Definition beforeFirstNewline (s : string) : string :=
  match upToNewline s with
  | Some line => line
  | None => EmptyString
  end.

(** [v] is a string that is not empty. *)
Definition nonEmptyString (v : value) : bool :=
  match v with
  | VStr s => negb (isEmptyStr s)
  | _ => false
  end.

(** No message given: the parameter is left out, or is the empty string. *)
Definition noMessage (message : value) : bool :=
  match message with
  | VUndefined => true
  | VStr s => isEmptyStr s
  | _ => false
  end.

(** [v] can be the receiver of a property read. *)
Definition readable (v : value) : bool :=
  match v with
  | VUndefined | VNull => false
  | _ => true
  end.

Definition isPlainObject (v : value) : Prop :=
  exists i ps, v = VObj i CObject ps.

(** An instance of SfdxCliError has its [cliError] member, and an instance
    of ShellError its [shellError] member, as their constructors set them. *)
Definition membersSet (e : value) : bool :=
  implb (instanceOf e CSfdxCliError) (readable (prop e "cliError")) &&
  implb (instanceOf e CShellError) (readable (prop e "shellError")).

(** [v] converts to a string: it is no object that holds a [toString]
    member, and no array or Error that shows such an object. *)
Definition printable (v : value) : bool :=
  match toStr v with
  | Some _ => true
  | None => false
  end.

(** A member that is not empty converts to a string. *)
Definition printableIfGiven (v : value) : bool :=
  implb (negb (isEmpty v)) (printable v).

(** What the rendering prints of every Error: its name, message, source
    and stack, and its result stack when it has one. *)
Definition basePrintable (e : value) : bool :=
  printable (prop e "name") && printable (prop e "message") &&
  printable (prop e "source") && printable (prop e "stack") &&
  implb (truthy (prop e "resultStack") && negb (isEmpty (prop e "resultStack")))
        (printable (prop e "resultStack")).

(** What the rendering prints of a [cliError] member: the name, the
    message and the status that are not empty, every action, and the stack
    from depth 5 on. *)
Definition cliPrintable (cliError : value) (depth : Z) : bool :=
  printableIfGiven (prop cliError "name") &&
  printableIfGiven (prop cliError "message") &&
  printableIfGiven (prop cliError "status") &&
  match prop cliError "actions" with
  | VArr xs => forallb printable xs
  | _ => true
  end &&
  implb (negb (isEmpty (prop cliError "stack")) && (5 <=? depth)%Z)
        (printable (prop cliError "stack")).

(** What the rendering prints of a [shellError] member: each member that is
    not empty, and the code when it is truthy. *)
Definition shellPrintable (shellError : value) : bool :=
  printableIfGiven (prop shellError "command") &&
  implb (truthy (prop shellError "code")) (printable (prop shellError "code")) &&
  printableIfGiven (prop shellError "signal") &&
  printableIfGiven (prop shellError "message") &&
  printableIfGiven (prop shellError "stderr") &&
  printableIfGiven (prop shellError "stdout").

(** The text gets through the [try] block of the SfdxCliError constructor:
    it parses, to a value whose members can be read and whose status [isNaN]
    takes. *)
Definition readsAsCliResponse (P : Platform) (text : string) : bool :=
  match JSON_parse P text with
  | Some parsed => readable parsed && printable (prop parsed "status")
  | None => false
  end.

(** The message of the CLI response that [text] holds cannot be put into
    the message of an SfdxCliError: the text gets through the [try] block,
    and the message of the parsed value is truthy and does not convert to a
    string. *)
Definition unprintableCliMessage (P : Platform) (text : string) : bool :=
  readsAsCliResponse P text &&
  match JSON_parse P text with
  | Some parsed =>
      truthy (prop parsed "message") && negb (printable (prop parsed "message"))
  | None => false
  end.

(** Everything [renderError] prints of [e] as text converts to a string. *)
Definition printsAsText (e : value) (depth : Z) : bool :=
  implb (instanceOf e CError) (basePrintable e) &&
  implb (instanceOf e CSfdxCliError) (cliPrintable (prop e "cliError") depth) &&
  implb (instanceOf e CShellError) (shellPrintable (prop e "shellError")).

End FalconErrorSpec.

(* ================================================================== *)
(** ** executors/sfdx.ts: the executor *)

Module Executor.
Import JsString Js Eff Sanitizer FalconError.
Local Open Scope eff_scope.

Inductive SfdxFalconResultType : Type := EXECUTOR | ACTION | RECIPE | COMMAND.

Inductive SfdxFalconStatus : Type := INITIALIZED | RUNNING | SUCCESS | FAILURE | ERROR.

Record ExecutorResultDetail : Type := {
  sfdxCommandDef    : SfdxCommandDefinition;
  sfdxCommandString : option string;
  stdOutParsed      : value;
  stdOutBuffer      : option string;
  stdErrBuffer      : option string
}.

Inductive ResultDetail : Type :=
| NoDetail
| ExecutorDetail (d : ExecutorResultDetail)
| ErrorDetail (e : value).

(** Modelled from the spec: the class SfdxFalconResult of the module
    sfdx-falcon-result, which these files import.  A Result has a name, a
    type, a status, a detail payload and an ordered list of child Results. *)
Inductive SfdxFalconResult : Type :=
| Result (name : string) (type : SfdxFalconResultType) (status : SfdxFalconStatus)
         (detail : ResultDetail) (children : list SfdxFalconResult).

Definition resultName (r : SfdxFalconResult) : string :=
  match r with Result n _ _ _ _ => n end.
Definition resultType (r : SfdxFalconResult) : SfdxFalconResultType :=
  match r with Result _ t _ _ _ => t end.
Definition status (r : SfdxFalconResult) : SfdxFalconStatus :=
  match r with Result _ _ s _ _ => s end.
Definition detail (r : SfdxFalconResult) : ResultDetail :=
  match r with Result _ _ _ d _ => d end.
Definition children (r : SfdxFalconResult) : list SfdxFalconResult :=
  match r with Result _ _ _ _ c => c end.

Definition status_eqb (a b : SfdxFalconStatus) : bool :=
  match a, b with
  | INITIALIZED, INITIALIZED | RUNNING, RUNNING | SUCCESS, SUCCESS
  | FAILURE, FAILURE | ERROR, ERROR => true
  | _, _ => false
  end.

Definition isFinal (s : SfdxFalconStatus) : bool :=
  match s with
  | SUCCESS | FAILURE | ERROR => true
  | INITIALIZED | RUNNING => false
  end.

(** Modelled from the spec: [new SfdxFalconResult(name, type)] starts a
    Result in status INITIALIZED. *)
Definition newSfdxFalconResult (name : string) (type : SfdxFalconResultType)
  : SfdxFalconResult :=
  Result name type INITIALIZED NoDetail [].

Definition setDetail (d : ResultDetail) (r : SfdxFalconResult) : SfdxFalconResult :=
  match r with Result n t s _ c => Result n t s d c end.

(** Modelled from the spec: the status of a Result is monotonic; once it is
    SUCCESS, FAILURE or ERROR, setting a different final status fails loudly. *)
Definition setStatus (s : SfdxFalconStatus) (r : SfdxFalconResult)
  : completion SfdxFalconResult :=
  match r with
  | Result n t s0 d c =>
      if isFinal s0 && negb (status_eqb s0 s)
      then Throw (OtherError "The status of a finished Result cannot change")
      else Normal (Result n t s d c)
  end.

(** Modelled from the spec: [success()], [failure(error)] and [error(error)]
    of SfdxFalconResult.  An Error becomes the detail of a FAILURE or ERROR
    Result. *)
Definition success (r : SfdxFalconResult) : completion SfdxFalconResult :=
  setStatus SUCCESS r.
Definition failure (e : value) (r : SfdxFalconResult) : completion SfdxFalconResult :=
  cbind (setStatus FAILURE r) (fun r' => Normal (setDetail (ErrorDetail e) r')).
Definition error (e : value) (r : SfdxFalconResult) : completion SfdxFalconResult :=
  cbind (setStatus ERROR r) (fun r' => Normal (setDetail (ErrorDetail e) r')).

(** What the child process does: the chunks it writes, in the order the
    [data] events arrive, then its [close] event. *)
Inductive procEvent : Type :=
| StdoutData (stdOutDataStream : string)
| StderrData (stdErrDataStream : string).

(** The [close] event carries the exit code, a number, or [null] when a
    signal ended the process, and the signal, a string or [null]. *)
Record childProcess : Type := {
  events : list procEvent;
  code   : option Z;
  signal : option string
}.

(** The exit code and the signal as the values the handler receives. *)
Definition codeValue (code : option Z) : value :=
  match code with
  | Some n => VNum n
  | None => VNull
  end.

Definition signalValue (signal : option string) : value :=
  match signal with
  | Some s => VStr s
  | None => VNull
  end.

(** What rejects a promise: a Result, or an exception. *)
Inductive reason : Type :=
| ReasonResult (r : SfdxFalconResult)
| ReasonError (e : exn).

(** How the promise of an asynchronous call ends.  [Uncaught e]: an event
    handler threw [e], and the promise is never settled. *)
Inductive settlement (A : Type) : Type :=
| Resolved (a : A)
| Rejected (why : reason)
| Uncaught (e : exn).
Arguments Resolved {A} a.
Arguments Rejected {A} why.
Arguments Uncaught {A} e.

Definition dbgNs : string := "EXECUTOR:sfdx:".

Section WithModules.
Variable P : Platform.
(** [detectSalesforceCliError] of sfdx-falcon-util/sfdx *)
Variable detectSalesforceCliError : string -> bool.
(** [safeParse] of sfdx-falcon-util *)
Variable safeParse : string -> value.

(** The two [data] handlers. *)
Definition onData (buffers : string * string) (ev : procEvent) : string * string :=
  let (stdOutBuffer, stdErrBuffer) := buffers in
  match ev with
  | StdoutData stdOutDataStream => (stdOutBuffer ++ stdOutDataStream, stdErrBuffer)
  | StderrData stdErrDataStream => (stdOutBuffer, stdErrBuffer ++ stdErrDataStream)
  end.

(** [code !== 0] *)
Definition notZero (code : option Z) : bool :=
  match code with
  | Some n => negb (n =? 0)%Z
  | None => true
  end.

(** The [close] handler. *)
Definition onClose (def : SfdxCommandDefinition) (commandString : string)
    (executorResult : SfdxFalconResult) (buffers : string * string)
    (code : option Z) (signal : option string) : M (settlement SfdxFalconResult) :=
  let (stdOutBuffer, stdErrBuffer) := buffers in
  let executorResultDetail :=
    {| sfdxCommandDef := def;
       sfdxCommandString := Some commandString;
       stdOutParsed := VNull;
       stdOutBuffer := Some stdOutBuffer;
       stdErrBuffer := Some stdErrBuffer |} in
  let executorResult := setDetail (ExecutorDetail executorResultDetail) executorResult in
  if notZero code then
    if detectSalesforceCliError stdOutBuffer then
      cliError <-
        newSfdxCliError P stdOutBuffer (VStr (errorMsg def))
          (VStr (dbgNs ++ "executeSfdxCommand")) ;;
      executorResult <- lift (failure cliError executorResult) ;;
      ret (Resolved executorResult)
    else
      shellError <-
        newShellError P (VStr commandString) (codeValue code) (signalValue signal)
          (VStr stdErrBuffer) (VStr stdOutBuffer)
          (VStr (dbgNs ++ "executeSfdxCommand")) VUndefined ;;
      executorResult <- lift (error shellError executorResult) ;;
      ret (Rejected (ReasonResult executorResult))
  else
    let executorResultDetail :=
      {| sfdxCommandDef := def;
         sfdxCommandString := Some commandString;
         stdOutParsed := safeParse stdOutBuffer;
         stdOutBuffer := Some stdOutBuffer;
         stdErrBuffer := Some stdErrBuffer |} in
    let executorResult := setDetail (ExecutorDetail executorResultDetail) executorResult in
    executorResult <- lift (success executorResult) ;;
    ret (Resolved executorResult).

(** [executeSfdxCommand(sfdxCommandDef)], run against a child process that
    behaves as [child] says.  The function is [async]: what the compilation
    of the command throws, before the promise of the child process is made,
    rejects the promise it returns.  What the [close] handler throws is
    caught by nothing.  The notifications to the observer and the debug
    output leave the Result alone and are left out. *)
Definition executeSfdxCommand (def : SfdxCommandDefinition) (child : childProcess)
  : nat -> settlement SfdxFalconResult * nat :=
  fun n =>
    let executorResult := newSfdxFalconResult "sfdx:executeSfdxCommand" EXECUTOR in
    let executorResultDetail :=
      {| sfdxCommandDef := def;
         sfdxCommandString := None;
         stdOutParsed := VNull;
         stdOutBuffer := None;
         stdErrBuffer := None |} in
    let executorResult := setDetail (ExecutorDetail executorResultDetail) executorResult in
    match parseSfdxCommand def with
    | Throw e => (Rejected (ReasonError e), n)
    | Normal commandString =>
        let buffers := fold_left onData (events child) ("", "") in
        match onClose def commandString executorResult buffers
                (code child) (signal child) n with
        | (Normal settled, n') => (settled, n')
        | (Throw e, n') => (Uncaught e, n')
        end
    end.

End WithModules.
End Executor.

(* ------------------------------------------------------------------ *)
(** *** What the specification says of the executor *)

Module ExecutorSpec.
Import JsString Js Eff FalconError FalconErrorSpec Executor.

(** Everything the child process wrote to stdout, and to stderr. *)
Definition stdoutText (evs : list procEvent) : string :=
  flatten (List.map (fun ev => match ev with
                               | StdoutData chunk => chunk
                               | StderrData _ => ""
                               end) evs).

Definition stderrText (evs : list procEvent) : string :=
  flatten (List.map (fun ev => match ev with
                               | StdoutData _ => ""
                               | StderrData chunk => chunk
                               end) evs).

End ExecutorSpec.

(* ================================================================== *)
(** ** engines/appx/actions/delete-scratch-org.ts *)

Module DeleteScratchOrg.
Import JsString Js Eff FalconError Executor.
Local Open Scope eff_scope.

Inductive SfdxFalconActionType : Type := SFDX_CLI | SFDX_CORE | SHELL_COMMAND.

Record AppxEngineActionContext : Type := {
  targetOrgAlias : value;
  devHubAlias    : value;
  logLevel       : value;
  listrObserver  : value
}.

Record DeleteScratchOrgAction : Type := {
  actionType      : SfdxFalconActionType;
  actionName      : string;
  command         : string;
  description     : string;
  successDelay    : Z;
  errorDelay      : Z;
  progressDelay   : Z;
  progressMessage : string;
  errorMessage    : string;
  successMessage  : string;
  sfdxCommandDef  : option Sanitizer.SfdxCommandDefinition;
  (** the Result of the Action, of type ACTION *)
  actionResponse  : SfdxFalconResult
}.

(** Modelled from the spec: [actionResponse.execSuccess] of the class the
    base class AppxEngineAction keeps in [actionResponse], neither of them in
    these files.  The Action folds the Result it is given in as a child of
    its own Result and marks its own Result SUCCESS; the status of the child
    is not carried over. *)
Definition execSuccess (child : SfdxFalconResult) (actionResult : SfdxFalconResult)
  : completion SfdxFalconResult :=
  match actionResult with
  | Result n t s d c => setStatus SUCCESS (Result n t s d (c ++ [child]))
  end.

(** [initializeAction] *)
Definition initializeAction (this : DeleteScratchOrgAction) : DeleteScratchOrgAction :=
  {| actionType := SFDX_CLI;
     actionName := "delete-scratch-org";
     command := "force:org:delete";
     description := "Delete Scratch Org";
     successDelay := 2;
     errorDelay := 2;
     progressDelay := 1000;
     progressMessage := progressMessage this;
     errorMessage := errorMessage this;
     successMessage := successMessage this;
     sfdxCommandDef := sfdxCommandDef this;
     actionResponse := actionResponse this |}.

(** Modelled from the spec: the constructor of the base class
    AppxEngineAction, which is not in these files.  It starts the Result of
    the Action, of type ACTION, and calls [initializeAction()]. *)
Definition newDeleteScratchOrgAction : DeleteScratchOrgAction :=
  initializeAction
    {| actionType := SFDX_CLI; actionName := ""; command := ""; description := "";
       successDelay := 0; errorDelay := 0; progressDelay := 0;
       progressMessage := ""; errorMessage := ""; successMessage := "";
       sfdxCommandDef := None;
       actionResponse := newSfdxFalconResult "delete-scratch-org" ACTION |}.

(** [validateActionOptions] *)
Definition validateActionOptions (actionOptions : value) : completion unit :=
  cbind (getProp actionOptions "scratchOrgAlias")
        (fun alias =>
           match alias with
           | VUndefined => Throw (OtherError "ERROR_MISSING_OPTION: 'scratchOrgAlias'")
           | _ => Normal tt
           end).

Section WithModules.
Variable P : Platform.
Variable detectSalesforceCliError : string -> bool.
Variable safeParse : string -> value.
(** [new SfdxFalconExecutorResponse(name)] followed by [parse(response)]:
    the class is not in these files. *)
Variable parseExecutorResponse : string -> reason -> SfdxFalconResult.

Definition withResponse (this : DeleteScratchOrgAction) (r : SfdxFalconResult)
  : DeleteScratchOrgAction :=
  {| actionType := actionType this; actionName := actionName this;
     command := command this; description := description this;
     successDelay := successDelay this; errorDelay := errorDelay this;
     progressDelay := progressDelay this;
     progressMessage := progressMessage this; errorMessage := errorMessage this;
     successMessage := successMessage this; sfdxCommandDef := sfdxCommandDef this;
     actionResponse := r |}.

(** The handler given to [catch]. *)
Definition onRejected (this : DeleteScratchOrgAction) (execErrorResponse : reason)
  : settlement DeleteScratchOrgAction :=
  let newExecResult :=
    parseExecutorResponse "Suppressed Scratch Org Deletion Error" execErrorResponse in
  match execSuccess newExecResult (actionResponse this) with
  | Normal r => Resolved (withResponse this r)
  | Throw e => Rejected (ReasonError e)
  end.

(** The parameter [actionOptions] with its default, a new object. *)
Definition optionsOrDefault (actionOptions : value) : M value :=
  match actionOptions with
  | VUndefined => newObject []
  | _ => ret actionOptions
  end.

(** The messages [executeAction] sets. *)
Definition progressMessageFor (actionOptions : value) : completion string :=
  scratchOrgAlias <~ getProp actionOptions "scratchOrgAlias" ;;
  scratchOrgAlias <~ toString scratchOrgAlias ;;
  Normal ("Marking scratch org '" ++ scratchOrgAlias ++ "' for deletion").
Definition errorMessageFor (actionOptions : value) : completion string :=
  scratchOrgAlias <~ getProp actionOptions "scratchOrgAlias" ;;
  scratchOrgAlias <~ toString scratchOrgAlias ;;
  Normal ("Request to mark scratch org '" ++ scratchOrgAlias
            ++ "' for deletion failed").
Definition successMessageFor (actionOptions : value) : completion string :=
  scratchOrgAlias <~ getProp actionOptions "scratchOrgAlias" ;;
  scratchOrgAlias <~ toString scratchOrgAlias ;;
  Normal ("Scratch org '" ++ scratchOrgAlias ++ "' successfully marked for deletion").

(** The first part of [executeAction]: the messages, and the command
    definition made of them and of the context. *)
Definition commandDefFor (this : DeleteScratchOrgAction)
    (actionContext : AppxEngineActionContext) (actionOptions : value)
  : M Sanitizer.SfdxCommandDefinition :=
  actionOptions <- optionsOrDefault actionOptions ;;
  progressMessage <- lift (progressMessageFor actionOptions) ;;
  errorMessage <- lift (errorMessageFor actionOptions) ;;
  successMessage <- lift (successMessageFor actionOptions) ;;
  ret {| Sanitizer.command := command this;
         Sanitizer.progressMsg := progressMessage;
         Sanitizer.errorMsg := errorMessage;
         Sanitizer.successMsg := successMessage;
         Sanitizer.observer := listrObserver actionContext;
         Sanitizer.commandArgs := [];
         Sanitizer.commandFlags :=
           Some [("FLAG_TARGETUSERNAME", targetOrgAlias actionContext);
                 ("FLAG_TARGETDEVHUBUSERNAME", devHubAlias actionContext);
                 ("FLAG_NOPROMPT", VBool true);
                 ("FLAG_JSON", VBool true);
                 ("FLAG_LOGLEVEL", logLevel actionContext)] |}.

(** [executeAction(actionContext, actionOptions)]: how its promise ends and
    the action it leaves.  The method is [async]: what its first part throws
    rejects its promise, and its promise is not settled when the promise of
    the Executor is not. *)
Definition executeAction (this : DeleteScratchOrgAction)
    (actionContext : AppxEngineActionContext) (actionOptions : value)
    (child : childProcess) : nat -> settlement DeleteScratchOrgAction * nat :=
  fun n =>
    match commandDefFor this actionContext actionOptions n with
    | (Throw e, n') => (Rejected (ReasonError e), n')
    | (Normal def, n') =>
        let this :=
          {| actionType := actionType this; actionName := actionName this;
             command := command this; description := description this;
             successDelay := successDelay this; errorDelay := errorDelay this;
             progressDelay := progressDelay this;
             progressMessage := Sanitizer.progressMsg def;
             errorMessage := Sanitizer.errorMsg def;
             successMessage := Sanitizer.successMsg def;
             sfdxCommandDef := Some def;
             actionResponse := actionResponse this |} in
        match executeSfdxCommand P detectSalesforceCliError safeParse def child n' with
        | (Resolved execSuccessResponse, n'') =>
            match execSuccess execSuccessResponse (actionResponse this) with
            | Normal r => (Resolved (withResponse this r), n'')
            | Throw e => (onRejected this (ReasonError e), n'')
            end
        | (Rejected execErrorResponse, n'') => (onRejected this execErrorResponse, n'')
        | (Uncaught e, n'') => (Uncaught e, n'')
        end
    end.

End WithModules.
End DeleteScratchOrg.

(* ================================================================== *)
(** ** A platform for the examples *)

Module Samples.
Import JsString Js Eff FalconError Executor.

Definition dq : string := String (ascii_of_nat 34) "".

(** The response of the CLI to the deletion of an org it does not know:
    an object with [status] 1, [name] ScratchOrgNotFound and [message]
    no such org. *)
Definition notFoundJson : string :=
  "{" ++ dq ++ "status" ++ dq ++ ":1,"
      ++ dq ++ "name" ++ dq ++ ":" ++ dq ++ "ScratchOrgNotFound" ++ dq ++ ","
      ++ dq ++ "message" ++ dq ++ ":" ++ dq ++ "no such org" ++ dq ++ "}".

Definition notFoundValue : value :=
  VObj 0 CObject [("status", VNum 1);
                  ("name", VStr "ScratchOrgNotFound");
                  ("message", VStr "no such org")].

(** A response whose message is an object with a member [toString]:
    [{"status":1,"message":{"toString":0}}]. *)
Definition oddMessageJson : string :=
  "{" ++ dq ++ "status" ++ dq ++ ":1,"
      ++ dq ++ "message" ++ dq ++ ":{" ++ dq ++ "toString" ++ dq ++ ":0}}".

Definition oddMessageValue : value :=
  VObj 0 CObject [("status", VNum 1);
                  ("message", VObj 1 CObject [("toString", VNum 0)])].

(** A response whose status is such an object:
    [{"name":"X","actions":["a"],"status":{"toString":0}}]. *)
Definition oddStatusJson : string :=
  "{" ++ dq ++ "name" ++ dq ++ ":" ++ dq ++ "X" ++ dq ++ ","
      ++ dq ++ "actions" ++ dq ++ ":[" ++ dq ++ "a" ++ dq ++ "],"
      ++ dq ++ "status" ++ dq ++ ":{" ++ dq ++ "toString" ++ dq ++ ":0}}".

Definition oddStatusValue : value :=
  VObj 0 CObject [("name", VStr "X");
                  ("actions", VArr [VStr "a"]);
                  ("status", VObj 1 CObject [("toString", VNum 0)])].

(** A [JSON.parse] that knows the texts of the examples. *)
Definition sampleParse (s : string) : option value :=
  if String.eqb s notFoundJson then Some notFoundValue
  else if String.eqb s oddMessageJson then Some oddMessageValue
  else if String.eqb s oddStatusJson then Some oddStatusValue
  else if String.eqb s "null" then Some VNull
  else if String.eqb s "1" then Some (VNum 1)
  else None.

(** [isNaN] on the strings of the examples: a string of digits, which may
    be empty, reads as a number. *)
Definition sampleNotANumber (s : string) : bool :=
  negb (allChars isDigit s).

(** [util.inspect] for the examples: it prints with [String] what [String]
    can print. *)
Definition sampleInspect (v : value) (depth : Z) : string :=
  match toStr v with
  | Some s => s
  | None => "[Object]"
  end.

(** chalk with colours switched off. *)
Definition samplePlatform : Platform :=
  {| JSON_parse := sampleParse;
     notANumber := sampleNotANumber;
     stackOf := fun n => "Error" ++ nl ++ "    at <anonymous>";
     chalk := fun style text => text;
     inspect := sampleInspect |}.

(** A detector that recognizes a parsed object with a [status]. *)
Definition sampleDetect (stdOutBuffer : string) : bool :=
  match sampleParse stdOutBuffer with
  | Some (VObj _ _ ps) => hasKey "status" ps
  | _ => false
  end.

Definition sampleSafeParse (stdOutBuffer : string) : value :=
  match sampleParse stdOutBuffer with
  | Some v => v
  | None => VStr stdOutBuffer
  end.

Definition sampleExecutorResponse (name : string) (why : reason) : SfdxFalconResult :=
  match why with
  | ReasonResult r => Result name EXECUTOR (status r) (detail r) [r]
  | ReasonError e => Result name EXECUTOR ERROR NoDetail []
  end.

Definition sampleDef : Sanitizer.SfdxCommandDefinition :=
  {| Sanitizer.command := "force:org:delete";
     Sanitizer.progressMsg := "Marking scratch org for deletion";
     Sanitizer.errorMsg := "Request to mark scratch org for deletion failed";
     Sanitizer.successMsg := "Scratch org marked for deletion";
     Sanitizer.commandArgs := [];
     Sanitizer.commandFlags := Some [("FLAG_TARGETUSERNAME", VStr "gone");
                                     ("FLAG_JSON", VBool true)];
     Sanitizer.observer := VUndefined |}.

(** The CLI answers with the not-found response, in two chunks, exit code 1. *)
Definition notFoundChild : childProcess :=
  {| events := [StdoutData (String.substring 0 20 notFoundJson);
                StderrData "";
                StdoutData (String.substring 20 100 notFoundJson)];
     code := Some 1%Z;
     signal := None |}.


(** The shell cannot find the CLI. *)
Definition noCliChild : childProcess :=
  {| events := [StderrData ("sh: sfdx: command not found" ++ nl)];
     code := Some 127%Z;
     signal := None |}.

(** The CLI is killed. *)
Definition killedChild : childProcess :=
  {| events := [];
     code := None;
     signal := Some "SIGKILL" |}.

Definition okChild : childProcess :=
  {| events := [StdoutData "1"];
     code := Some 0%Z;
     signal := None |}.

Definition sampleContext : DeleteScratchOrg.AppxEngineActionContext :=
  {| DeleteScratchOrg.targetOrgAlias := VStr "gone";
     DeleteScratchOrg.devHubAlias := VStr "hub";
     DeleteScratchOrg.logLevel := VStr "error";
     DeleteScratchOrg.listrObserver := VUndefined |}.

Definition sampleOptions : value :=
  VObj 0 CObject [("scratchOrgAlias", VStr "gone")].

End Samples.

(* ================================================================== *)
(** ** Reading a shell word one character at a time *)

Module ShellReading.
Import JsString Js SanitizerSpec.

(** Where the reader of a word stands: outside quotes, inside single
    quotes, or right after a backslash outside quotes. *)
Inductive shState : Type := Bare | Quoted | Escaped.

(** The reading of [SanitizerSpec.shellWord], with the character after a
    backslash handled as a state of its own. *)
Fixpoint readWord (st : shState) (s : string) : option string :=
  match s with
  | EmptyString => match st with Bare => Some EmptyString | _ => None end
  | String c r =>
      match st with
      | Quoted =>
          if Ascii.eqb c "'" then readWord Bare r
          else option_map (String c) (readWord Quoted r)
      | Escaped => option_map (String c) (readWord Bare r)
      | Bare =>
          if Ascii.eqb c "'" then readWord Quoted r
          else if Ascii.eqb c "\" then readWord Escaped r
          else if shellSpecial c then None
          else option_map (String c) (readWord Bare r)
      end
  end.

End ShellReading.

(* ================================================================== *)
(** ** sfdx-falcon-error/index.ts: further methods *)

Module FalconErrorMethods.
Import JsString Js Eff FalconError.

(** [setDetail(detail)]: returns [this]. *)
Definition setDetail (this : value) (detail : value) : value :=
  setProp this "_detail" detail.

(** A line of the result stack, as [addToStack] writes it. *)
Definition indented (stackItem : string) : string := "    " ++ stackItem.

End FalconErrorMethods.

(* ================================================================== *)
(** ** helpers/falcon-helper.ts *)

Module FalconHelper.
Import JsString Js Eff FalconError.
Local Open Scope eff_scope.

Section WithPlatform.
Variable P : Platform.

(** [composeFalconError(falconErrMsg, stdErrOutput, falconStatus)] *)
Definition composeFalconError (falconErrMsg : string) (stdErrOutput : string)
    (falconStatus : value) : M value :=
  let falconStatus := defaultTo (VNum 1) falconStatus in
  stdErrJson <-
    tryCatch
      (lift (match JSON_parse P stdErrOutput with
             | Some v => Normal v
             | None => Throw (SyntaxError "Unexpected token in JSON")
             end))
      (fun e =>
         newObject
           [("name", VStr "Error");
            ("message",
             VStr "Unknown SFDX Error (could not parse stderr result from CLI)");
            ("status", VNum 1)]) ;;
  newObject [("message", VStr falconErrMsg);
             ("status", falconStatus);
             ("stdErrJson", stdErrJson)].

End WithPlatform.

(** [FalconError.wrap(error)] of this file. *)
Definition wrap (error : value) : M value :=
  stdErrJson <- lift (getProp error "stdErrJson") ;;
  match typeOf stdErrJson with
  | TUndefined =>
      newObject [("message", VStr "Unexpected Exception");
                 ("status", VNum 1);
                 ("stdErrJson", error)]
  | _ => ret error
  end.

(** *** FalconDebug: the static members, as a state *)

Record FalconDebug : Type := {
  debugEnabled         : bool;
  debugAsyncEnabled    : bool;
  debugExtendedEnabled : bool;
  debugInitialized     : bool
}.

Definition initialFalconDebug : FalconDebug :=
  {| debugEnabled := false; debugAsyncEnabled := false;
     debugExtendedEnabled := false; debugInitialized := false |}.

Definition getDebugEnabled (st : FalconDebug) : bool := debugEnabled st.
Definition getDebugAsyncEnabled (st : FalconDebug) : bool := debugAsyncEnabled st.
Definition getDebugExtendedEnabled (st : FalconDebug) : bool := debugExtendedEnabled st.
Definition getDebugInitialized (st : FalconDebug) : bool := debugInitialized st.

Definition setDebugEnablement (enabled asyncEnabled extendedEnabled : bool)
    (st : FalconDebug) : completion FalconDebug :=
  if debugInitialized st then
    Throw (OtherError
             "ERROR_DEBUG_OPTIONS_SET: Debug enablement options can only be set once")
  else
    Normal {| debugEnabled := enabled;
              debugAsyncEnabled := asyncEnabled;
              debugExtendedEnabled := extendedEnabled;
              debugInitialized := true |}.

(** *** FalconStatusReport *)

Record FalconStatusReport : Type := {
  startTime     : Z;
  endTime       : Z;
  runTime       : Z;
  statusCode    : Z;
  statusLog     : list string;
  statusMessage : string
}.

Definition withTimes (this : FalconStatusReport) (startT endT runT : Z)
  : FalconStatusReport :=
  {| startTime := startT; endTime := endT; runTime := runT;
     statusCode := statusCode this; statusLog := statusLog this;
     statusMessage := statusMessage this |}.

(** [startTimer()]; [now] is what [new Date().getTime()] reads. *)
Definition startTimer (now : Z) (this : FalconStatusReport)
  : completion FalconStatusReport :=
  if negb (endTime this =? -1)%Z then
    Throw (OtherError
      "ERROR_TIMER_RUNNING: You can not restart a timer that has already been stopped.")
  else if negb (startTime this =? -1)%Z then
    Throw (OtherError
      "ERROR_TIMER_RUNNING: You can not start a timer that is already running.")
  else Normal (withTimes this now (endTime this) (runTime this)).

(** [stopTimer()]: the run time, and the report it leaves. *)
Definition stopTimer (now : Z) (this : FalconStatusReport)
  : completion (Z * FalconStatusReport) :=
  if (startTime this =? -1)%Z then
    Throw (OtherError
      "ERROR_TIMER_NEVER_STARTED: You can not stop a timer that was never started.")
  else if negb (endTime this =? -1)%Z then
    Throw (OtherError
      "ERROR_TIMER_STOPPED: You can not stop a timer that is already stopped.")
  else
    let this := withTimes this (startTime this) now (now - startTime this)%Z in
    Normal (runTime this, this).

(** [new FalconStatusReport(startTimer)] *)
Definition newFalconStatusReport (startTimerNow : value) (now : Z)
  : completion FalconStatusReport :=
  let startTimerNow := defaultTo (VBool false) startTimerNow in
  let this :=
    {| startTime := -1; endTime := -1; runTime := -1; statusCode := -1;
       statusLog := []; statusMessage := "" |} in
  cbind (match startTimerNow with
         | VBool true => startTimer now this
         | _ => Normal this
         end)
        (fun this =>
           Normal {| startTime := startTime this; endTime := endTime this;
                     runTime := runTime this; statusCode := statusCode this;
                     statusLog := []; statusMessage := statusMessage this |}).

Definition logStatusMessage (logMessage : string) (this : FalconStatusReport)
  : FalconStatusReport :=
  {| startTime := startTime this; endTime := endTime this; runTime := runTime this;
     statusCode := statusCode this;
     statusLog := (statusLog this ++ [logMessage])%list;
     statusMessage := statusMessage this |}.

Definition setStatusMessage (message : string) (this : FalconStatusReport)
  : FalconStatusReport :=
  let this := logStatusMessage message this in
  {| startTime := startTime this; endTime := endTime this; runTime := runTime this;
     statusCode := statusCode this; statusLog := statusLog this;
     statusMessage := message |}.

Section WithNumberFormat.
(** The text of a number of milliseconds divided by 1000, as a template
    literal prints it. *)
Variable thousandthText : Z -> string.

(** [getRunTime(returnString)] *)
Definition getRunTime (returnString : value) (now : Z) (this : FalconStatusReport)
  : completion value :=
  let returnString := defaultTo (VBool false) returnString in
  if (startTime this =? -1)%Z then
    Throw (OtherError
      "ERROR_TIMER_NEVER_STARTED: You can get runtime from a timer that was never started.")
  else
    let returnRuntime :=
      if (runTime this =? -1)%Z then (now - startTime this)%Z else runTime this in
    match returnString with
    | VBool true => Normal (VStr (thousandthText returnRuntime))
    | _ => Normal (VNum returnRuntime)
    end.

End WithNumberFormat.
End FalconHelper.

(* ================================================================== *)
(** ** generators/create-appx-package-project.ts *)

Module CreateAppxPackageProject.
Import JsString Js Eff FalconError.
Local Open Scope list_scope.
Local Open Scope eff_scope.

(** A row of the table of answers. *)
Record SfdxFalconKeyValueTableDataRow : Type := {
  option : string;
  value  : string
}.

(** The row is the one with the given label. *)
Definition isOption (label : string) (row : SfdxFalconKeyValueTableDataRow) : bool :=
  String.eqb (option row) label.

(** The answers [_getInterviewAnswersTableData] prints. *)
Definition printedAnswers : list string :=
  ["targetDirectory"; "devHubAlias"; "envHubAlias"; "gitRemoteUri";
   "producerName"; "producerAlias"; "projectName"; "projectAlias";
   "isCreatingManagedPackage"; "namespacePrefix"; "packageName";
   "metadataPackageId"; "packageVersionIdRelease"; "isInitializingGit";
   "hasGitRemoteRepository"].

Section WithPlatform.
Variable P : Platform.

(** [tableData.push({option: label, value: `${userAnswers.k}`})] *)
Definition pushAnswer (userAnswers : Js.value) (label k : string)
    (tableData : list SfdxFalconKeyValueTableDataRow)
  : completion (list SfdxFalconKeyValueTableDataRow) :=
  answer <~ getProp userAnswers k ;;
  answer <~ toString answer ;;
  Normal (tableData ++ [{| option := label; value := answer |}]).

(** [_getInterviewAnswersTableData()], for the [userAnswers] of the
    generator. *)
Definition getInterviewAnswersTableData (userAnswers : Js.value)
  : completion (list SfdxFalconKeyValueTableDataRow) :=
  let tableData : list SfdxFalconKeyValueTableDataRow := [] in
  tableData <~ pushAnswer userAnswers "Target Directory:" "targetDirectory" tableData ;;
  tableData <~ pushAnswer userAnswers "Dev Hub Alias:" "devHubAlias" tableData ;;
  tableData <~ pushAnswer userAnswers "Env Hub Alias:" "envHubAlias" tableData ;;
  hasGitRemoteRepository <~ getProp userAnswers "hasGitRemoteRepository" ;;
  tableData <~
    (if truthy hasGitRemoteRepository then
       tableData <~ pushAnswer userAnswers "Git Remote URI:" "gitRemoteUri" tableData ;;
       isGitRemoteReachable <~ getProp userAnswers "isGitRemoteReachable" ;;
       if truthy isGitRemoteReachable
       then Normal (tableData ++ [{| option := "Git Remote Status:";
                                     value := chalk P "blue" "AVAILABLE" |}])
       else Normal (tableData ++ [{| option := "Git Remote Status:";
                                     value := chalk P "red" "UNREACHABLE" |}])
     else Normal tableData) ;;
  tableData <~ pushAnswer userAnswers "Producer Name:" "producerName" tableData ;;
  tableData <~ pushAnswer userAnswers "Producer Alias:" "producerAlias" tableData ;;
  tableData <~ pushAnswer userAnswers "Project Name:" "projectName" tableData ;;
  tableData <~ pushAnswer userAnswers "Project Alias:" "projectAlias" tableData ;;
  tableData <~
    pushAnswer userAnswers "Building Packaged App:" "isCreatingManagedPackage" tableData ;;
  isCreatingManagedPackage <~ getProp userAnswers "isCreatingManagedPackage" ;;
  tableData <~
    (if truthy isCreatingManagedPackage then
       tableData <~ pushAnswer userAnswers "Namespace Prefix:" "namespacePrefix" tableData ;;
       tableData <~ pushAnswer userAnswers "Package Name:" "packageName" tableData ;;
       tableData <~
         pushAnswer userAnswers "Metadata Package ID:" "metadataPackageId" tableData ;;
       pushAnswer userAnswers "Package Version ID:" "packageVersionIdRelease" tableData
     else Normal tableData) ;;
  tableData <~
    pushAnswer userAnswers "Initialize Git Repo:" "isInitializingGit" tableData ;;
  isInitializingGit <~ getProp userAnswers "isInitializingGit" ;;
  if truthy isInitializingGit then
    tableData <~
      pushAnswer userAnswers "Has Git Remote:" "hasGitRemoteRepository" tableData ;;
    gitRemoteUri <~ getProp userAnswers "gitRemoteUri" ;;
    if truthy gitRemoteUri
    then pushAnswer userAnswers "Git Remote URI:" "gitRemoteUri" tableData
    else Normal tableData
  else Normal tableData.

End WithPlatform.
End CreateAppxPackageProject.

(* ================================================================== *)
(** * Properties *)

Module SanitizerProofs.
Import JsString Js Eff Sanitizer SanitizerSpec.
Local Open Scope eff_scope.

Lemma append_assoc (a b c : string) : (a ++ b) ++ c = a ++ (b ++ c).
Proof. induction a as [|x a IH]; simpl; [reflexivity | now rewrite IH]. Qed.

Lemma append_empty_r (a : string) : a ++ "" = a.
Proof. induction a as [|x a IH]; simpl; [reflexivity | now rewrite IH]. Qed.

Lemma fold_left_append {A} (f : A -> string) (l : list A) (init : string) :
  fold_left (fun acc x => acc ++ f x) l init = init ++ flatten (List.map f l).
Proof.
  revert init; induction l as [|x l IH]; intros init; simpl.
  - now rewrite append_empty_r.
  - rewrite IH. apply append_assoc.
Qed.

Lemma safeArgChar_not_space (c : ascii) :
  safeArgChar c = true -> isWhiteSpace c = false.
Proof.
  destruct c as [[] [] [] [] [] [] [] []]; vm_compute; intros H;
    first [reflexivity | discriminate H].
Qed.

Lemma trimStart_safe (s : string) :
  allChars safeArgChar s = true -> trimStart s = s.
Proof.
  destruct s as [|c r]; simpl; [reflexivity|].
  intros H. apply andb_prop in H as [Hc _].
  now rewrite (safeArgChar_not_space c Hc).
Qed.

Lemma trimEnd_safe (s : string) :
  allChars safeArgChar s = true -> trimEnd s = s.
Proof.
  induction s as [|c r IH]; simpl; [reflexivity|].
  intros H. apply andb_prop in H as [Hc Hr].
  rewrite (IH Hr), (safeArgChar_not_space c Hc). reflexivity.
Qed.

Lemma no_unsafe_char (s : string) :
  allChars safeArgChar s = true ->
  existsChar (fun c => negb (safeArgChar c)) s = false.
Proof.
  induction s as [|c r IH]; simpl; [reflexivity|].
  intros H. apply andb_prop in H as [Hc Hr].
  now rewrite Hc, (IH Hr).
Qed.

(** C4. The sanitizer is the identity on an argument whose characters all
    belong to the class [A-Za-z0-9_/:=-]. *)
Theorem sanitizeArgument_safe_identity (x : string) :
  allChars safeArgChar x = true -> sanitizeArgument (VStr x) = Normal x.
Proof.
  intros H. unfold sanitizeArgument, toString, trim. cbn [toStr cbind].
  rewrite (trimStart_safe x H), (trimEnd_safe x H), (no_unsafe_char x H).
  reflexivity.
Qed.

Lemma sanitizeArgument_safe_identity_witness :
  allChars safeArgChar "force:org/My_Alias=dev-01" = true /\
  sanitizeArgument (VStr "force:org/My_Alias=dev-01")
  = Normal "force:org/My_Alias=dev-01".
Proof.
  split; [reflexivity|].
  apply (sanitizeArgument_safe_identity "force:org/My_Alias=dev-01"). reflexivity.
Defined.

(** C3. [sanitizeArgument("a b")] is the single-quoted ['a b'];
    [sanitizeArgument("it's")] is a single-quoted string whose embedded quote
    is escaped, and a POSIX shell reads it back as [it's]. *)
Theorem sanitizeArgument_quoting :
  sanitizeArgument (VStr "a b") = Normal "'a b'" /\
  sanitizeArgument (VStr "it's") = Normal "'it'\''s'" /\
  shellWord false "'it'\''s'" = Some "it's" /\
  shellWord false "'a b'" = Some "a b".
Proof. repeat split; reflexivity. Qed.

Lemma addArgument_fold (arguments : list string) (init : string) :
  foldM addArgument arguments init
  = (rendered <~ mapM renderArgument arguments ;; Normal (init ++ flatten rendered)).
Proof.
  revert init; induction arguments as [|x arguments IH]; intros init;
    cbn [foldM mapM cbind flatten fold_right].
  - now rewrite append_empty_r.
  - unfold addArgument at 1, renderArgument at 1.
    destruct (sanitizeArgument (VStr x)) as [s|e]; cbn [cbind]; [|reflexivity].
    rewrite IH. destruct (mapM renderArgument arguments) as [ys|e]; cbn [cbind];
      [|reflexivity].
    cbn [flatten fold_right]. fold (flatten ys).
    now rewrite !append_assoc.
Qed.

Lemma addFlag_fold (flags : list (string * value)) (init : string) :
  foldM addFlag flags init
  = (rendered <~ mapM renderFlag
                   (List.filter (fun kv => isFlagKey (fst kv)) flags) ;;
     Normal (init ++ flatten rendered)).
Proof.
  revert init; induction flags as [|[k v] flags IH]; intros init;
    cbn [foldM List.filter fst].
  - cbn. now rewrite append_empty_r.
  - unfold addFlag at 1, isFlagKey at 1.
    destruct (String.eqb (toUpperCase (substr k 0 5)) "FLAG_"); cbn [negb].
    + cbn [mapM]. unfold renderFlag at 1. cbn [fst snd].
      fold (flagName k). fold (dashes (flagName k)). fold (flagToken k).
      destruct (isBoolean v); cbn [cbind].
      * rewrite IH.
        destruct (mapM renderFlag _) as [ys|e]; cbn [cbind]; [|reflexivity].
        cbn [flatten fold_right]. fold (flatten ys). now rewrite !append_assoc.
      * destruct (sanitizeArgument v) as [s|e]; cbn [cbind]; [|reflexivity].
        rewrite IH.
        destruct (mapM renderFlag _) as [ys|e]; cbn [cbind]; [|reflexivity].
        cbn [flatten fold_right]. fold (flatten ys). now rewrite !append_assoc.
    + cbn [cbind]. apply IH.
Qed.

Lemma toLowerChar_not_upper (c : ascii) : isUpper (toLowerChar c) = false.
Proof. destruct c as [[] [] [] [] [] [] [] []]; vm_compute; reflexivity. Qed.

Lemma flagChar_toLowerChar (c : ascii) :
  flagChar c = true -> flagChar (toLowerChar c) = true.
Proof.
  destruct c as [[] [] [] [] [] [] [] []]; vm_compute; intros H;
    first [reflexivity | discriminate H].
Qed.

Lemma flagChar_not_space (c : ascii) :
  flagChar c = true -> isWhiteSpace c = false.
Proof.
  destruct c as [[] [] [] [] [] [] [] []]; vm_compute; intros H;
    first [reflexivity | discriminate H].
Qed.

Section CharPredicates.
Variable p : ascii -> bool.

Lemma existsChar_append (a b : string) :
  existsChar p (a ++ b) = existsChar p a || existsChar p b.
Proof. induction a as [|c a IH]; simpl; [reflexivity|]. now rewrite IH, orb_assoc. Qed.

Lemma allChars_append (a b : string) :
  allChars p (a ++ b) = allChars p a && allChars p b.
Proof. induction a as [|c a IH]; simpl; [reflexivity|]. now rewrite IH, andb_assoc. Qed.

Lemma existsChar_trimStart (s : string) :
  existsChar p s = false -> existsChar p (trimStart s) = false.
Proof.
  induction s as [|c r IH]; simpl; [reflexivity|].
  intros H. apply orb_false_elim in H as [Hc Hr].
  destruct (isWhiteSpace c); [now apply IH | simpl; now rewrite Hc, Hr].
Qed.

Lemma existsChar_trimEnd (s : string) :
  existsChar p s = false -> existsChar p (trimEnd s) = false.
Proof.
  induction s as [|c r IH]; simpl; [reflexivity|].
  intros H. apply orb_false_elim in H as [Hc Hr].
  destruct (isWhiteSpace c && isEmptyStr (trimEnd r)); simpl; [reflexivity|].
  now rewrite Hc, (IH Hr).
Qed.

Lemma existsChar_filterChars (q : ascii -> bool) (s : string) :
  existsChar p s = false -> existsChar p (filterChars q s) = false.
Proof.
  induction s as [|c r IH]; simpl; [reflexivity|].
  intros H. apply orb_false_elim in H as [Hc Hr].
  destruct (q c); simpl; [now rewrite Hc, (IH Hr) | now apply IH].
Qed.

Lemma filterChars_all (s : string) :
  allChars p s = true -> filterChars p s = s.
Proof.
  induction s as [|c r IH]; simpl; [reflexivity|].
  intros H. apply andb_prop in H as [Hc Hr]. now rewrite Hc, (IH Hr).
Qed.

End CharPredicates.

Lemma toLowerCase_not_upper (s : string) :
  existsChar isUpper (toLowerCase s) = false.
Proof.
  unfold toLowerCase. induction s as [|c r IH]; simpl; [reflexivity|].
  now rewrite toLowerChar_not_upper, IH.
Qed.

Lemma toLowerCase_flagChars (s : string) :
  allChars flagChar s = true -> allChars flagChar (toLowerCase s) = true.
Proof.
  unfold toLowerCase. induction s as [|c r IH]; simpl; [reflexivity|].
  intros H. apply andb_prop in H as [Hc Hr].
  now rewrite (flagChar_toLowerChar c Hc), (IH Hr).
Qed.

Lemma trim_flagChars (s : string) :
  allChars flagChar s = true -> trim s = s.
Proof.
  intros H. unfold trim.
  assert (Hs : trimStart s = s).
  { destruct s as [|c r]; simpl; [reflexivity|].
    simpl in H. apply andb_prop in H as [Hc _].
    now rewrite (flagChar_not_space c Hc). }
  rewrite Hs. clear Hs.
  induction s as [|c r IH]; simpl; [reflexivity|].
  simpl in H. apply andb_prop in H as [Hc Hr].
  now rewrite (IH Hr), (flagChar_not_space c Hc).
Qed.

Lemma flagToken_not_upper (k : string) : existsChar isUpper (flagToken k) = false.
Proof.
  unfold flagToken, sanitizeFlag, trim.
  apply existsChar_filterChars, existsChar_trimEnd, existsChar_trimStart.
  rewrite existsChar_append. unfold flagName.
  rewrite toLowerCase_not_upper, orb_false_r.
  unfold dashes. now destruct (_ =? 1)%nat.
Qed.

Lemma flagToken_clean (k : string) :
  allChars flagChar (substringFrom k 5) = true ->
  flagToken k = dashes (flagName k) ++ flagName k.
Proof.
  intros H. unfold flagToken, sanitizeFlag.
  assert (Hall : allChars flagChar (dashes (flagName k) ++ flagName k) = true).
  { rewrite allChars_append. unfold flagName at 2.
    rewrite (toLowerCase_flagChars _ H), andb_true_r.
    unfold dashes. now destruct (_ =? 1)%nat. }
  rewrite (trim_flagChars _ Hall). now apply filterChars_all.
Qed.


(** C2 (amended).  The compiled string is [sfdx], the command, every
    positional argument sanitized, and then one flag per key that follows the
    FLAG_ convention, in key order.  The emitted flag has no upper-case
    letter; when the name after the prefix is made of letters, digits and
    hyphens it is that name lower-cased behind one dash if it is one
    character long and behind two dashes otherwise.  A boolean value, [true]
    or [false], renders as the bare flag; every value that is not a boolean
    renders as the flag followed by the sanitized value, and the compiler
    throws what the sanitizer throws on a value it cannot convert. *)
Theorem parseSfdxCommand_flag_rendering (def : SfdxCommandDefinition) :
  parseSfdxCommand def = compileWith renderFlag def /\
  forall (k : string) (v : value),
    existsChar isUpper (flagToken k) = false /\
    (allChars flagChar (substringFrom k 5) = true ->
     flagToken k
     = (if (String.length (flagName k) =? 1)%nat then "-" else "--") ++ flagName k) /\
    (isBoolean v = true -> renderFlag (k, v) = Normal (" " ++ flagToken k)) /\
    (isBoolean v = false ->
     match sanitizeArgument v with
     | Normal sanitized =>
         renderFlag (k, v) = Normal (" " ++ flagToken k ++ " " ++ sanitized)
     | Throw e => toStr v = None /\ renderFlag (k, v) = Throw e
     end).
Proof.
  split.
  - unfold parseSfdxCommand, compileWith.
    rewrite addArgument_fold.
    destruct (mapM renderArgument (commandArgs def)) as [rs|e]; cbn [cbind];
      [|reflexivity].
    destruct (objectKeys (commandFlags def)) as [keys|e]; cbn [cbind];
      [|reflexivity].
    rewrite addFlag_fold.
    destruct (mapM renderFlag _) as [fs|e]; cbn [cbind]; [|reflexivity].
    now rewrite !append_assoc.
  - intros k v. split; [apply flagToken_not_upper|].
    split; [apply flagToken_clean|].
    unfold renderFlag; cbn [fst snd].
    split; intros Hb; rewrite Hb; [reflexivity|].
    unfold sanitizeArgument, toString.
    destruct (toStr v) as [text|]; cbn [cbind].
    + destruct (existsChar _ _); reflexivity.
    + split; reflexivity.
Qed.

Lemma parseSfdxCommand_flag_rendering_witness :
  parseSfdxCommand deleteOrgFlags
  = Normal "sfdx force:org:delete --targetusername 'dev@org.com' --noprompt --json" /\
  flagToken "FLAG_TARGETUSERNAME" = "--targetusername" /\
  flagToken "flag_P" = "-p" /\
  renderFlag ("FLAG_JSON", VBool true) = Normal " --json" /\
  renderFlag ("FLAG_LOGLEVEL", VStr "debug") = Normal " --loglevel debug".
Proof.
  destruct (parseSfdxCommand_flag_rendering deleteOrgFlags) as [Hc Hk].
  split; [rewrite Hc; reflexivity|].
  destruct (Hk "FLAG_TARGETUSERNAME" VNull) as (_ & Hn & _ & _).
  split; [rewrite Hn; reflexivity|].
  destruct (Hk "flag_P" VNull) as (_ & Hp & _ & _).
  split; [rewrite Hp; reflexivity|].
  destruct (Hk "FLAG_JSON" (VBool true)) as (_ & _ & Hb & _).
  split; [rewrite Hb; reflexivity|].
  destruct (Hk "FLAG_LOGLEVEL" (VStr "debug")) as (_ & _ & _ & Hv).
  exact (Hv eq_refl).
Defined.

(** C2 as worded fails on a flag whose value is [false]: the compiler emits
    the bare flag, where the wording asks for the flag followed by the
    sanitized value. *)
Lemma parseSfdxCommand_false_is_bare :
  parseSfdxCommand deleteOrgFlags
  = Normal "sfdx force:org:delete --targetusername 'dev@org.com' --noprompt --json" /\
  compileWith renderFlag_as_specified deleteOrgFlags
  = Normal "sfdx force:org:delete --targetusername 'dev@org.com' --noprompt false --json" /\
  parseSfdxCommand deleteOrgFlags <> compileWith renderFlag_as_specified deleteOrgFlags.
Proof. repeat split; try reflexivity. vm_compute. discriminate. Qed.

End SanitizerProofs.

Module FalconErrorProofs.
Import JsString Js Eff FalconError FalconErrorSpec.
Local Open Scope eff_scope.

Lemma prefix_nl (c : ascii) (r : string) :
  String.prefix nl (String c r) = Ascii.eqb c (ascii_of_nat 10).
Proof.
  change (String.prefix nl (String c r))
    with (match ascii_dec (ascii_of_nat 10) c with
          | left _ => String.prefix "" r
          | right _ => false
          end).
  destruct (ascii_dec (ascii_of_nat 10) c) as [Heq|Hne].
  - subst c. destruct r; reflexivity.
  - symmetry. apply Ascii.eqb_neq. congruence.
Qed.

Lemma index_nl (s : string) :
  match String.index 0 nl s with
  | Some i => upToNewline s = Some (String.substring 0 i s)
  | None => upToNewline s = None
  end.
Proof.
  induction s as [|c r IH].
  - reflexivity.
  - cbn [String.index]. rewrite prefix_nl. cbn [upToNewline].
    destruct (Ascii.eqb c (ascii_of_nat 10)).
    + reflexivity.
    + destruct (String.index 0 nl r) as [i|]; rewrite IH; reflexivity.
Qed.

Lemma index_bound (p s : string) (i : nat) :
  String.index 0 p s = Some i -> (i <= String.length s)%nat.
Proof.
  revert i; induction s as [|c r IH]; intros i; cbn [String.index].
  - destruct p; intros H; inversion H; simpl; lia.
  - destruct (String.prefix p (String c r)).
    + intros H; inversion H; simpl; lia.
    + destruct (String.index 0 p r) as [j|]; intros H; inversion H.
      specialize (IH j eq_refl). simpl. lia.
Qed.

Lemma substr_indexOf_nl (s : string) :
  substr s 0 (indexOf s nl) = beforeFirstNewline s.
Proof.
  unfold substr, indexOf, beforeFirstNewline.
  pose proof (index_nl s) as H. pose proof (index_bound nl s) as Hb.
  destruct (String.index 0 nl s) as [i|].
  - rewrite H. specialize (Hb i eq_refl).
    replace (0 <? 0)%Z with false by reflexivity.
    rewrite Z.min_l by lia. rewrite Z.sub_0_r.
    rewrite Z.max_l by lia. rewrite Z.min_l by lia.
    now rewrite Nat2Z.id.
  - rewrite H. replace (0 <? 0)%Z with false by reflexivity.
    rewrite Z.min_l by lia. rewrite Z.max_r by lia.
    rewrite Z.min_l by lia. simpl. destruct s; reflexivity.
Qed.


Lemma orElse_truthy (a b c : value) :
  truthy b = true -> orElse (orElse a b) c = orElse a b.
Proof.
  intros Hb. unfold orElse. destruct (truthy a) eqn:Ha; [now rewrite Ha | now rewrite Hb].
Qed.

Lemma lookup_assign_same (k : string) (v : value) (ps : props) :
  lookup k (assign k v ps) = v /\ hasKey k (assign k v ps) = true.
Proof.
  induction ps as [|[k' v'] ps [IH1 IH2]]; cbn.
  - now rewrite String.eqb_refl.
  - destruct (String.eqb k k') eqn:Hk; cbn.
    + now rewrite String.eqb_refl.
    + now rewrite Hk, IH1, IH2.
Qed.

Lemma lookup_assign_other (k k' : string) (v : value) (ps : props) :
  k' <> k ->
  lookup k' (assign k v ps) = lookup k' ps /\ hasKey k' (assign k v ps) = hasKey k' ps.
Proof.
  intros Hne. apply String.eqb_neq in Hne.
  induction ps as [|[k0 v0] ps [IH1 IH2]]; cbn.
  - now rewrite Hne.
  - destruct (String.eqb k k0) eqn:Hk; cbn.
    + apply String.eqb_eq in Hk. subst k0. now rewrite Hne.
    + now rewrite IH1, IH2.
Qed.

Lemma prop_setProp_same (i : nat) (c : cls) (ps : props) (k : string) (v : value) :
  accessorTarget k = None -> prop (setProp (VObj i c ps) k v) k = v.
Proof.
  intros Hk. cbn [setProp prop]. rewrite Hk.
  destruct (lookup_assign_same k v ps) as [Hl Hh].
  rewrite Hl, Hh. now destruct (extends c CSfdxFalconError).
Qed.

Lemma prop_setProp_other (i : nat) (c : cls) (ps : props) (k k' : string) (v : value) :
  k' <> k -> accessorTarget k' <> Some k ->
  prop (setProp (VObj i c ps) k v) k' = prop (VObj i c ps) k'.
Proof.
  intros Hne Hacc. cbn [setProp prop].
  destruct (extends c CSfdxFalconError).
  - destruct (accessorTarget k') as [t|] eqn:Ht.
    + assert (Htk : t <> k) by congruence.
      now destruct (lookup_assign_other k t v ps Htk) as [-> _].
    + now destruct (lookup_assign_other k k' v ps Hne) as [-> ->].
  - now destruct (lookup_assign_other k k' v ps Hne) as [-> ->].
Qed.


Section Constructors.
Variable P : Platform.

Lemma newSfdxFalconError_shape (c : cls)
    (message name source cause actions exitCode : value) (n : nat) :
  newSfdxFalconError P c message name source cause actions exitCode n
  = (Normal
       (VObj n c
          ((match message with
            | VStr _ => [("message", message)]
            | _ => []
            end)
           ++ [("stack", VStr (stackOf P n));
               ("cause", match message with VStr _ => cause | _ => message end);
               ("name", orElse name (VStr "SfdxFalconError"));
               ("actions", orElse actions (VArr []));
               ("exitCode", orElse exitCode (VNum 1));
               ("data", VObj (n + 1) CObject []);
               ("source", defaultTo (VStr "Unhandled Exception") source);
               ("_detail", VObj (n + 2) CObject []);
               ("_userInfo", VObj (n + 3) CObject
                               [("title", VStr "UNKNOWN ERROR");
                                ("message", VStr "An unknown error has occured");
                                ("actions", VArr [])]);
               ("_debugInfo", VObj (n + 4) CObject
                                [("title", VStr "UNKNOWN ERROR");
                                 ("message", VStr "An unknown error has occured");
                                 ("actions", VArr [])]);
               ("_devInfo", VObj (n + 5) CObject
                              [("title", VStr "UNKNOWN ERROR");
                               ("message", VStr "An unknown error has occured");
                               ("actions", VArr [])]);
               ("_resultStack",
                if truthy cause then orElse (prop cause "resultStack") (VStr "")
                else VStr "")])%list),
     (n + 6)%nat).
Proof.
  unfold newSfdxFalconError, newSfdxError, newSfdxFalconErrorInfo, newObject, bind, ret.
  rewrite (orElse_truthy name (VStr "SfdxFalconError") (VStr "SfdxError") eq_refl).
  rewrite (orElse_truthy exitCode (VNum 1) (VNum 1) eq_refl).
  replace (n + 1)%nat with (S n) by lia.
  replace (n + 2)%nat with (S (S n)) by lia.
  replace (n + 3)%nat with (S (S (S n))) by lia.
  replace (n + 4)%nat with (S (S (S (S n)))) by lia.
  replace (n + 5)%nat with (S (S (S (S (S n))))) by lia.
  replace (n + 6)%nat with (S (S (S (S (S (S n)))))) by lia.
  destruct message; destruct (truthy cause); reflexivity.
Qed.

(** The members of a new SfdxFalconError, read back. *)
Lemma newSfdxFalconError_members (c : cls)
    (message name source cause actions exitCode : value) (n : nat) :
  extends c CError = true ->
  exists ps,
    newSfdxFalconError P c message name source cause actions exitCode n
    = (Normal (VObj n c ps), (n + 6)%nat) /\
    hasKey "toString" ps = false /\
    prop (VObj n c ps) "message"
    = (match message with VStr _ => message | _ => VStr "" end) /\
    prop (VObj n c ps) "cause"
    = (match message with VStr _ => cause | _ => message end) /\
    prop (VObj n c ps) "stack" = VStr (stackOf P n) /\
    prop (VObj n c ps) "name" = orElse name (VStr "SfdxFalconError") /\
    prop (VObj n c ps) "source" = defaultTo (VStr "Unhandled Exception") source /\
    prop (VObj n c ps) "exitCode" = orElse exitCode (VNum 1) /\
    prop (VObj n c ps) "actions" = orElse actions (VArr []) /\
    lookup "_resultStack" ps
    = (if truthy cause then orElse (prop cause "resultStack") (VStr "") else VStr "") /\
    prop (VObj n c ps) "data" = VObj (n + 1) CObject [].
Proof.
  intros Hc. rewrite newSfdxFalconError_shape. eexists. split; [reflexivity|].
  destruct (extends c CSfdxFalconError) eqn:Hf; destruct message;
    cbn -[extends inherited]; rewrite ?Hf; cbn -[extends inherited];
    unfold inherited; rewrite ?Hc; cbn -[extends];
    repeat split; reflexivity.
Qed.

Lemma shellErrorMessage_default (code signal stdErrBuffer stdOutBuffer message : value) :
  noMessage message = true ->
  shellErrorMessage code signal stdErrBuffer (defaultTo VNull stdOutBuffer)
    (defaultTo (VStr "") message)
  = match (if nonEmptyString stdErrBuffer
           then option_map beforeFirstNewline (toStr stdErrBuffer)
           else if nonEmptyString stdOutBuffer
                then option_map beforeFirstNewline (toStr stdOutBuffer)
                else match toStr code, toStr signal with
                     | Some c, Some s =>
                         Some ("Unknown Shell Error (code=" ++ c ++ ", signal="
                                 ++ s ++ ")")
                     | _, _ => None
                     end) with
    | Some text => Normal (VStr text)
    | None => Throw conversionError
    end.
Proof.
  intros Hm. unfold shellErrorMessage.
  assert (Ht : truthy (defaultTo (VStr "") message) = false).
  { destruct message as [| |b|z|s|xs|i c ps]; try discriminate Hm; try reflexivity.
    destruct s; [reflexivity | discriminate Hm]. }
  rewrite Ht. cbn [negb].
  assert (Hlast :
    (code0 <~ toString code ;;
     signal0 <~ toString signal ;;
     Normal (VStr ("Unknown Shell Error (code=" ++ code0 ++ ", signal="
                     ++ signal0 ++ ")")))
    = match (match toStr code, toStr signal with
             | Some c, Some s =>
                 Some ("Unknown Shell Error (code=" ++ c ++ ", signal=" ++ s ++ ")")
             | _, _ => None
             end) with
      | Some text => Normal (VStr text)
      | None => Throw conversionError
      end).
  { unfold toString. destruct (toStr code); cbn [cbind]; [|reflexivity].
    destruct (toStr signal); reflexivity. }
  destruct stdErrBuffer as [| |b|z|s|xs|i c ps];
    cbn [nonEmptyText nonEmptyString toStr option_map];
    try (destruct s as [|a s]; cbn [isEmptyStr negb];
         [|now rewrite substr_indexOf_nl]);
    (destruct stdOutBuffer as [| |b'|z'|s'|xs'|i' c' ps'];
     cbn [defaultTo nonEmptyText nonEmptyString toStr option_map];
     try exact Hlast;
     destruct s' as [|a' s']; cbn [isEmptyStr negb];
     [exact Hlast | now rewrite substr_indexOf_nl]).
Qed.

Lemma no_newline_no_line (s : string) :
  indexOf s nl = (-1)%Z -> beforeFirstNewline s = "".
Proof.
  unfold indexOf, beforeFirstNewline. pose proof (index_nl s) as H.
  destruct (String.index 0 nl s) as [i|]; [lia | now rewrite H].
Qed.

(** C10.  A ShellError that is given no message takes the text of
    [stdErrBuffer] before its first newline when [stdErrBuffer] is a string
    that is not empty, and that text is empty when [stdErrBuffer] has no
    newline; otherwise the text of [stdOutBuffer] before its first newline
    when [stdOutBuffer] is a string that is not empty; otherwise
    [Unknown Shell Error (code=<code>, signal=<signal>)], with the code and
    the signal as a template literal converts them.  The message is that of
    the Error and of its [shellError] member.  The constructor throws in the
    last case only, when the code or the signal does not convert. *)
Theorem newShellError_default_message
    (command code signal stdErrBuffer stdOutBuffer source message : value) (n : nat) :
  noMessage message = true ->
  let expected :=
    if nonEmptyString stdErrBuffer
    then option_map beforeFirstNewline (toStr stdErrBuffer)
    else if nonEmptyString stdOutBuffer
         then option_map beforeFirstNewline (toStr stdOutBuffer)
         else match toStr code, toStr signal with
              | Some c, Some s =>
                  Some ("Unknown Shell Error (code=" ++ c ++ ", signal=" ++ s ++ ")")
              | _, _ => None
              end in
  match expected with
  | Some text =>
      exists this n',
        newShellError P command code signal stdErrBuffer stdOutBuffer source message n
        = (Normal this, n') /\
        prop this "message" = VStr text /\
        prop (prop this "shellError") "message" = VStr text
  | None =>
      nonEmptyString stdErrBuffer = false /\ nonEmptyString stdOutBuffer = false /\
      (toStr code = None \/ toStr signal = None) /\
      newShellError P command code signal stdErrBuffer stdOutBuffer source message n
      = (Throw conversionError, n)
  end /\
  (forall s, stdErrBuffer = VStr s -> s <> "" -> indexOf s nl = (-1)%Z ->
             expected = Some "").
Proof.
  intros Hm expected. split.
  - unfold newShellError, bind, lift.
    rewrite (shellErrorMessage_default code signal stdErrBuffer stdOutBuffer message Hm).
    fold expected. destruct expected as [text|] eqn:He.
    + unfold toString. cbn [toStr].
      rewrite newSfdxFalconError_shape. unfold newObject, ret.
      eexists; eexists. split; [reflexivity|]. split; reflexivity.
    + unfold expected in He.
      destruct (nonEmptyString stdErrBuffer) eqn:H1.
      { destruct stdErrBuffer; discriminate. }
      destruct (nonEmptyString stdOutBuffer) eqn:H2.
      { destruct stdOutBuffer; discriminate. }
      split; [reflexivity|]. split; [reflexivity|]. split; [|reflexivity].
      destruct (toStr code); [|now left].
      destruct (toStr signal); [discriminate | now right].
  - intros s -> Hs Hi. unfold expected. cbn [nonEmptyString toStr option_map].
    destruct s; [contradiction|]. cbn [isEmptyStr negb].
    now rewrite (no_newline_no_line _ Hi).
Qed.

End Constructors.

Lemma newShellError_default_message_witness :
  noMessage VUndefined = true /\
  (exists this n',
     newShellError Samples.samplePlatform (VStr "sfdx force:org:list") (VNum 127) VNull
       (VStr ("sh: sfdx: command not found" ++ nl ++ "exit")) VUndefined VUndefined
       VUndefined 0 = (Normal this, n') /\
     prop this "message" = VStr "sh: sfdx: command not found") /\
  (exists this n',
     newShellError Samples.samplePlatform (VStr "sfdx force:org:list") (VNum 1) VNull
       (VStr "no newline here") (VStr "out") VUndefined (VStr "") 0 = (Normal this, n') /\
     prop this "message" = VStr "") /\
  (exists this n',
     newShellError Samples.samplePlatform (VStr "sfdx force:org:list") VNull
       (VStr "SIGKILL") (VStr "") (VStr "") VUndefined VUndefined 0 = (Normal this, n') /\
     prop this "message" = VStr "Unknown Shell Error (code=null, signal=SIGKILL)").
Proof.
  split; [reflexivity|]. split; [|split].
  - destruct (newShellError_default_message Samples.samplePlatform
                (VStr "sfdx force:org:list") (VNum 127) VNull
                (VStr ("sh: sfdx: command not found" ++ nl ++ "exit")) VUndefined
                VUndefined VUndefined 0 eq_refl) as [(this & n' & Hnew & Hmsg & _) _].
    exists this, n'. split; [exact Hnew | exact Hmsg].
  - destruct (newShellError_default_message Samples.samplePlatform
                (VStr "sfdx force:org:list") (VNum 1) VNull
                (VStr "no newline here") (VStr "out") VUndefined (VStr "") 0 eq_refl)
      as [(this & n' & Hnew & Hmsg & _) _].
    exists this, n'. split; [exact Hnew | exact Hmsg].
  - destruct (newShellError_default_message Samples.samplePlatform
                (VStr "sfdx force:org:list") VNull (VStr "SIGKILL") (VStr "") (VStr "")
                VUndefined VUndefined 0 eq_refl)
      as [(this & n' & Hnew & Hmsg & _) _].
    exists this, n'. split; [exact Hnew | exact Hmsg].
Defined.

Section CliError.
Variable P : Platform.

Lemma unparseableCliError_shape (s : string) (i : nat) (n : nat) :
  unparseableCliError s (VObj i CObject []) n
  = (Normal
       (VObj i CObject
          [("name", VStr "UnparseableCliError");
           ("message",
            VStr "Unparseable CLI Error (see 'cliError.result.rawResult' for raw error)");
           ("status", VNum 999);
           ("actions", VArr []);
           ("warnings", VArr []);
           ("stack",
            VStr "Unparseable CLI Error (see 'cliError.result.rawResult' for raw error)");
           ("result", VObj n CObject [("rawResult", VStr s)])]),
     S n).
Proof. reflexivity. Qed.

Lemma setProp_object (i : nat) (c : cls) (ps : props) (k : string) (v : value) :
  setProp (VObj i c ps) k v = VObj i c (assign k v ps).
Proof. reflexivity. Qed.

Lemma getProp_readable (v : value) (k : string) :
  readable v = true -> getProp v k = Normal (prop v k).
Proof. destruct v; intros H; try discriminate H; reflexivity. Qed.

Lemma getProp_unreadable (v : value) (k : string) :
  readable v = false -> exists m, getProp v k = Throw (TypeError m).
Proof. destruct v; intros H; try discriminate H; eexists; reflexivity. Qed.

Lemma toString_printable (v : value) :
  printable v = true -> exists s, toStr v = Some s /\ toString v = Normal s.
Proof.
  unfold printable, toString. destruct (toStr v) as [s|]; [|discriminate].
  intros _. now exists s.
Qed.

Lemma toString_unprintable (v : value) :
  printable v = false -> toStr v = None /\ toString v = Throw conversionError.
Proof.
  unfold printable, toString. destruct (toStr v) as [s|]; [discriminate|].
  intros _. now split.
Qed.

Lemma isNaN_printable (v : value) :
  printable v = true -> exists b, isNaN P v = Normal b.
Proof.
  intros Hp. destruct (toString_printable v Hp) as (s & _ & Hs).
  destruct v; cbn [isNaN]; rewrite ?Hs; cbn [cbind]; eexists; reflexivity.
Qed.

Lemma isNaN_unprintable (v : value) :
  printable v = false -> isNaN P v = Throw conversionError.
Proof.
  intros Hp. destruct (toString_unprintable v Hp) as (Hn & Hs).
  destruct v as [| |[]|z|s|xs|i c ps]; try discriminate Hn; cbn [isNaN];
    rewrite Hs; reflexivity.
Qed.

Lemma readCliError_shape (s : string) (parsed : value) (b : bool) (i m : nat) :
  JSON_parse P s = Some parsed -> readable parsed = true ->
  isNaN P (prop parsed "status") = Normal b ->
  readCliError P s (VObj i CObject []) [] m
  = (Normal
       (VObj i CObject
          [("name", orElse (prop parsed "name") (VStr "UnknownCliError"));
           ("message",
            orElse (prop parsed "message")
              (VStr "Unknown CLI Error (see 'cliError.result.rawResult' for original CLI response)"));
           ("status", if b then VNum 1 else prop parsed "status");
           ("actions",
            VArr ((match prop parsed "actions" with VArr xs => xs | _ => [] end)
                    ++ (if truthy (prop parsed "action")
                        then [prop parsed "action"] else []))%list);
           ("warnings", orElse (prop parsed "warnings") (VArr []));
           ("stack", orElse (prop parsed "stack") (VStr ""));
           ("result",
            if truthy (prop parsed "result") then prop parsed "result"
            else VObj m CObject [("rawResult", parsed)])]),
     if truthy (prop parsed "result") then m else S m).
Proof.
  intros Hp Hr Hb. unfold readCliError, bind, lift. rewrite Hp.
  rewrite !(getProp_readable parsed _ Hr). rewrite Hb.
  unfold ret, newObject. cbn [setProp assign String.eqb Ascii.eqb Bool.eqb].
  destruct (truthy (prop parsed "result"));
    destruct (prop parsed "actions"); destruct (truthy (prop parsed "action"));
    cbn; rewrite ?List.app_nil_r; reflexivity.
Qed.

Lemma readCliError_throws (s : string) (cliError : value) (m : nat) :
  readsAsCliResponse P s = false ->
  exists e, readCliError P s cliError [] m = (Throw e, m).
Proof.
  unfold readsAsCliResponse, readCliError, bind, lift.
  destruct (JSON_parse P s) as [parsed|]; [|intros _; eexists; reflexivity].
  destruct (readable parsed) eqn:Hr; cbn [andb].
  - intros Hs. rewrite !(getProp_readable parsed _ Hr).
    rewrite (isNaN_unprintable _ Hs). eexists; reflexivity.
  - intros _. destruct (getProp_unreadable parsed "name" Hr) as (x & Hx).
    rewrite Hx. eexists; reflexivity.
Qed.

Lemma cliError_block_caught (s : string) (n : nat) :
  readsAsCliResponse P s = false ->
  tryCatch (readCliError P s (VObj n CObject []) [])
           (fun _ => unparseableCliError s (VObj n CObject [])) (S n)
  = (Normal
       (VObj n CObject
          [("name", VStr "UnparseableCliError");
           ("message",
            VStr "Unparseable CLI Error (see 'cliError.result.rawResult' for raw error)");
           ("status", VNum 999);
           ("actions", VArr []);
           ("warnings", VArr []);
           ("stack",
            VStr "Unparseable CLI Error (see 'cliError.result.rawResult' for raw error)");
           ("result", VObj (S n) CObject [("rawResult", VStr s)])]),
     S (S n)).
Proof.
  intros H. unfold tryCatch.
  destruct (readCliError_throws s (VObj n CObject []) (S n) H) as (e & He).
  rewrite He. apply unparseableCliError_shape.
Qed.

(** The constructor after its [try] statement, for the [cliError] it has
    put together. *)
Lemma newSfdxCliError_finish (message source cliError : value)
    (text cliText : string) (m : nat) :
  toStr (defaultTo (VStr "Unknown CLI Error") message) = Some text ->
  toStr (prop cliError "message") = Some cliText ->
  exists ps,
    (message0 <- lift (toString (defaultTo (VStr "Unknown CLI Error") message)) ;;
     cliMessage <- lift (toString (prop cliError "message")) ;;
     this <-
       newSfdxFalconError P CSfdxCliError (VStr (message0 ++ ". " ++ cliMessage))
         (VStr "SfdxCliError") (defaultTo (VStr "") source)
         VUndefined VUndefined VUndefined ;;
     let this := setProp this "cliError" cliError in
     if negb (isEmpty (prop cliError "actions"))
     then ret (setProp this "actions" (prop cliError "actions"))
     else ret this) m
    = (Normal (VObj m CSfdxCliError ps), (m + 6)%nat) /\
    prop (VObj m CSfdxCliError ps) "cliError" = cliError /\
    prop (VObj m CSfdxCliError ps) "message" = VStr (text ++ ". " ++ cliText) /\
    prop (VObj m CSfdxCliError ps) "name" = VStr "SfdxCliError" /\
    prop (VObj m CSfdxCliError ps) "source" = defaultTo (VStr "") source /\
    prop (VObj m CSfdxCliError ps) "actions"
    = (if negb (isEmpty (prop cliError "actions"))
       then prop cliError "actions" else VArr []).
Proof.
  intros Hm Hc. unfold bind, lift, toString. rewrite Hm, Hc.
  rewrite newSfdxFalconError_shape.
  destruct (negb (isEmpty (prop cliError "actions"))); unfold ret;
    cbn [setProp List.app assign String.eqb Ascii.eqb Bool.eqb];
    (eexists; split; [reflexivity|]); cbn -[prop];
    repeat split; destruct source; reflexivity.
Qed.

Lemma newSfdxCliError_after_block (stdErrBuffer : string) (message source c : value)
    (n n1 : nat) :
  tryCatch (readCliError P stdErrBuffer (VObj n CObject []) [])
           (fun _ => unparseableCliError stdErrBuffer (VObj n CObject [])) (S n)
  = (Normal c, n1) ->
  newSfdxCliError P stdErrBuffer message source n
  = (message0 <- lift (toString (defaultTo (VStr "Unknown CLI Error") message)) ;;
     cliMessage <- lift (toString (prop c "message")) ;;
     this <-
       newSfdxFalconError P CSfdxCliError (VStr (message0 ++ ". " ++ cliMessage))
         (VStr "SfdxCliError") (defaultTo (VStr "") source)
         VUndefined VUndefined VUndefined ;;
     let this := setProp this "cliError" c in
     if negb (isEmpty (prop c "actions"))
     then ret (setProp this "actions" (prop c "actions"))
     else ret this) n1.
Proof.
  intros Hblock. unfold newSfdxCliError. unfold bind at 1. unfold newObject at 1.
  unfold bind at 1. rewrite Hblock. reflexivity.
Qed.

Lemma cliError_block_returns (stdErrBuffer : string) (n : nat) :
  exists c n1,
    tryCatch (readCliError P stdErrBuffer (VObj n CObject []) [])
             (fun _ => unparseableCliError stdErrBuffer (VObj n CObject [])) (S n)
    = (Normal c, n1).
Proof.
  unfold tryCatch.
  destruct (readCliError P stdErrBuffer (VObj n CObject []) [] (S n)) as [[c|e] n1].
  - now exists c, n1.
  - rewrite unparseableCliError_shape. eexists; eexists; reflexivity.
Qed.

Lemma newSfdxCliError_message_throws (stdErrBuffer : string) (message source : value)
    (n : nat) :
  printable (defaultTo (VStr "Unknown CLI Error") message) = false ->
  exists n', newSfdxCliError P stdErrBuffer message source n = (Throw conversionError, n').
Proof.
  intros Hm. destruct (toString_unprintable _ Hm) as (_ & Ht).
  destruct (cliError_block_returns stdErrBuffer n) as (c & n1 & Hblock).
  rewrite (newSfdxCliError_after_block _ message source _ _ _ Hblock).
  unfold bind, lift. rewrite Ht. eexists; reflexivity.
Qed.

(** The [cliError] of an input that gets through the [try] block. *)
Lemma newSfdxCliError_parsed (s : string) (parsed message source : value) (b : bool)
    (text cliText : string) (n : nat) :
  JSON_parse P s = Some parsed -> readable parsed = true ->
  isNaN P (prop parsed "status") = Normal b ->
  toStr (defaultTo (VStr "Unknown CLI Error") message) = Some text ->
  toStr (orElse (prop parsed "message")
           (VStr "Unknown CLI Error (see 'cliError.result.rawResult' for original CLI response)"))
  = Some cliText ->
  exists ps n',
    newSfdxCliError P s message source n = (Normal (VObj n' CSfdxCliError ps), (n' + 6)%nat) /\
    prop (VObj n' CSfdxCliError ps) "cliError"
    = VObj n CObject
        [("name", orElse (prop parsed "name") (VStr "UnknownCliError"));
         ("message",
          orElse (prop parsed "message")
            (VStr "Unknown CLI Error (see 'cliError.result.rawResult' for original CLI response)"));
         ("status", if b then VNum 1 else prop parsed "status");
         ("actions",
          VArr ((match prop parsed "actions" with VArr xs => xs | _ => [] end)
                  ++ (if truthy (prop parsed "action")
                      then [prop parsed "action"] else []))%list);
         ("warnings", orElse (prop parsed "warnings") (VArr []));
         ("stack", orElse (prop parsed "stack") (VStr ""));
         ("result",
          if truthy (prop parsed "result") then prop parsed "result"
          else VObj (S n) CObject [("rawResult", parsed)])] /\
    prop (VObj n' CSfdxCliError ps) "actions"
    = VArr ((match prop parsed "actions" with VArr xs => xs | _ => [] end)
              ++ (if truthy (prop parsed "action")
                  then [prop parsed "action"] else []))%list /\
    prop (VObj n' CSfdxCliError ps) "message" = VStr (text ++ ". " ++ cliText) /\
    prop (VObj n' CSfdxCliError ps) "name" = VStr "SfdxCliError" /\
    prop (VObj n' CSfdxCliError ps) "source" = defaultTo (VStr "") source.
Proof.
  intros Hp Hr Hb Hm Hc.
  assert (Hblock := readCliError_shape s parsed b n (S n) Hp Hr Hb).
  match type of Hblock with
  | _ = (Normal ?c, ?n1) =>
      assert (Htry : tryCatch (readCliError P s (VObj n CObject []) [])
                       (fun _ => unparseableCliError s (VObj n CObject [])) (S n)
                     = (Normal c, n1))
        by (unfold tryCatch; now rewrite Hblock);
      rewrite (newSfdxCliError_after_block s message source c n n1 Htry);
      destruct (newSfdxCliError_finish message source c text cliText n1 Hm)
        as (ps & Hnew & Hcli & Hmsg & Hname & Hsrc & Hacts); [exact Hc|]
  end.
  exists ps. eexists. split; [exact Hnew|].
  split; [exact Hcli|]. split; [|split; [exact Hmsg | split; [exact Hname | exact Hsrc]]].
  rewrite Hacts. cbn.
  destruct ((match prop parsed "actions" with VArr xs => xs | _ => [] end)
              ++ (if truthy (prop parsed "action")
                  then [prop parsed "action"] else []))%list; reflexivity.
Qed.

(** The error of an input that does not get through the [try] block. *)
Lemma newSfdxCliError_caught (s : string) (message source : value) (text : string)
    (n : nat) :
  readsAsCliResponse P s = false ->
  toStr (defaultTo (VStr "Unknown CLI Error") message) = Some text ->
  exists ps,
    newSfdxCliError P s message source n
    = (Normal (VObj (S (S n)) CSfdxCliError ps), (S (S n) + 6)%nat) /\
    prop (VObj (S (S n)) CSfdxCliError ps) "cliError"
    = VObj n CObject
        [("name", VStr "UnparseableCliError");
         ("message",
          VStr "Unparseable CLI Error (see 'cliError.result.rawResult' for raw error)");
         ("status", VNum 999);
         ("actions", VArr []);
         ("warnings", VArr []);
         ("stack",
          VStr "Unparseable CLI Error (see 'cliError.result.rawResult' for raw error)");
         ("result", VObj (S n) CObject [("rawResult", VStr s)])] /\
    prop (VObj (S (S n)) CSfdxCliError ps) "message"
    = VStr (text ++ ". "
              ++ "Unparseable CLI Error (see 'cliError.result.rawResult' for raw error)") /\
    prop (VObj (S (S n)) CSfdxCliError ps) "name" = VStr "SfdxCliError" /\
    prop (VObj (S (S n)) CSfdxCliError ps) "source" = defaultTo (VStr "") source.
Proof.
  intros Hread Hm.
  rewrite (newSfdxCliError_after_block s message source _ n _
             (cliError_block_caught s n Hread)).
  match goal with
  | |- context [setProp _ "cliError" ?c] =>
      destruct (newSfdxCliError_finish message source c text
                  "Unparseable CLI Error (see 'cliError.result.rawResult' for raw error)"
                  (S (S n)) Hm eq_refl)
        as (ps & Hnew & Hcli & Hmsg & Hname & Hsrc & _)
  end.
  exists ps. split; [exact Hnew|]. split; [exact Hcli|].
  split; [exact Hmsg|]. split; [exact Hname | exact Hsrc].
Qed.

Lemma newSfdxCliError_cli_message_throws (s : string) (message source : value) (n : nat) :
  printable (defaultTo (VStr "Unknown CLI Error") message) = true ->
  unprintableCliMessage P s = true ->
  exists n', newSfdxCliError P s message source n = (Throw conversionError, n').
Proof.
  intros Hm Hu. unfold unprintableCliMessage, readsAsCliResponse in Hu.
  destruct (JSON_parse P s) as [parsed|] eqn:Hp; [|discriminate Hu].
  apply andb_prop in Hu as [Hread Hmsg].
  apply andb_prop in Hread as [Hr Hs]. apply andb_prop in Hmsg as [Ht Hn].
  apply negb_true_iff in Hn.
  destruct (isNaN_printable (prop parsed "status") Hs) as (b & Hb).
  assert (Hblock := readCliError_shape s parsed b n (S n) Hp Hr Hb).
  destruct (toString_printable _ Hm) as (text & _ & Htext).
  destruct (toString_unprintable _ Hn) as (_ & Hthrow).
  match type of Hblock with
  | _ = (Normal ?c, ?n1) =>
      assert (Htry : tryCatch (readCliError P s (VObj n CObject []) [])
                       (fun _ => unparseableCliError s (VObj n CObject [])) (S n)
                     = (Normal c, n1))
        by (unfold tryCatch; now rewrite Hblock);
      rewrite (newSfdxCliError_after_block s message source c n n1 Htry)
  end.
  unfold bind, lift. rewrite Htext. cbn [prop hasKey lookup String.eqb Ascii.eqb Bool.eqb
    orb extends extends_upto cls_eqb super_of accessorTarget].
  unfold orElse at 1. rewrite Ht, Hthrow. eexists; reflexivity.
Qed.

(** C9 (amended).  The SfdxCliError constructor returns for every input
    string whose CLI message it can put into the message of the error, and
    it throws a TypeError for the others: the strings that parse to a value
    whose status [isNaN] takes and whose message is truthy and does not
    convert to a string.  When the string is not parseable JSON, the
    constructor returns, and the [cliError] of the new error has the name
    [UnparseableCliError], the status 999, no actions, no warnings, and the
    input string itself at [result.rawResult]. *)
Theorem newSfdxCliError_total (stdErrBuffer : string) (message source : value) (n : nat) :
  printable (defaultTo (VStr "Unknown CLI Error") message) = true ->
  (if unprintableCliMessage P stdErrBuffer
   then exists n',
          newSfdxCliError P stdErrBuffer message source n = (Throw conversionError, n')
   else exists this n',
          newSfdxCliError P stdErrBuffer message source n = (Normal this, n') /\
          instanceOf this CSfdxCliError = true) /\
  (JSON_parse P stdErrBuffer = None ->
   exists this n',
     newSfdxCliError P stdErrBuffer message source n = (Normal this, n') /\
     instanceOf this CSfdxCliError = true /\
     let cliError := prop this "cliError" in
     prop cliError "name" = VStr "UnparseableCliError" /\
     prop cliError "status" = VNum 999 /\
     prop cliError "actions" = VArr [] /\
     prop cliError "warnings" = VArr [] /\
     prop (prop cliError "result") "rawResult" = VStr stdErrBuffer).
Proof.
  intros Hm. destruct (toString_printable _ Hm) as (text & Htext & _). split.
  - destruct (unprintableCliMessage P stdErrBuffer) eqn:Hu.
    + now apply newSfdxCliError_cli_message_throws.
    + destruct (readsAsCliResponse P stdErrBuffer) eqn:Hread.
      * unfold unprintableCliMessage in Hu. rewrite Hread in Hu. cbn [andb] in Hu.
        unfold readsAsCliResponse in Hread.
        destruct (JSON_parse P stdErrBuffer) as [parsed|] eqn:Hp; [|discriminate Hread].
        apply andb_prop in Hread as [Hr Hs].
        destruct (isNaN_printable (prop parsed "status") Hs) as (b & Hb).
        assert (Hc : exists cliText,
                   toStr (orElse (prop parsed "message")
                            (VStr "Unknown CLI Error (see 'cliError.result.rawResult' for original CLI response)"))
                   = Some cliText).
        { unfold orElse. destruct (truthy (prop parsed "message")); [|eexists; reflexivity].
          cbn [andb] in Hu. apply negb_false_iff in Hu.
          destruct (toString_printable _ Hu) as (t & Ht & _). now exists t. }
        destruct Hc as (cliText & Hc).
        destruct (newSfdxCliError_parsed stdErrBuffer parsed message source b text
                    cliText n Hp Hr Hb Htext Hc) as (ps & n' & Hnew & _).
        eexists; eexists. split; [exact Hnew | reflexivity].
      * destruct (newSfdxCliError_caught stdErrBuffer message source text n Hread Htext)
          as (ps & Hnew & _).
        eexists; eexists. split; [exact Hnew | reflexivity].
  - intros Hnone.
    assert (Hread : readsAsCliResponse P stdErrBuffer = false)
      by (unfold readsAsCliResponse; now rewrite Hnone).
    destruct (newSfdxCliError_caught stdErrBuffer message source text n Hread Htext)
      as (ps & Hnew & Hcli & _).
    eexists; eexists. split; [exact Hnew|]. split; [reflexivity|].
    cbv zeta. rewrite Hcli. cbn. repeat split.
Qed.

End CliError.

Lemma newSfdxCliError_total_witness :
  JSON_parse Samples.samplePlatform "sh: sfdx: command not found" = None /\
  (exists this n',
     newSfdxCliError Samples.samplePlatform "sh: sfdx: command not found"
       VUndefined VUndefined 0 = (Normal this, n') /\
     prop (prop this "cliError") "status" = VNum 999 /\
     prop (prop (prop this "cliError") "result") "rawResult"
     = VStr "sh: sfdx: command not found") /\
  (exists this n',
     newSfdxCliError Samples.samplePlatform Samples.notFoundJson
       (VStr "Deletion failed") VUndefined 0 = (Normal this, n') /\
     instanceOf this CSfdxCliError = true).
Proof.
  split; [reflexivity|].
  destruct (newSfdxCliError_total Samples.samplePlatform "sh: sfdx: command not found"
              VUndefined VUndefined 0 eq_refl) as (_ & Hraw).
  destruct (newSfdxCliError_total Samples.samplePlatform Samples.notFoundJson
              (VStr "Deletion failed") VUndefined 0 eq_refl) as (Hret & _).
  split.
  - destruct (Hraw eq_refl) as (this & n' & Hnew & _ & _ & Hstatus & _ & _ & Hresult).
    exists this, n'. split; [exact Hnew|]. split; [exact Hstatus | exact Hresult].
  - exact Hret.
Defined.

(** C9 as worded fails on the response [{"status":1,"message":{"toString":0}}]:
    the message of the parsed value is an object that does not convert to a
    string, and the constructor throws the TypeError of the conversion. *)
Lemma newSfdxCliError_throws_on_unprintable_message :
  JSON_parse Samples.samplePlatform Samples.oddMessageJson
  = Some Samples.oddMessageValue /\
  toStr (prop Samples.oddMessageValue "message") = None /\
  newSfdxCliError Samples.samplePlatform Samples.oddMessageJson
    (VStr "Deletion failed") (VStr "EXECUTOR:sfdx:executeSfdxCommand") 0
  = (Throw conversionError, 2) /\
  ~ (exists this n',
       newSfdxCliError Samples.samplePlatform Samples.oddMessageJson
         (VStr "Deletion failed") (VStr "EXECUTOR:sfdx:executeSfdxCommand") 0
       = (Normal this, n')).
Proof.
  split; [reflexivity|]. split; [reflexivity|]. split; [reflexivity|].
  intros (this & n' & H). vm_compute in H. discriminate H.
Qed.

Section WrapAndRoot.
Variable P : Platform.

(** C6.  [wrap] is idempotent: wrapping what [wrap] returned gives back
    that very object and creates nothing.  What [wrap] returns is an
    SfdxFalconError, and a value that is one already is returned as it is.
    [wrap] returns unless it is given an Error of another class whose name,
    message or stack does not convert to a string, for which it throws the
    TypeError of the conversion. *)
Theorem wrap_idempotent (error source source' : value) (n : nat) :
  match wrap P error source n with
  | (Normal w, n') =>
      wrap P w source' n' = (Normal w, n') /\
      instanceOf w CSfdxFalconError = true /\
      (instanceOf error CSfdxFalconError = true -> w = error /\ n' = n)
  | (Throw e, _) =>
      e = conversionError /\
      instanceOf error CError = true /\
      instanceOf error CSfdxFalconError = false /\
      printable (prop error "name") && printable (prop error "message")
        && printable (prop error "stack") = false
  end.
Proof.
  unfold wrap at 1.
  destruct (instanceOf error CSfdxFalconError) eqn:Hfalcon.
  - cbn [ret]. split; [unfold wrap; now rewrite Hfalcon|].
    split; [exact Hfalcon | intros _; split; reflexivity].
  - destruct (instanceOf error CError) eqn:Herr; unfold bind.
    + destruct (newSfdxFalconError_members P CSfdxFalconError (prop error "message")
                  (prop error "name") source VUndefined VUndefined VUndefined n eq_refl)
        as (ps & Hnew & _ & _ & _ & Hstack & _).
      rewrite Hnew, Hstack.
      destruct (truthy (VStr (stackOf P n))).
      * unfold lift, toString.
        destruct (toStr (prop error "name")) as [name|] eqn:Hname;
          [|repeat split; unfold printable; now rewrite Hname].
        destruct (toStr (prop error "message")) as [message|] eqn:Hmessage;
          [|repeat split; unfold printable; rewrite Hname, Hmessage; reflexivity].
        cbn [replaceIn].
        destruct (toStr (prop error "stack")) as [stack|] eqn:Hst;
          [|repeat split; unfold printable; rewrite Hname, Hmessage, Hst; reflexivity].
        rewrite (prop_setProp_same n CSfdxFalconError ps "stack" _ eq_refl).
        cbn [toStr ret setProp].
        split; [reflexivity|]. split; [reflexivity | intros H; discriminate H].
      * cbn [ret].
        split; [reflexivity|]. split; [reflexivity | intros H; discriminate H].
    + rewrite newSfdxFalconError_shape.
      unfold newObject, ret. cbn [setProp].
      split; [reflexivity|]. split; [reflexivity | intros H; discriminate H].
Qed.

Lemma height_lookup (k : string) (ps : props) :
  (height (lookup k ps)
   <= fold_right (fun kv acc => Nat.max (height (snd kv)) acc) 0 ps)%nat.
Proof.
  induction ps as [|[k' v] ps IH]; cbn [lookup fold_right snd].
  - simpl. lia.
  - destruct (String.eqb k k'); lia.
Qed.

Lemma cause_height (e : value) :
  truthy (prop e "cause") = true -> (height (prop e "cause") < height e)%nat.
Proof.
  destruct e as [| |b|z|s|xs|i c ps]; try (cbn; discriminate).
  cbn [prop]. intros _.
    assert (Hp : (if extends c CSfdxFalconError then accessorTarget "cause" else None)
                 = None) by (destruct (extends c CSfdxFalconError); reflexivity).
  rewrite Hp. cbn [height]. pose proof (height_lookup "cause" ps).
  destruct (hasKey "cause" ps); [lia|].
  unfold inherited. destruct (extends c CError); cbn; lia.
Qed.

Lemma rootCauseLoop_spec (fuel : nat) :
  forall e, (height e <= fuel)%nat ->
  exists r,
    rootCauseLoop fuel e = Some r /\ causeChain e r /\
    truthy (prop r "cause") && negb (isEmpty (prop r "cause")) = false.
Proof.
  induction fuel as [|fuel IH]; intros e Hh.
  - cbn [rootCauseLoop].
    destruct (truthy (prop e "cause") && negb (isEmpty (prop e "cause"))) eqn:Hc.
    + apply andb_prop in Hc as [Ht _]. apply cause_height in Ht. lia.
    + exists e. split; [reflexivity|]. split; [constructor | exact Hc].
  - cbn [rootCauseLoop].
    destruct (truthy (prop e "cause") && negb (isEmpty (prop e "cause"))) eqn:Hc.
    + apply andb_prop in Hc as [Ht He].
      pose proof (cause_height e Ht) as Hlt.
      destruct (IH (prop e "cause")) as (r & Hr & Hchain & Hend); [lia|].
      exists r. split; [exact Hr|]. split; [|exact Hend].
      apply chain_step; [exact Ht | | exact Hchain].
      now apply negb_true_iff in He.
    + exists e. split; [reflexivity|]. split; [constructor | exact Hc].
Qed.

(** C7.  The [rootCause] getter returns: its loop ends on every error.  The
    error it returns is reached by following [cause] links, each present and
    not empty, and has itself no cause, or an empty one. *)
Theorem rootCause_innermost (this : value) :
  exists r,
    rootCause this = Some r /\
    causeChain this r /\
    (truthy (prop r "cause") = false \/ isEmpty (prop r "cause") = true).
Proof.
  destruct (rootCauseLoop_spec (height this) this (le_n _)) as (r & Hr & Hc & Hend).
  exists r. split; [exact Hr|]. split; [exact Hc|].
  apply andb_false_iff in Hend as [H|H]; [now left | right].
  now apply negb_false_iff in H.
Qed.

End WrapAndRoot.

Lemma wrap_idempotent_witness :
  exists w n',
    wrap Samples.samplePlatform
      (VObj 3 CError [("message", VStr "boom"); ("stack", VStr "Error: boom")])
      (VStr "UTILITY") 10 = (Normal w, n') /\
    wrap Samples.samplePlatform w VUndefined n' = (Normal w, n') /\
    instanceOf w CSfdxFalconError = true.
Proof.
  pose proof (wrap_idempotent Samples.samplePlatform
                (VObj 3 CError [("message", VStr "boom"); ("stack", VStr "Error: boom")])
                (VStr "UTILITY") VUndefined 10) as H.
  destruct (wrap Samples.samplePlatform
              (VObj 3 CError [("message", VStr "boom"); ("stack", VStr "Error: boom")])
              (VStr "UTILITY") 10) as [[w|e] n'] eqn:Hw.
  - destruct H as (H2 & H3 & _). exists w, n'.
    split; [reflexivity|]. split; [exact H2 | exact H3].
  - destruct H as (_ & _ & _ & H). discriminate H.
Defined.

Section Rendering.
Variable P : Platform.

Lemma getMember_readable (v : value) (member k : string) :
  readable v = true -> readable (prop v member) = true ->
  getMember v member k = Normal (prop (prop v member) k).
Proof.
  intros Hv Hm. unfold getMember.
  rewrite (getProp_readable v member Hv). cbn [cbind].
  now apply getProp_readable.
Qed.

Lemma getMember_unreadable (v : value) (member k : string) :
  readable v = true -> readable (prop v member) = false ->
  exists m, getMember v member k = Throw (TypeError m).
Proof.
  intros Hv Hm. unfold getMember.
  rewrite (getProp_readable v member Hv). cbn [cbind].
  now apply getProp_unreadable.
Qed.

Lemma instance_readable (v : value) (c : cls) :
  instanceOf v c = true -> readable v = true.
Proof. destruct v; cbn; try discriminate; reflexivity. Qed.

Lemma instance_falcon_error (v : value) :
  instanceOf v CSfdxFalconError = true -> instanceOf v CError = true.
Proof.
  destruct v as [| |b|z|s|xs|i c ps]; try discriminate.
  destruct c; try discriminate; reflexivity.
Qed.

Lemma instance_cli_falcon (v : value) :
  instanceOf v CSfdxCliError = true -> instanceOf v CSfdxFalconError = true.
Proof.
  destruct v as [| |b|z|s|xs|i c ps]; try discriminate.
  destruct c; try discriminate; reflexivity.
Qed.

Lemma instance_shell_not_cli (v : value) :
  instanceOf v CShellError = true ->
  instanceOf v CSfdxFalconError = true /\ instanceOf v CSfdxCliError = false.
Proof.
  destruct v as [| |b|z|s|xs|i c ps]; try discriminate.
  destruct c; try discriminate; split; reflexivity.
Qed.

Lemma toString_cases (v : value) :
  (printable v = true /\ exists s, toString v = Normal s) \/
  (printable v = false /\ toString v = Throw conversionError).
Proof.
  destruct (printable v) eqn:H.
  - left. destruct (toString_printable v H) as (s & _ & Hs). split; [reflexivity|].
    now exists s.
  - right. split; [reflexivity | apply (toString_unprintable v H)].
Qed.

Lemma appendValue_cases (print : bool) (out before : string) (v : value) :
  (implb print (printable v) = true /\
   exists s, appendValue print out before v = Normal s) \/
  (implb print (printable v) = false /\
   appendValue print out before v = Throw conversionError).
Proof.
  unfold appendValue. destruct print; cbn [implb].
  - destruct (toString_cases v) as [[H (s & Hs)]|[H Hs]]; rewrite H, Hs; cbn [cbind].
    + left. split; [reflexivity | eexists; reflexivity].
    + right. split; reflexivity.
  - left. split; [reflexivity | eexists; reflexivity].
Qed.

Lemma appendAction_cases (xs : list value) :
  forall out,
    (forallb printable xs = true /\
     exists s, foldM (appendAction P) xs out = Normal s) \/
    (forallb printable xs = false /\
     foldM (appendAction P) xs out = Throw conversionError).
Proof.
  induction xs as [|x xs IH]; intros out; cbn [forallb foldM].
  - left. split; [reflexivity | eexists; reflexivity].
  - unfold appendAction at 1 3.
    destruct (toString_cases x) as [[H (s & Hs)]|[H Hs]]; rewrite H, Hs;
      cbn [cbind andb].
    + apply IH.
    + right. split; reflexivity.
Qed.

Ltac step_with cases :=
  let H := fresh "H" in
  let s := fresh "s" in
  let Hs := fresh "Hs" in
  destruct cases as [[H (s & Hs)]|[H Hs]]; rewrite H, Hs; cbn [cbind andb];
  [|right; split; [reflexivity | eexists; reflexivity]].

Lemma renderBaseDetail_cases (v : value) (o : SfdxFalconErrorRenderOptions) :
  readable v = true ->
  (basePrintable v = true /\ exists s, renderBaseDetail P v o = Normal s) \/
  (basePrintable v = false /\ exists x, renderBaseDetail P v o = Throw x).
Proof.
  intros Hv. unfold renderBaseDetail, basePrintable.
  repeat (rewrite (getProp_readable v _ Hv); cbn [cbind]).
  step_with (toString_cases (prop v "name")).
  step_with (toString_cases (prop v "message")).
  step_with (toString_cases (prop v "source")).
  step_with (toString_cases (prop v "stack")).
  match goal with
  | |- context [appendValue ?b ?out ?before ?x] =>
      step_with (appendValue_cases b out before x)
  end.
  left. split; [reflexivity | eexists; reflexivity].
Qed.

Lemma renderSfdxCliErrorDetail_cases (v : value) (o : SfdxFalconErrorRenderOptions) :
  readable v = true -> readable (prop v "cliError") = true ->
  (cliPrintable (prop v "cliError") (childInspectDepth o) = true /\
   exists s, renderSfdxCliErrorDetail P v o = Normal s) \/
  (cliPrintable (prop v "cliError") (childInspectDepth o) = false /\
   exists x, renderSfdxCliErrorDetail P v o = Throw x).
Proof.
  intros Hv Hm. unfold renderSfdxCliErrorDetail, cliPrintable, printableIfGiven.
  repeat (rewrite (getMember_readable v _ _ Hv Hm); cbn [cbind]).
  match goal with
  | |- context [appendValue ?b ?out ?before (prop _ "name")] =>
      step_with (appendValue_cases b out before (prop (prop v "cliError") "name"))
  end.
  match goal with
  | |- context [appendValue ?b ?out ?before (prop _ "message")] =>
      step_with (appendValue_cases b out before (prop (prop v "cliError") "message"))
  end.
  match goal with
  | |- context [appendValue ?b ?out ?before (prop _ "status")] =>
      step_with (appendValue_cases b out before (prop (prop v "cliError") "status"))
  end.
  destruct (prop (prop v "cliError") "actions") as [| |b|z|t|xs|i c ps]; cbn [cbind andb].
  6: match goal with
     | |- context [foldM (appendAction P) xs ?out] =>
         step_with (appendAction_cases xs out)
     end.
  all: match goal with
       | |- context [appendValue ?b ?out ?before (prop _ "stack")] =>
           step_with (appendValue_cases b out before (prop (prop v "cliError") "stack"))
       end.
  all: left; split; [reflexivity | eexists; reflexivity].
Qed.

Lemma renderSfdxCliErrorDetail_throws (v : value) (o : SfdxFalconErrorRenderOptions) :
  readable v = true -> readable (prop v "cliError") = false ->
  exists m, renderSfdxCliErrorDetail P v o = Throw (TypeError m).
Proof.
  intros Hv Hm. unfold renderSfdxCliErrorDetail.
  destruct (getMember_unreadable v "cliError" "name" Hv Hm) as (m & Hthrow).
  rewrite Hthrow. cbn [cbind]. now exists m.
Qed.

Lemma renderShellErrorDetail_cases (v : value) (o : SfdxFalconErrorRenderOptions) :
  readable v = true -> readable (prop v "shellError") = true ->
  (shellPrintable (prop v "shellError") = true /\
   exists s, renderShellErrorDetail P v o = Normal s) \/
  (shellPrintable (prop v "shellError") = false /\
   exists x, renderShellErrorDetail P v o = Throw x).
Proof.
  intros Hv Hm. unfold renderShellErrorDetail, shellPrintable, printableIfGiven.
  repeat (rewrite (getMember_readable v _ _ Hv Hm); cbn [cbind]).
  match goal with
  | |- context [appendValue ?b ?out ?before (prop _ "command")] =>
      step_with (appendValue_cases b out before (prop (prop v "shellError") "command"))
  end.
  match goal with
  | |- context [appendValue ?b ?out ?before (prop _ "code")] =>
      step_with (appendValue_cases b out before (prop (prop v "shellError") "code"))
  end.
  match goal with
  | |- context [appendValue ?b ?out ?before (prop _ "signal")] =>
      step_with (appendValue_cases b out before (prop (prop v "shellError") "signal"))
  end.
  match goal with
  | |- context [appendValue ?b ?out ?before (prop _ "message")] =>
      step_with (appendValue_cases b out before (prop (prop v "shellError") "message"))
  end.
  match goal with
  | |- context [appendValue ?b ?out ?before (prop _ "stderr")] =>
      step_with (appendValue_cases b out before (prop (prop v "shellError") "stderr"))
  end.
  match goal with
  | |- context [appendValue ?b ?out ?before (prop _ "stdout")] =>
      step_with (appendValue_cases b out before (prop (prop v "shellError") "stdout"))
  end.
  left. split; [reflexivity | eexists; reflexivity].
Qed.

Lemma renderShellErrorDetail_throws (v : value) (o : SfdxFalconErrorRenderOptions) :
  readable v = true -> readable (prop v "shellError") = false ->
  exists m, renderShellErrorDetail P v o = Throw (TypeError m).
Proof.
  intros Hv Hm. unfold renderShellErrorDetail.
  destruct (getMember_unreadable v "shellError" "command" Hv Hm) as (m & Hthrow).
  rewrite Hthrow. cbn [cbind]. now exists m.
Qed.

(** The part of [renderError] that follows the base detail. *)
Lemma renderError_members_cases (e : value) (o : SfdxFalconErrorRenderOptions)
    (base : string) :
  readable e = true ->
  let rest :=
    (renderOutput <~
       (if instanceOf e CSfdxCliError
        then more <~ renderSfdxCliErrorDetail P e o ;; Normal (base ++ more)
        else Normal base) ;;
     if instanceOf e CShellError
     then more <~ renderShellErrorDetail P e o ;; Normal (renderOutput ++ more)
     else Normal renderOutput)%eff in
  let ok :=
    membersSet e &&
    (implb (instanceOf e CSfdxCliError)
       (cliPrintable (prop e "cliError") (childInspectDepth o)) &&
     implb (instanceOf e CShellError) (shellPrintable (prop e "shellError"))) in
  (ok = true /\ exists s, rest = Normal s) \/ (ok = false /\ exists x, rest = Throw x).
Proof.
  intros Hv rest ok. subst rest ok. unfold membersSet.
  destruct (instanceOf e CSfdxCliError) eqn:Hc; cbn [implb].
  - destruct (readable (prop e "cliError")) eqn:Hm; cbn [andb].
    + destruct (renderSfdxCliErrorDetail_cases e o Hv Hm) as [[H (s & Hs)]|[H (x & Hs)]];
        rewrite H, Hs; cbn [cbind andb].
      * destruct (instanceOf e CShellError) eqn:Hsh; cbn [implb].
        -- destruct (readable (prop e "shellError")) eqn:Hm'; cbn [andb].
           ++ destruct (renderShellErrorDetail_cases e o Hv Hm')
                as [[H' (s' & Hs')]|[H' (x & Hs')]]; rewrite H', Hs'; cbn [cbind].
              ** left. split; [reflexivity | eexists; reflexivity].
              ** right. split; [reflexivity | eexists; reflexivity].
           ++ destruct (renderShellErrorDetail_throws e o Hv Hm') as (m & Hs').
              rewrite Hs'. right. split; [reflexivity | eexists; reflexivity].
        -- left. split; [reflexivity | eexists; reflexivity].
      * right. split; [now rewrite andb_false_r | eexists; reflexivity].
    + destruct (renderSfdxCliErrorDetail_throws e o Hv Hm) as (m & Hs).
      rewrite Hs. right. split; [reflexivity | eexists; reflexivity].
  - cbn [cbind andb].
    destruct (instanceOf e CShellError) eqn:Hsh; cbn [implb].
    + destruct (readable (prop e "shellError")) eqn:Hm'; cbn [andb].
      * destruct (renderShellErrorDetail_cases e o Hv Hm')
          as [[H' (s' & Hs')]|[H' (x & Hs')]]; rewrite H', Hs'; cbn [cbind].
        -- left. split; [reflexivity | eexists; reflexivity].
        -- right. split; [reflexivity | eexists; reflexivity].
      * destruct (renderShellErrorDetail_throws e o Hv Hm') as (m & Hs').
        rewrite Hs'. right. split; [reflexivity | eexists; reflexivity].
    + left. split; [reflexivity | eexists; reflexivity].
Qed.

Lemma not_error_no_subclass (e : value) :
  instanceOf e CError = false ->
  instanceOf e CSfdxCliError = false /\ instanceOf e CShellError = false.
Proof.
  intros H. split.
  - destruct (instanceOf e CSfdxCliError) eqn:Hc; [|reflexivity].
    apply instance_cli_falcon, instance_falcon_error in Hc. congruence.
  - destruct (instanceOf e CShellError) eqn:Hs; [|reflexivity].
    apply instance_shell_not_cli in Hs as [Hf _].
    apply instance_falcon_error in Hf. congruence.
Qed.

(** C8 (amended).  [renderError] returns a string, and does not throw, for
    exactly the values whose [cliError] member is set when they are
    instances of SfdxCliError, whose [shellError] member is set when they
    are instances of ShellError, and whose members that it prints as text
    convert to strings.  This covers every value that is not an Error, and
    the errors whose optional fields are absent or empty. *)
Theorem renderError_returns (errorToRender : value)
    (childInspectDepth detailInspectDepth errorInspectDepth : option Z) :
  (exists s,
     renderError P errorToRender childInspectDepth detailInspectDepth errorInspectDepth
     = Normal s)
  <-> membersSet errorToRender = true /\
      printsAsText errorToRender (depthOr childInspectDepth 2) = true.
Proof.
  unfold renderError, printsAsText.
  set (o := {| headerColor := "yellow"; labelColor := "blue";
               errorLabelColor := "red"; valueColor := "reset";
               FalconError.childInspectDepth := depthOr childInspectDepth 2;
               FalconError.detailInspectDepth := depthOr detailInspectDepth 4;
               FalconError.errorInspectDepth := depthOr errorInspectDepth 1 |}).
  change (depthOr childInspectDepth 2) with (FalconError.childInspectDepth o).
  destruct (instanceOf errorToRender CError) eqn:Herr; cbn [negb implb].
  - pose proof (instance_readable errorToRender CError Herr) as Hv.
    destruct (renderBaseDetail_cases errorToRender o Hv)
      as [[Hb (base & Hbase)]|[Hb (x & Hbase)]]; rewrite Hb, Hbase; cbn [cbind andb].
    + destruct (renderError_members_cases errorToRender o base Hv)
        as [[Hok (s & Hs)]|[Hok (x & Hs)]]; cbv zeta in Hok, Hs; rewrite Hs.
      * apply andb_prop in Hok as [Hset Hp]. split; [intros _; now split|].
        intros _. now exists s.
      * split; [intros (s & H); discriminate H|].
        intros [Hset Hp]. rewrite Hset, Hp in Hok. discriminate Hok.
    + split; [intros (s & H); discriminate H | intros [_ H]; discriminate H].
  - destruct (not_error_no_subclass errorToRender Herr) as [Hc Hs].
    unfold membersSet. rewrite Hc, Hs. cbn [implb andb].
    split; [intros _; now split | intros _; eexists; reflexivity].
Qed.

End Rendering.

Lemma renderError_returns_witness :
  membersSet (VObj 2 CSfdxCliError [("message", VStr "Deletion failed");
                                    ("name", VStr "SfdxCliError");
                                    ("cliError", VObj 0 CObject [])]) = true /\
  membersSet (VStr "not an error") = true /\
  (exists s,
     renderError Samples.samplePlatform
       (VObj 2 CSfdxCliError [("message", VStr "Deletion failed");
                              ("name", VStr "SfdxCliError");
                              ("cliError", VObj 0 CObject [])]) None None None
     = Normal s) /\
  (exists s, renderError Samples.samplePlatform (VStr "not an error") None None None
             = Normal s).
Proof.
  split; [reflexivity|]. split; [reflexivity|]. split.
  - apply (proj2 (renderError_returns Samples.samplePlatform
                    (VObj 2 CSfdxCliError [("message", VStr "Deletion failed");
                                           ("name", VStr "SfdxCliError");
                                           ("cliError", VObj 0 CObject [])])
                    None None None)).
    split; reflexivity.
  - apply (proj2 (renderError_returns Samples.samplePlatform (VStr "not an error")
                    None None None)).
    split; reflexivity.
Defined.

(** C8 as worded fails on an instance of SfdxCliError whose [cliError]
    member is not set: [renderError] throws a TypeError. *)
Lemma renderError_throws_without_cliError :
  instanceOf (VObj 7 CSfdxCliError [("message", VStr "Deletion failed");
                                    ("name", VStr "SfdxCliError")]) CError = true /\
  renderError Samples.samplePlatform
    (VObj 7 CSfdxCliError [("message", VStr "Deletion failed");
                           ("name", VStr "SfdxCliError")]) None None None
  = Throw (TypeError "Cannot read property 'name' of undefined") /\
  ~ (exists s,
       renderError Samples.samplePlatform
         (VObj 7 CSfdxCliError [("message", VStr "Deletion failed");
                                ("name", VStr "SfdxCliError")]) None None None
       = Normal s).
Proof.
  split; [reflexivity|]. split; [reflexivity|].
  intros (s & Hs). discriminate Hs.
Qed.

(** The response of a CLI whose error name is an object with a member
    [toString]: the SfdxCliError built around it has its [cliError] member,
    and [renderError] throws the TypeError of the conversion. *)
Lemma renderError_throws_on_unprintable_name :
  membersSet (VObj 2 CSfdxCliError
                [("message", VStr "Deletion failed");
                 ("name", VStr "SfdxCliError");
                 ("cliError",
                  VObj 0 CObject [("name", VObj 1 CObject [("toString", VNum 0)])])])
  = true /\
  renderError Samples.samplePlatform
    (VObj 2 CSfdxCliError
       [("message", VStr "Deletion failed");
        ("name", VStr "SfdxCliError");
        ("cliError",
         VObj 0 CObject [("name", VObj 1 CObject [("toString", VNum 0)])])])
    None None None
  = Throw conversionError.
Proof. split; reflexivity. Qed.

Section ShellErrorBuilt.
Variable P : Platform.

(** A ShellError, once its message is chosen. *)
Lemma newShellError_built
    (command code signal stdErrBuffer stdOutBuffer source message m : value)
    (text : string) (n : nat) :
  shellErrorMessage code signal stdErrBuffer (defaultTo VNull stdOutBuffer)
    (defaultTo (VStr "") message) = Normal m ->
  toStr m = Some text ->
  exists ps,
    newShellError P command code signal stdErrBuffer stdOutBuffer source message n
    = (Normal (VObj n CShellError ps), (n + 7)%nat) /\
    prop (VObj n CShellError ps) "shellError"
    = VObj (n + 6) CObject
        [("command", command); ("code", code); ("signal", signal);
         ("stdout", defaultTo VNull stdOutBuffer); ("stderr", stdErrBuffer);
         ("message", m)] /\
    prop (VObj n CShellError ps) "message" = VStr text /\
    prop (VObj n CShellError ps) "name" = VStr "ShellError" /\
    prop (VObj n CShellError ps) "source" = defaultTo (VStr "") source.
Proof.
  intros Hm Ht. unfold newShellError, bind, lift, toString. rewrite Hm, Ht.
  rewrite newSfdxFalconError_shape.
  unfold newObject, ret. cbn [setProp].
  replace (S (n + 6)) with (n + 7)%nat by lia.
  eexists. split; [reflexivity|]. cbn. repeat split.
  destruct source; reflexivity.
Qed.

End ShellErrorBuilt.

End FalconErrorProofs.

Module ExecutorProofs.
Import JsString Js Eff FalconError FalconErrorSpec Executor ExecutorSpec.
Import SanitizerProofs FalconErrorProofs.
Local Open Scope eff_scope.

Lemma onData_fold (evs : list procEvent) (out err : string) :
  fold_left onData evs (out, err) = (out ++ stdoutText evs, err ++ stderrText evs).
Proof.
  revert out err; induction evs as [|ev evs IH]; intros out err.
  - cbn. now rewrite !append_empty_r.
  - cbn [fold_left]. destruct ev as [chunk|chunk]; cbn [onData]; rewrite IH;
      unfold stdoutText, stderrText; cbn [List.map flatten fold_right];
      now rewrite !append_assoc.
Qed.

Lemma notZero_iff (code : option Z) : notZero code = false <-> code = Some 0%Z.
Proof.
  destruct code as [z|]; cbn; split; intros H; try discriminate H.
  - apply negb_false_iff, Z.eqb_eq in H. now subst.
  - inversion H. reflexivity.
Qed.

Section Settling.
Variable P : Platform.
Variable detectSalesforceCliError : string -> bool.
Variable safeParse : string -> value.

(** The message of the ShellError of a child process is always found. *)
Lemma shellErrorMessage_child (code : option Z) (signal : option string)
    (stdErrBuffer stdOutBuffer : string) :
  exists text,
    shellErrorMessage (codeValue code) (signalValue signal) (VStr stdErrBuffer)
      (VStr stdOutBuffer) (VStr "") = Normal (VStr text).
Proof.
  unfold shellErrorMessage. cbn [truthy isEmptyStr negb nonEmptyText].
  destruct stdErrBuffer; cbn [isEmptyStr]; [|eexists; reflexivity].
  destruct stdOutBuffer; cbn [isEmptyStr]; [|eexists; reflexivity].
  destruct code, signal; cbn; eexists; reflexivity.
Qed.

Lemma newShellError_child (commandString : string) (code : option Z)
    (signal : option string) (stdErrBuffer stdOutBuffer source : string) (n : nat) :
  exists ps,
    newShellError P (VStr commandString) (codeValue code) (signalValue signal)
      (VStr stdErrBuffer) (VStr stdOutBuffer) (VStr source) VUndefined n
    = (Normal (VObj n CShellError ps), (n + 7)%nat) /\
    prop (VObj n CShellError ps) "source" = VStr source /\
    prop (prop (VObj n CShellError ps) "shellError") "command" = VStr commandString /\
    prop (prop (VObj n CShellError ps) "shellError") "code" = codeValue code /\
    prop (prop (VObj n CShellError ps) "shellError") "signal" = signalValue signal /\
    prop (prop (VObj n CShellError ps) "shellError") "stdout" = VStr stdOutBuffer /\
    prop (prop (VObj n CShellError ps) "shellError") "stderr" = VStr stdErrBuffer.
Proof.
  destruct (shellErrorMessage_child code signal stdErrBuffer stdOutBuffer)
    as (text & Htext).
  destruct (newShellError_built P (VStr commandString) (codeValue code)
              (signalValue signal) (VStr stdErrBuffer) (VStr stdOutBuffer)
              (VStr source) VUndefined (VStr text) text n Htext eq_refl)
    as (ps & Hnew & Hse & _ & _ & Hsrc).
  exists ps. split; [exact Hnew|]. rewrite Hse, Hsrc. cbn. repeat split.
Qed.

(** The SfdxCliError of the executor: built, or not. *)
Lemma newSfdxCliError_executor (stdout errorMsg source : string) (n : nat) :
  if unprintableCliMessage P stdout
  then exists n',
         newSfdxCliError P stdout (VStr errorMsg) (VStr source) n
         = (Throw conversionError, n')
  else exists i ps n',
         newSfdxCliError P stdout (VStr errorMsg) (VStr source) n
         = (Normal (VObj i CSfdxCliError ps), n').
Proof.
  destruct (unprintableCliMessage P stdout) eqn:Hu.
  - now apply newSfdxCliError_cli_message_throws.
  - destruct (readsAsCliResponse P stdout) eqn:Hread.
    + unfold unprintableCliMessage in Hu. rewrite Hread in Hu. cbn [andb] in Hu.
      unfold readsAsCliResponse in Hread.
      destruct (JSON_parse P stdout) as [parsed|] eqn:Hp; [|discriminate Hread].
      apply andb_prop in Hread as [Hr Hs].
      destruct (isNaN_printable P (prop parsed "status") Hs) as (b & Hb).
      assert (Hc : exists cliText,
                 toStr (orElse (prop parsed "message")
                          (VStr "Unknown CLI Error (see 'cliError.result.rawResult' for original CLI response)"))
                 = Some cliText).
      { unfold orElse. destruct (truthy (prop parsed "message")); [|eexists; reflexivity].
        cbn [andb] in Hu. apply negb_false_iff in Hu.
        destruct (toString_printable _ Hu) as (t & Ht & _). now exists t. }
      destruct Hc as (cliText & Hc).
      destruct (newSfdxCliError_parsed P stdout parsed (VStr errorMsg) (VStr source) b
                  errorMsg cliText n Hp Hr Hb eq_refl Hc) as (ps & n' & Hnew & _).
      eexists; eexists; eexists. exact Hnew.
    + destruct (newSfdxCliError_caught P stdout (VStr errorMsg) (VStr source) errorMsg
                  n Hread eq_refl) as (ps & Hnew & _).
      eexists; eexists; eexists. exact Hnew.
Qed.


End Settling.



End ExecutorProofs.

Module DeleteScratchOrgProofs.
Import JsString Js Eff FalconError Executor DeleteScratchOrg.

Lemma execSuccess_open (child actionResult : SfdxFalconResult) :
  isFinal (status actionResult) = false ->
  exists r,
    execSuccess child actionResult = Normal r /\
    status r = SUCCESS /\
    children r = (children actionResult ++ [child])%list /\
    resultType r = resultType actionResult.
Proof.
  destruct actionResult as [nm t s d c]. cbn [status children resultType].
  intros Hs. unfold execSuccess, setStatus. rewrite Hs. cbn [andb].
  eexists. repeat split.
Qed.

Section Suppression.
Variable P : Platform.
Variable detectSalesforceCliError : string -> bool.
Variable safeParse : string -> value.
Variable parseExecutorResponse : string -> reason -> SfdxFalconResult.

(** C5.  When the Executor call of the delete-scratch-org Action yields a
    FAILURE Result, the promise of [executeAction] resolves and the Result of
    the Action has status SUCCESS.  The FAILURE Result is kept as the last
    child of the Result of the Action, with its own status: the failure is
    converted, not propagated. *)
Theorem executeAction_failure_becomes_success
    (this : DeleteScratchOrgAction) (actionContext : AppxEngineActionContext)
    (actionOptions : value) (child : childProcess) (n m n' : nat)
    (def : Sanitizer.SfdxCommandDefinition) (execResult : SfdxFalconResult) :
  isFinal (status (actionResponse this)) = false ->
  commandDefFor this actionContext actionOptions n = (Normal def, m) ->
  executeSfdxCommand P detectSalesforceCliError safeParse def child m
  = (Resolved execResult, n') ->
  status execResult = FAILURE ->
  exists this',
    executeAction P detectSalesforceCliError safeParse parseExecutorResponse
      this actionContext actionOptions child n = (Resolved this', n') /\
    status (actionResponse this') = SUCCESS /\
    resultType (actionResponse this') = resultType (actionResponse this) /\
    children (actionResponse this')
    = (children (actionResponse this) ++ [execResult])%list.
Proof.
  intros Hopen Hdef Hexec Hfail. unfold executeAction. rewrite Hdef, Hexec.
  cbn [actionResponse].
  destruct (execSuccess_open execResult (actionResponse this) Hopen)
    as (r & Hr & Hs & Hc & Ht).
  rewrite Hr. eexists. split; [reflexivity|].
  cbn [withResponse actionResponse].
  repeat split; assumption.
Qed.

End Suppression.

Lemma executeAction_failure_becomes_success_witness :
  exists def execResult this' n',
    commandDefFor newDeleteScratchOrgAction Samples.sampleContext Samples.sampleOptions 0
    = (Normal def, 0) /\
    executeSfdxCommand Samples.samplePlatform Samples.sampleDetect
      Samples.sampleSafeParse def Samples.notFoundChild 0
    = (Resolved execResult, n') /\
    status execResult = FAILURE /\
    executeAction Samples.samplePlatform Samples.sampleDetect Samples.sampleSafeParse
      Samples.sampleExecutorResponse newDeleteScratchOrgAction Samples.sampleContext
      Samples.sampleOptions Samples.notFoundChild 0 = (Resolved this', n') /\
    status (actionResponse this') = SUCCESS.
Proof.
  pose (prepared := commandDefFor newDeleteScratchOrgAction Samples.sampleContext
                      Samples.sampleOptions 0).
  vm_compute in prepared.
  match eval unfold prepared in prepared with
  | (Normal ?d, _) =>
      pose (out := executeSfdxCommand Samples.samplePlatform Samples.sampleDetect
                     Samples.sampleSafeParse d Samples.notFoundChild 0);
      vm_compute in out;
      match eval unfold out in out with
      | (Resolved ?r, ?k) =>
          destruct (executeAction_failure_becomes_success Samples.samplePlatform
                      Samples.sampleDetect Samples.sampleSafeParse
                      Samples.sampleExecutorResponse newDeleteScratchOrgAction
                      Samples.sampleContext Samples.sampleOptions Samples.notFoundChild
                      0 0 k d r eq_refl eq_refl eq_refl eq_refl)
            as (this' & Hrun & Hs & _);
          exists d, r, this', k
      end
  end.
  split; [reflexivity|]. split; [reflexivity|]. split; [reflexivity|].
  split; [exact Hrun | exact Hs].
Defined.

End DeleteScratchOrgProofs.
(* ================================================================== *)
(** * Further properties of the code *)

Module SanitizerExtra.
Import JsString Js Eff Sanitizer SanitizerSpec ShellReading SanitizerProofs.

Lemma shellWord_cons (b : bool) (c : ascii) (r : string) :
  shellWord b (String c r)
  = if b then
      if Ascii.eqb c "'" then shellWord false r
      else option_map (String c) (shellWord true r)
    else if Ascii.eqb c "'" then shellWord true r
    else if Ascii.eqb c "\" then
      match r with
      | String d r' => option_map (String d) (shellWord false r')
      | EmptyString => None
      end
    else if shellSpecial c then None
    else option_map (String c) (shellWord false r).
Proof. reflexivity. Qed.

Lemma readWord_cons (st : shState) (c : ascii) (r : string) :
  readWord st (String c r)
  = match st with
    | Quoted =>
        if Ascii.eqb c "'" then readWord Bare r
        else option_map (String c) (readWord Quoted r)
    | Escaped => option_map (String c) (readWord Bare r)
    | Bare =>
        if Ascii.eqb c "'" then readWord Quoted r
        else if Ascii.eqb c "\" then readWord Escaped r
        else if shellSpecial c then None
        else option_map (String c) (readWord Bare r)
    end.
Proof. reflexivity. Qed.

Lemma shellWord_readWord_both (s : string) :
  (forall b, shellWord b s = readWord (if b then Quoted else Bare) s) /\
  (forall c b, shellWord b (String c s) = readWord (if b then Quoted else Bare) (String c s)).
Proof.
  induction s as [|d s [IH1 IH2]].
  - split.
    + intros []; reflexivity.
    + intros c []; cbn [shellWord readWord];
        destruct (Ascii.eqb c "'"); try reflexivity;
        destruct (Ascii.eqb c "\"); try reflexivity.
  - split; [exact (IH2 d)|].
    intros c b. rewrite shellWord_cons, readWord_cons.
    destruct b.
    + destruct (Ascii.eqb c "'"); [apply (IH2 d false) | now rewrite (IH2 d true)].
    + destruct (Ascii.eqb c "'"); [apply (IH2 d true)|].
      destruct (Ascii.eqb c "\").
      * rewrite readWord_cons. now rewrite (IH1 false).
      * destruct (shellSpecial c); [reflexivity | now rewrite (IH2 d false)].
Qed.

Lemma shellWord_readWord (s : string) :
  shellWord false s = readWord Bare s.
Proof. exact (proj1 (shellWord_readWord_both s) false). Qed.

(* quoting stage *)
Lemma prefix_quote (c : ascii) (r : string) :
  String.prefix "'" (String c r) = Ascii.eqb c "'".
Proof.
  change (String.prefix "'" (String c r))
    with (match ascii_dec "'" c with
          | left _ => String.prefix "" r
          | right _ => false
          end).
  destruct (ascii_dec "'" c) as [Heq|Hne].
  - subst c. destruct r; reflexivity.
  - symmetry. apply Ascii.eqb_neq. congruence.
Qed.

Lemma read_quoted (t : string) :
  readWord Quoted (replaceAll "'" "'\''" t ++ "'") = Some t.
Proof.
  unfold replaceAll. induction t as [|c r IH].
  - reflexivity.
  - cbn [replaceAllFrom]. rewrite prefix_quote.
    destruct (Ascii.eqb c "'") eqn:Hc.
    + apply Ascii.eqb_eq in Hc. subst c. cbn -[replaceAllFrom].
      rewrite IH. reflexivity.
    + cbn -[replaceAllFrom]. rewrite Hc, IH. reflexivity.
Qed.

Lemma read_dropLeadingQuotePairs_both (s : string) :
  (readWord Bare (dropLeadingQuotePairs s) = readWord Bare s) /\
  (forall c, readWord Bare (dropLeadingQuotePairs (String c s)) = readWord Bare (String c s)).
Proof.
  induction s as [|d s [IH1 IH2]].
  - split; [reflexivity|]. intros c.
    destruct c as [[] [] [] [] [] [] [] []]; reflexivity.
  - split; [exact (IH2 d)|]. intros c.
    destruct (Ascii.eqb c "'") eqn:Hc.
    + apply Ascii.eqb_eq in Hc. subst c.
      destruct (Ascii.eqb d "'") eqn:Hd.
      * apply Ascii.eqb_eq in Hd. subst d.
        change (dropLeadingQuotePairs (String "'" (String "'" s)))
          with (dropLeadingQuotePairs s).
        rewrite IH1. reflexivity.
      * assert (Hs : dropLeadingQuotePairs (String "'" (String d s))
                     = String "'" (String d s)).
        { destruct d as [[] [] [] [] [] [] [] []]; try reflexivity; discriminate Hd. }
        now rewrite Hs.
    + assert (Hs : dropLeadingQuotePairs (String c (String d s)) = String c (String d s)).
      { destruct c as [[] [] [] [] [] [] [] []]; try reflexivity; discriminate Hc. }
      now rewrite Hs.
Qed.

Lemma read_dropLeadingQuotePairs (s : string) :
  readWord Bare (dropLeadingQuotePairs s) = readWord Bare s.
Proof. exact (proj1 (read_dropLeadingQuotePairs_both s)). Qed.

Lemma substring_0_split (p : string) :
  forall s, String.substring 0 (String.length p) s = p -> exists t, s = p ++ t.
Proof.
  induction p as [|a p IH]; intros s H.
  - now exists s.
  - destruct s as [|c s]; cbn in H; [discriminate H|].
    inversion H; subst. destruct (IH s H2) as (t & ->).
    rewrite H2. now exists t.
Qed.

Lemma prefix_split (p s : string) :
  String.prefix p s = true -> exists t, s = p ++ t.
Proof. intros H. apply substring_0_split. now apply String.prefix_correct. Qed.

Lemma read_unescape_upto (n : nat) :
  forall s st, (String.length s <= n)%nat ->
  readWord st (replaceAll "\'''" "\'" s) = readWord st s.
Proof.
  induction n as [|n IH]; intros s st Hn.
  - destruct s; [reflexivity | cbn in Hn; lia].
  - destruct s as [|c r]; [reflexivity|].
    unfold replaceAll. cbn [replaceAllFrom].
    destruct (String.prefix "\'''" (String c r)) eqn:Hp.
    + destruct (prefix_split _ _ Hp) as (t & Ht).
      cbn in Ht. inversion Ht; subst c r. clear Ht Hp.
      assert (Hrec : forall st', readWord st' (replaceAllFrom "\'''" "\'" 0 t)
                                 = readWord st' t).
      { intros st'. apply (IH t st'). cbn in Hn. lia. }
      change (replaceAllFrom "\'''" "\'" (String.length "\'''" - 1)
                (String "'" (String "'" (String "'" t))))
        with (replaceAllFrom "\'''" "\'" 0 t).
      destruct st; cbn -[replaceAllFrom]; rewrite Hrec; reflexivity.
    + assert (Hrec : forall st', readWord st' (replaceAllFrom "\'''" "\'" 0 r)
                                 = readWord st' r).
      { intros st'. apply (IH r st'). cbn in Hn. lia. }
      rewrite !readWord_cons. destruct st; rewrite ?Hrec; reflexivity.
Qed.

Lemma read_unescape (s : string) (st : shState) :
  readWord st (replaceAll "\'''" "\'" s) = readWord st s.
Proof. apply (read_unescape_upto (String.length s)). lia. Qed.

Lemma safeArgChar_literal (c : ascii) :
  safeArgChar c = true ->
  Ascii.eqb c "'" = false /\ Ascii.eqb c "\" = false /\ shellSpecial c = false.
Proof.
  destruct c as [[] [] [] [] [] [] [] []]; vm_compute; intros H;
    first [discriminate H | repeat split].
Qed.

Lemma read_safe (t : string) :
  allChars safeArgChar t = true -> readWord Bare t = Some t.
Proof.
  induction t as [|c r IH]; [reflexivity|].
  cbn [allChars]. intros H. apply andb_prop in H as [Hc Hr].
  destruct (safeArgChar_literal c Hc) as (H1 & H2 & H3).
  rewrite readWord_cons, H1, H2, H3, (IH Hr). reflexivity.
Qed.

Lemma existsChar_negb_allChars (p : ascii -> bool) (s : string) :
  existsChar (fun c => negb (p c)) s = negb (allChars p s).
Proof.
  induction s as [|c r IH]; [reflexivity|].
  cbn. rewrite IH. now destruct (p c), (allChars p r).
Qed.

(** X1.  A POSIX shell reads the sanitized argument back as one word, and
    that word is the argument, converted to a string and trimmed: whatever
    the argument holds, quotes and backslashes included, nothing of it is
    taken as shell syntax.  An argument that does not convert to a string
    makes the sanitizer throw the TypeError of the conversion. *)
Theorem sanitizeArgument_shell_round_trip (argument : value) :
  match toStr argument with
  | Some text =>
      trim text <> "" ->
      exists word,
        sanitizeArgument argument = Normal word /\
        shellWord false word = Some (trim text)
  | None => sanitizeArgument argument = Throw conversionError
  end.
Proof.
  unfold sanitizeArgument, toString.
  destruct (toStr argument) as [text|]; cbn [cbind]; [|reflexivity].
  intros _. rewrite existsChar_negb_allChars.
  destruct (allChars safeArgChar (trim text)) eqn:Hsafe; cbn [negb].
  - eexists. split; [reflexivity|]. rewrite shellWord_readWord. now apply read_safe.
  - eexists. split; [reflexivity|]. rewrite shellWord_readWord.
    rewrite read_unescape, read_dropLeadingQuotePairs.
    exact (read_quoted (trim text)).
Qed.

Lemma sanitizeArgument_shell_round_trip_witness :
  trim "  it's a \'test\' $(rm -rf)  " <> "" /\
  exists word,
    sanitizeArgument (VStr "  it's a \'test\' $(rm -rf)  ") = Normal word /\
    shellWord false word = Some "it's a \'test\' $(rm -rf)".
Proof.
  split; [discriminate|].
  apply (sanitizeArgument_shell_round_trip (VStr "  it's a \'test\' $(rm -rf)  ")).
  discriminate.
Defined.

Lemma trimStart_blank (s : string) :
  allChars isWhiteSpace s = true -> trimStart s = "".
Proof.
  induction s as [|c r IH]; [reflexivity|].
  cbn. intros H. apply andb_prop in H as [Hc Hr]. now rewrite Hc, IH.
Qed.

(** X2.  An argument that is empty or all white space is sanitized to the
    empty string, not to a quoted empty word: the compiled command line has
    no word for it. *)
Theorem sanitizeArgument_blank (x : string) :
  allChars isWhiteSpace x = true -> sanitizeArgument (VStr x) = Normal "".
Proof.
  intros H. unfold sanitizeArgument, toString, trim. cbn [toStr cbind].
  now rewrite (trimStart_blank x H).
Qed.

Lemma sanitizeArgument_blank_witness :
  allChars isWhiteSpace "   " = true /\ sanitizeArgument (VStr "   ") = Normal "" /\
  parseSfdxCommand
    {| command := "force:org:list"; progressMsg := ""; errorMsg := "";
       successMsg := ""; commandArgs := ["   "]; commandFlags := Some [];
       observer := VUndefined |} = Normal "sfdx force:org:list ".
Proof.
  split; [reflexivity|]. split; [|reflexivity].
  apply (sanitizeArgument_blank "   "). reflexivity.
Defined.

Lemma filterChars_keeps (p : ascii -> bool) (s : string) :
  allChars p (filterChars p s) = true.
Proof.
  induction s as [|c r IH]; [reflexivity|].
  cbn. destruct (p c) eqn:Hc; [cbn; now rewrite Hc | exact IH].
Qed.

(** X3.  Whatever it is given, [sanitizeFlag] returns letters, digits and
    hyphens only, and sanitizing a sanitized flag changes nothing. *)
Theorem sanitizeFlag_clean_and_idempotent (flag : string) :
  allChars flagChar (sanitizeFlag flag) = true /\
  sanitizeFlag (sanitizeFlag flag) = sanitizeFlag flag.
Proof.
  assert (Hclean : allChars flagChar (sanitizeFlag flag) = true)
    by apply filterChars_keeps.
  split; [exact Hclean|].
  unfold sanitizeFlag at 1.
  rewrite (trim_flagChars _ Hclean). now apply filterChars_all.
Qed.

End SanitizerExtra.

Module FalconErrorExtra.
Import JsString Js Eff FalconError FalconErrorSpec FalconErrorMethods.
Import SanitizerProofs FalconErrorProofs.
Local Open Scope eff_scope.

(** X4.  [setDetail] and the [detail] getter round-trip on an
    SfdxFalconError: the getter returns the detail that was set, and every
    other property, the result stack among them, reads as before. *)
Theorem setDetail_detail (i : nat) (c : cls) (ps : props) (detail : value) :
  extends c CSfdxFalconError = true ->
  prop (setDetail (VObj i c ps) detail) "detail" = detail /\
  instanceOf (setDetail (VObj i c ps) detail) CSfdxFalconError = true /\
  forall k, k <> "_detail" -> k <> "detail" ->
            prop (setDetail (VObj i c ps) detail) k = prop (VObj i c ps) k.
Proof.
  intros Hc. unfold setDetail. split; [|split].
  - cbn [setProp prop]. rewrite Hc. cbn [accessorTarget String.eqb Ascii.eqb Bool.eqb].
    cbn. now destruct (lookup_assign_same "_detail" detail ps).
  - exact Hc.
  - intros k H1 H2. apply prop_setProp_other; [exact H1|].
    unfold accessorTarget.
    destruct (String.eqb k "detail") eqn:Hd;
      [apply String.eqb_eq in Hd; contradiction|].
    destruct (String.eqb k "debugInfo"); [discriminate|].
    destruct (String.eqb k "devInfo"); [discriminate|].
    destruct (String.eqb k "resultStack"); [discriminate|].
    destruct (String.eqb k "userInfo"); discriminate.
Qed.

Lemma setDetail_detail_witness :
  extends CShellError CSfdxFalconError = true /\
  prop (setDetail (VObj 4 CShellError [("name", VStr "ShellError");
                                       ("_detail", VObj 5 CObject [])])
                  (VStr "exit 127")) "detail" = VStr "exit 127".
Proof.
  split; [reflexivity|].
  apply (setDetail_detail 4 CShellError
           [("name", VStr "ShellError"); ("_detail", VObj 5 CObject [])]
           (VStr "exit 127") eq_refl).
Defined.

Lemma concat_snoc (sep : string) (l : list string) (x : string) :
  String.concat sep (l ++ [x]) = flatten (List.map (fun y => y ++ sep) l) ++ x.
Proof.
  induction l as [|y l IH]; [reflexivity|].
  cbn [List.app List.map flatten fold_right].
  destruct l as [|z l].
  - cbn. now rewrite ?append_empty_r, ?append_assoc.
  - change (String.concat sep (y :: (z :: l) ++ [x]))
      with (y ++ sep ++ String.concat sep ((z :: l) ++ [x])).
    rewrite IH. now rewrite !append_assoc.
Qed.

Lemma flatten_app (a b : list string) :
  flatten (a ++ b) = flatten a ++ flatten b.
Proof.
  induction a as [|x a IH]; [reflexivity|].
  cbn [List.app flatten fold_right]. fold (flatten (a ++ b)). fold (flatten a).
  now rewrite IH, append_assoc.
Qed.


Lemma lookup_absent (k : string) (ps : props) :
  hasKey k ps = false -> lookup k ps = VUndefined.
Proof.
  induction ps as [|[k' v] ps IH]; cbn; [reflexivity|].
  destruct (String.eqb k k'); cbn; [discriminate | exact IH].
Qed.

Lemma private_resultStack (i : nat) (c : cls) (ps : props) :
  prop (VObj i c ps) "_resultStack" = lookup "_resultStack" ps.
Proof.
  cbn [prop].
  assert (Ha : (if extends c CSfdxFalconError then accessorTarget "_resultStack" else None)
               = None) by (destruct (extends c CSfdxFalconError); reflexivity).
  rewrite Ha. destruct (hasKey "_resultStack" ps) eqn:Hk; [reflexivity|].
  rewrite (lookup_absent _ _ Hk). unfold inherited.
  destruct (extends c CError); reflexivity.
Qed.

Lemma public_resultStack (i : nat) (c : cls) (ps : props) :
  extends c CSfdxFalconError = true ->
  prop (VObj i c ps) "resultStack" = lookup "_resultStack" ps.
Proof. intros Hc. cbn [prop]. now rewrite Hc. Qed.

Lemma lookup_resultStack_set (ps : props) (v : value) :
  lookup "_resultStack" (assign "_resultStack" v ps) = v.
Proof. exact (proj1 (lookup_assign_same "_resultStack" v ps)). Qed.

Lemma addToStack_onto (items : list string) :
  forall (i : nat) (c : cls) (ps : props) (s : string),
  lookup "_resultStack" ps = VStr s -> s <> "" ->
  exists ps',
    foldM addToStack items (VObj i c ps) = Normal (VObj i c ps') /\
    lookup "_resultStack" ps'
    = VStr (flatten (List.map (fun y => indented y ++ nl) (rev items)) ++ s).
Proof.
  induction items as [|x items IH]; intros i c ps s Hs Hne.
  - exists ps. split; [reflexivity | exact Hs].
  - cbn [foldM].
    assert (Hstep : addToStack (VObj i c ps) x
                    = Normal (setProp (VObj i c ps) "_resultStack"
                                (VStr (indented x ++ nl ++ s)))).
    { unfold addToStack, toString. rewrite private_resultStack, Hs. cbn [truthy toStr].
      destruct s; [contradiction|]. reflexivity. }
    rewrite Hstep. cbn [cbind setProp].
    destruct (IH i c (assign "_resultStack" (VStr (indented x ++ nl ++ s)) ps)
                (indented x ++ nl ++ s)) as (ps' & Hrun & Hstack).
    + apply lookup_resultStack_set.
    + discriminate.
    + exists ps'. split; [exact Hrun|]. rewrite Hstack.
      cbn [rev]. rewrite List.map_app, flatten_app. cbn [List.map flatten fold_right].
      now rewrite ?append_empty_r, ?append_assoc.
Qed.

(** X5.  On an SfdxFalconError whose result stack is empty, a series of
    [addToStack] calls leaves the items one per line, each indented by four
    spaces, the most recent first. *)
Theorem addToStack_most_recent_first
    (i : nat) (c : cls) (ps : props) (items : list string) :
  extends c CSfdxFalconError = true ->
  truthy (prop (VObj i c ps) "resultStack") = false ->
  items <> [] ->
  exists this,
    foldM addToStack items (VObj i c ps) = Normal this /\
    instanceOf this CSfdxFalconError = true /\
    prop this "resultStack"
    = VStr (String.concat nl (List.map indented (rev items))).
Proof.
  intros Hc Hempty Hitems.
  destruct items as [|x items]; [contradiction|].
  cbn [foldM].
  assert (Hstep : addToStack (VObj i c ps) x
                  = Normal (setProp (VObj i c ps) "_resultStack" (VStr (indented x)))).
  { unfold addToStack. rewrite private_resultStack.
    rewrite (public_resultStack i c ps Hc) in Hempty. now rewrite Hempty. }
  rewrite Hstep. cbn [cbind setProp].
  destruct (addToStack_onto items i c
              (assign "_resultStack" (VStr (indented x)) ps) (indented x))
    as (ps' & Hrun & Hstack).
  - apply lookup_resultStack_set.
  - discriminate.
  - exists (VObj i c ps'). split; [exact Hrun|]. split; [exact Hc|].
    rewrite (public_resultStack i c ps' Hc), Hstack.
    cbn [rev]. rewrite List.map_app. cbn [List.map].
    rewrite concat_snoc. rewrite List.map_map. reflexivity.
Qed.

Lemma addToStack_most_recent_first_witness :
  exists this,
    foldM addToStack ["executor"; "action"; "recipe"]
      (VObj 0 CSfdxFalconError [("name", VStr "SfdxFalconError");
                                ("_resultStack", VStr "")]) = Normal this /\
    prop this "resultStack"
    = VStr ("    recipe" ++ nl ++ "    action" ++ nl ++ "    executor").
Proof.
  destruct (addToStack_most_recent_first 0 CSfdxFalconError
              [("name", VStr "SfdxFalconError"); ("_resultStack", VStr "")]
              ["executor"; "action"; "recipe"] eq_refl eq_refl)
    as (this & Hrun & _ & Hstack); [discriminate|].
  exists this. split; [exact Hrun | exact Hstack].
Defined.

Section Construction.
Variable P : Platform.

(** X6.  A new SfdxFalconError takes the next free identity, is named
    SfdxFalconError when no name is given and has the source
    [Unhandled Exception] when none is given, exit code 1 and no actions by
    default.  Given a message that is a string, it has that message and the
    cause it is given; a message that is no string becomes its cause, and
    its message is empty.  It starts with the result stack of the cause it
    is given when that stack is not empty, and with an empty result stack
    otherwise. *)
Theorem newSfdxFalconError_defaults (c : cls)
    (message name source cause actions exitCode : value) (n : nat) :
  extends c CSfdxFalconError = true ->
  exists ps,
    newSfdxFalconError P c message name source cause actions exitCode n
    = (Normal (VObj n c ps), (n + 6)%nat) /\
    let e := VObj n c ps in
    prop e "name" = orElse name (VStr "SfdxFalconError") /\
    prop e "source" = defaultTo (VStr "Unhandled Exception") source /\
    prop e "exitCode" = orElse exitCode (VNum 1) /\
    prop e "actions" = orElse actions (VArr []) /\
    (forall text, message = VStr text ->
                  prop e "message" = VStr text /\ prop e "cause" = cause) /\
    (isString message = false ->
     prop e "message" = VStr "" /\ prop e "cause" = message) /\
    (truthy cause = true -> truthy (prop cause "resultStack") = true ->
     prop e "resultStack" = prop cause "resultStack") /\
    (truthy cause = false \/ truthy (prop cause "resultStack") = false ->
     prop e "resultStack" = VStr "").
Proof.
  intros Hc.
  assert (Herr : extends c CError = true) by (destruct c; try discriminate Hc; reflexivity).
  destruct (newSfdxFalconError_members P c message name source cause actions exitCode n
              Herr)
    as (ps & Hnew & _ & Hmsg & Hcause & _ & Hname & Hsrc & Hexit & Hacts & Hstack & _).
  exists ps. split; [exact Hnew|]. cbv zeta.
  rewrite (public_resultStack n c ps Hc), Hstack.
  split; [exact Hname|]. split; [exact Hsrc|]. split; [exact Hexit|].
  split; [exact Hacts|]. split; [|split; [|split]].
  - intros text ->. now split.
  - intros Hs. rewrite Hmsg, Hcause. destruct message; try discriminate Hs; now split.
  - intros Ht Hs. rewrite Ht. unfold orElse. now rewrite Hs.
  - intros [Ht|Hs].
    + now rewrite Ht.
    + destruct (truthy cause); [|reflexivity]. unfold orElse. now rewrite Hs.
Qed.

(** X7.  [wrap] of a value that is not an Error returns a new
    SfdxFalconError named UnknownError that keeps the value itself at
    [data.unknownObj]; its source is [Unhandled Exception] whatever source
    was given. *)
Theorem wrap_unknown_value (error source : value) (n : nat) :
  instanceOf error CError = false ->
  exists w,
    wrap P error source n = (Normal w, (n + 7)%nat) /\
    instanceOf w CSfdxFalconError = true /\
    prop w "name" = VStr "UnknownError" /\
    prop w "source" = VStr "Unhandled Exception" /\
    prop (prop w "data") "unknownObj" = error.
Proof.
  intros Herr. unfold wrap.
  assert (Hf : instanceOf error CSfdxFalconError = false).
  { destruct (instanceOf error CSfdxFalconError) eqn:H; [|reflexivity].
    apply instance_falcon_error in H. congruence. }
  rewrite Hf, Herr. unfold bind. rewrite newSfdxFalconError_shape.
  unfold newObject, ret. cbn [setProp].
  replace (S (n + 6)) with (n + 7)%nat by lia.
  eexists. split; [reflexivity|]. cbn. repeat split.
Qed.

(** X8.  [wrap] of an Error that is not an SfdxFalconError, whose name,
    message and stack convert to strings, returns a new SfdxFalconError with
    the name of the Error and the given source.  It has the message of the
    Error when that message is a string; a message that is no string becomes
    its cause, and its own message is empty.  When the engine recorded a
    stack for the new error, the stack of the result is the stack of the
    Error it wraps, a newline, and the stack of the new error with the first
    [<name>: <message>] replaced by [Outer stack:]. *)
Theorem wrap_plain_error (error source : value) (name message stack : string) (n : nat) :
  instanceOf error CError = true ->
  instanceOf error CSfdxFalconError = false ->
  toStr (prop error "name") = Some name ->
  toStr (prop error "message") = Some message ->
  toStr (prop error "stack") = Some stack ->
  exists w,
    wrap P error source n = (Normal w, (n + 6)%nat) /\
    instanceOf w CSfdxFalconError = true /\
    (isString (prop error "message") = true ->
     prop w "message" = prop error "message" /\ prop w "cause" = VUndefined) /\
    (isString (prop error "message") = false ->
     prop w "message" = VStr "" /\ prop w "cause" = prop error "message") /\
    prop w "name" = orElse (prop error "name") (VStr "SfdxFalconError") /\
    prop w "source" = defaultTo (VStr "Unhandled Exception") source /\
    prop w "stack"
    = (if isEmptyStr (stackOf P n) then VStr ""
       else VStr (stack ++ nl
                    ++ replaceFirst (name ++ ": " ++ message) "Outer stack:"
                         (stackOf P n))).
Proof.
  intros Herr Hf Hname Hmessage Hstack. unfold wrap. rewrite Hf, Herr.
  unfold bind.
  destruct (newSfdxFalconError_members P CSfdxFalconError (prop error "message")
              (prop error "name") source VUndefined VUndefined VUndefined n eq_refl)
    as (ps & Hnew & _ & Hmsg & Hcause & Hst & Hnm & Hsrc & _).
  rewrite Hnew, Hst.
  assert (Hkeep : forall ps0 v k, k <> "stack" ->
            prop (setProp (VObj n CSfdxFalconError ps0) "stack" v) k
            = prop (VObj n CSfdxFalconError ps0) k).
  { intros ps0 v k Hk. apply prop_setProp_other; [exact Hk|].
    unfold accessorTarget.
    destruct (String.eqb k "detail"); [discriminate|].
    destruct (String.eqb k "debugInfo"); [discriminate|].
    destruct (String.eqb k "devInfo"); [discriminate|].
    destruct (String.eqb k "resultStack"); [discriminate|].
    destruct (String.eqb k "userInfo"); discriminate. }
  cbn [truthy]. destruct (isEmptyStr (stackOf P n)) eqn:Hempty; cbn [negb].
  - unfold ret. eexists. split; [reflexivity|]. split; [reflexivity|].
    rewrite Hmsg, Hcause, Hnm, Hsrc, Hst.
    assert (Hs0 : stackOf P n = "") by (destruct (stackOf P n); [reflexivity | discriminate]).
    rewrite Hs0.
    repeat split; destruct (prop error "message"); try discriminate; reflexivity.
  - unfold lift, toString. rewrite Hname, Hmessage. cbn [replaceIn].
    rewrite Hstack.
    rewrite (prop_setProp_same n CSfdxFalconError ps "stack" _ eq_refl).
    cbn [toStr]. unfold ret.
    eexists. split; [reflexivity|]. split; [reflexivity|].
    rewrite (setProp_object n CSfdxFalconError ps "stack").
    rewrite (prop_setProp_same n CSfdxFalconError _ "stack" _ eq_refl).
    rewrite !Hkeep by discriminate. rewrite <- setProp_object.
    rewrite !Hkeep by discriminate.
    rewrite Hmsg, Hcause, Hnm, Hsrc.
    repeat split; destruct (prop error "message"); try discriminate; reflexivity.
Qed.

End Construction.

Lemma newSfdxFalconError_defaults_witness :
  exists ps,
    newSfdxFalconError Samples.samplePlatform CSfdxFalconError (VStr "Recipe failed")
      VUndefined VUndefined
      (VObj 9 CShellError [("name", VStr "ShellError");
                           ("_resultStack", VStr "    executor")])
      VUndefined VUndefined 20
    = (Normal (VObj 20 CSfdxFalconError ps), 26) /\
    prop (VObj 20 CSfdxFalconError ps) "name" = VStr "SfdxFalconError" /\
    prop (VObj 20 CSfdxFalconError ps) "message" = VStr "Recipe failed" /\
    prop (VObj 20 CSfdxFalconError ps) "resultStack" = VStr "    executor".
Proof.
  destruct (newSfdxFalconError_defaults Samples.samplePlatform CSfdxFalconError
              (VStr "Recipe failed") VUndefined VUndefined
              (VObj 9 CShellError [("name", VStr "ShellError");
                                   ("_resultStack", VStr "    executor")])
              VUndefined VUndefined 20 eq_refl)
    as (ps & Hnew & Hname & _ & _ & _ & Hmsg & _ & Hstack & _).
  exists ps. split; [exact Hnew|]. split; [exact Hname|].
  split; [exact (proj1 (Hmsg "Recipe failed" eq_refl))|].
  exact (Hstack eq_refl eq_refl).
Defined.

Lemma wrap_unknown_value_witness :
  instanceOf (VStr "disk full") CError = false /\
  exists w,
    wrap Samples.samplePlatform (VStr "disk full") (VStr "UTILITY:git") 0
    = (Normal w, 7) /\
    prop w "source" = VStr "Unhandled Exception" /\
    prop (prop w "data") "unknownObj" = VStr "disk full".
Proof.
  split; [reflexivity|].
  destruct (wrap_unknown_value Samples.samplePlatform (VStr "disk full")
              (VStr "UTILITY:git") 0 eq_refl) as (w & Hw & _ & _ & Hsrc & Hdata).
  exists w. split; [exact Hw|]. split; [exact Hsrc | exact Hdata].
Defined.

Lemma wrap_plain_error_witness :
  (exists w,
     wrap Samples.samplePlatform
       (VObj 3 CError [("message", VStr "boom"); ("stack", VStr "Error: boom")])
       (VStr "UTILITY:git") 10 = (Normal w, 16) /\
     prop w "message" = VStr "boom" /\
     prop w "name" = VStr "Error" /\
     prop w "source" = VStr "UTILITY:git") /\
  (exists w,
     wrap Samples.samplePlatform
       (VObj 3 CError [("message", VNum 404); ("stack", VStr "Error")])
       VUndefined 10 = (Normal w, 16) /\
     prop w "message" = VStr "" /\
     prop w "cause" = VNum 404).
Proof.
  split.
  - destruct (wrap_plain_error Samples.samplePlatform
                (VObj 3 CError [("message", VStr "boom"); ("stack", VStr "Error: boom")])
                (VStr "UTILITY:git") "Error" "boom" "Error: boom" 10
                eq_refl eq_refl eq_refl eq_refl eq_refl)
      as (w & Hw & _ & Hmsg & _ & Hname & Hsrc & _).
    exists w. split; [exact Hw|]. split; [exact (proj1 (Hmsg eq_refl))|].
    split; [exact Hname | exact Hsrc].
  - destruct (wrap_plain_error Samples.samplePlatform
                (VObj 3 CError [("message", VNum 404); ("stack", VStr "Error")])
                VUndefined "Error" "404" "Error" 10
                eq_refl eq_refl eq_refl eq_refl eq_refl)
      as (w & Hw & _ & _ & Hmsg & _).
    exists w. split; [exact Hw|]. exact (Hmsg eq_refl).
Defined.

Lemma rootCauseLoop_end (fuel : nat) (r : value) :
  truthy (prop r "cause") && negb (isEmpty (prop r "cause")) = false ->
  rootCauseLoop fuel r = Some r.
Proof. intros H. destruct fuel; cbn [rootCauseLoop]; now rewrite H. Qed.

(** X9.  The root cause of a root cause is itself: [rootCause] is
    idempotent, and an error without a cause is its own root cause. *)
Theorem rootCause_idempotent (this r : value) :
  rootCause this = Some r -> rootCause r = Some r.
Proof.
  unfold rootCause. intros H.
  destruct (rootCauseLoop_spec (height this) this (le_n _)) as (r' & Hr & _ & Hend).
  rewrite Hr in H. inversion H; subst r'.
  now apply rootCauseLoop_end.
Qed.

Lemma rootCause_idempotent_witness :
  rootCause (VObj 2 CSfdxFalconError
               [("name", VStr "outer");
                ("cause", VObj 1 CSfdxFalconError [("name", VStr "inner")])])
  = Some (VObj 1 CSfdxFalconError [("name", VStr "inner")]) /\
  rootCause (VObj 1 CSfdxFalconError [("name", VStr "inner")])
  = Some (VObj 1 CSfdxFalconError [("name", VStr "inner")]).
Proof.
  split; [reflexivity|].
  apply (rootCause_idempotent
           (VObj 2 CSfdxFalconError
              [("name", VStr "outer");
               ("cause", VObj 1 CSfdxFalconError [("name", VStr "inner")])])).
  reflexivity.
Defined.

(** X10.  A cause that is a plain Error, with no own property besides its
    message and its stack, counts as empty: the error that has it as its
    cause is its own root cause. *)
Theorem rootCause_skips_plain_error (this : value) (i : nat) (message stack : value) :
  prop this "cause" = VObj i CError [("message", message); ("stack", stack)] ->
  rootCause this = Some this.
Proof.
  intros Hc. unfold rootCause. apply rootCauseLoop_end. now rewrite Hc.
Qed.

Lemma rootCause_skips_plain_error_witness :
  rootCause (VObj 2 CSfdxFalconError
               [("name", VStr "SfdxFalconError");
                ("cause", VObj 1 CError [("message", VStr "ENOENT");
                                         ("stack", VStr "Error: ENOENT")])])
  = Some (VObj 2 CSfdxFalconError
            [("name", VStr "SfdxFalconError");
             ("cause", VObj 1 CError [("message", VStr "ENOENT");
                                      ("stack", VStr "Error: ENOENT")])]).
Proof.
  apply (rootCause_skips_plain_error _ 1 (VStr "ENOENT") (VStr "Error: ENOENT")).
  reflexivity.
Defined.


Section CliErrorParsed.
Variable P : Platform.

(** X11.  When its input parses to a value that is neither [null] nor
    [undefined], with a status that [isNaN] takes and a message that
    converts to a string, the SfdxCliError constructor fills [cliError] from
    it: the name, message, warnings and stack of the parsed value where they
    are truthy and fixed defaults otherwise, the status 1 where the parsed
    status is not a number, and as result the parsed result, or the whole
    parsed value at [result.rawResult] when it has none.  The message of the
    error is the caller's message, a full stop, and the CLI message. *)
Theorem newSfdxCliError_parsed_fields
    (stdErrBuffer : string) (parsed message source : value) (statusIsNaN : bool)
    (text cliText : string) (n : nat) :
  JSON_parse P stdErrBuffer = Some parsed -> readable parsed = true ->
  isNaN P (prop parsed "status") = Normal statusIsNaN ->
  toStr (defaultTo (VStr "Unknown CLI Error") message) = Some text ->
  toStr (orElse (prop parsed "message")
           (VStr "Unknown CLI Error (see 'cliError.result.rawResult' for original CLI response)"))
  = Some cliText ->
  exists this n',
    newSfdxCliError P stdErrBuffer message source n = (Normal this, n') /\
    let cliError := prop this "cliError" in
    prop cliError "name" = orElse (prop parsed "name") (VStr "UnknownCliError") /\
    prop cliError "message"
    = orElse (prop parsed "message")
        (VStr "Unknown CLI Error (see 'cliError.result.rawResult' for original CLI response)") /\
    prop cliError "status" = (if statusIsNaN then VNum 1 else prop parsed "status") /\
    prop cliError "warnings" = orElse (prop parsed "warnings") (VArr []) /\
    prop cliError "stack" = orElse (prop parsed "stack") (VStr "") /\
    (truthy (prop parsed "result") = true ->
     prop cliError "result" = prop parsed "result") /\
    (truthy (prop parsed "result") = false ->
     prop (prop cliError "result") "rawResult" = parsed) /\
    prop this "message" = VStr (text ++ ". " ++ cliText) /\
    prop this "name" = VStr "SfdxCliError" /\
    prop this "source" = defaultTo (VStr "") source.
Proof.
  intros Hp Hr Hb Hm Hc.
  destruct (newSfdxCliError_parsed P stdErrBuffer parsed message source statusIsNaN
              text cliText n Hp Hr Hb Hm Hc)
    as (ps & n' & Hnew & Hcli & _ & Hmsg & Hname & Hsrc).
  eexists; eexists. split; [exact Hnew|].
  cbv zeta. rewrite Hcli, Hmsg, Hname, Hsrc. cbn.
  repeat split.
  - intros Ht. now rewrite Ht.
  - intros Ht. now rewrite Ht.
Qed.

(** X12.  Under the same conditions, the actions of an SfdxCliError are the
    [actions] array of the parsed response, if it is an array, followed by
    its [action], if it has one; the error itself carries the same actions
    as its [cliError]. *)
Theorem newSfdxCliError_actions
    (stdErrBuffer : string) (parsed message source : value) (statusIsNaN : bool)
    (text cliText : string) (n : nat) :
  JSON_parse P stdErrBuffer = Some parsed -> readable parsed = true ->
  isNaN P (prop parsed "status") = Normal statusIsNaN ->
  toStr (defaultTo (VStr "Unknown CLI Error") message) = Some text ->
  toStr (orElse (prop parsed "message")
           (VStr "Unknown CLI Error (see 'cliError.result.rawResult' for original CLI response)"))
  = Some cliText ->
  exists this n',
    newSfdxCliError P stdErrBuffer message source n = (Normal this, n') /\
    prop (prop this "cliError") "actions"
    = VArr ((match prop parsed "actions" with VArr xs => xs | _ => [] end)
              ++ (if truthy (prop parsed "action")
                  then [prop parsed "action"] else []))%list /\
    prop this "actions" = prop (prop this "cliError") "actions".
Proof.
  intros Hp Hr Hb Hm Hc.
  destruct (newSfdxCliError_parsed P stdErrBuffer parsed message source statusIsNaN
              text cliText n Hp Hr Hb Hm Hc)
    as (ps & n' & Hnew & Hcli & Hacts & _).
  eexists; eexists. split; [exact Hnew|].
  rewrite Hcli, Hacts. cbn. split; reflexivity.
Qed.

(** X13.  An input that parses to [null] is handled as one that does not
    parse: the TypeError of the first property read is caught, and the error
    is an UnparseableCliError with status 999 that keeps the input string at
    [result.rawResult].  The constructor throws only when the message its
    caller gives does not convert to a string. *)
Theorem newSfdxCliError_null (stdErrBuffer : string) (message source : value) (n : nat) :
  JSON_parse P stdErrBuffer = Some VNull ->
  match newSfdxCliError P stdErrBuffer message source n with
  | (Normal this, _) =>
      prop (prop this "cliError") "name" = VStr "UnparseableCliError" /\
      prop (prop this "cliError") "status" = VNum 999 /\
      prop (prop (prop this "cliError") "result") "rawResult" = VStr stdErrBuffer
  | (Throw e, _) =>
      e = conversionError /\
      toStr (defaultTo (VStr "Unknown CLI Error") message) = None
  end.
Proof.
  intros Hp.
  assert (Hread : readsAsCliResponse P stdErrBuffer = false)
    by (unfold readsAsCliResponse; now rewrite Hp).
  destruct (printable (defaultTo (VStr "Unknown CLI Error") message)) eqn:Hm.
  - destruct (toString_printable _ Hm) as (text & Htext & _).
    destruct (newSfdxCliError_caught P stdErrBuffer message source text n Hread Htext)
      as (ps & Hnew & Hcli & _).
    rewrite Hnew, Hcli. cbn. repeat split.
  - destruct (newSfdxCliError_message_throws P stdErrBuffer message source n Hm)
      as (n' & Hnew).
    rewrite Hnew. split; [reflexivity | apply (toString_unprintable _ Hm)].
Qed.

(** X28.  An input whose parsed status does not convert to a number, an
    object with a [toString] member, is handled as one that does not parse
    as well: [isNaN] throws inside the [try] block, and the handler answers
    with an UnparseableCliError with status 999, no actions, and the input
    string at [result.rawResult], whatever the parsed value held. *)
Theorem newSfdxCliError_unreadable_status
    (stdErrBuffer : string) (parsed : value) (message : string) (source : value)
    (n : nat) :
  JSON_parse P stdErrBuffer = Some parsed ->
  toStr (prop parsed "status") = None ->
  exists this n',
    newSfdxCliError P stdErrBuffer (VStr message) source n = (Normal this, n') /\
    prop (prop this "cliError") "name" = VStr "UnparseableCliError" /\
    prop (prop this "cliError") "status" = VNum 999 /\
    prop (prop this "cliError") "actions" = VArr [] /\
    prop this "actions" = VArr [] /\
    prop (prop (prop this "cliError") "result") "rawResult" = VStr stdErrBuffer.
Proof.
  intros Hp Hs.
  assert (Hread : readsAsCliResponse P stdErrBuffer = false).
  { unfold readsAsCliResponse, printable. rewrite Hp, Hs. apply andb_false_r. }
  assert (Hblock := cliError_block_caught P stdErrBuffer n Hread).
  rewrite (newSfdxCliError_after_block P stdErrBuffer (VStr message) source _ n _ Hblock).
  match goal with
  | |- context [setProp _ "cliError" ?c] =>
      destruct (newSfdxCliError_finish P (VStr message) source c message
                  "Unparseable CLI Error (see 'cliError.result.rawResult' for raw error)"
                  (S (S n)) eq_refl eq_refl)
        as (ps & Hnew & Hcli & _ & _ & _ & Hacts)
  end.
  eexists; eexists. split; [exact Hnew|]. rewrite Hcli, Hacts. cbn. repeat split.
Qed.

End CliErrorParsed.

Lemma newSfdxCliError_parsed_fields_witness :
  JSON_parse Samples.samplePlatform Samples.notFoundJson = Some Samples.notFoundValue /\
  exists this n',
    newSfdxCliError Samples.samplePlatform Samples.notFoundJson
      (VStr "Deletion failed") VUndefined 0 = (Normal this, n') /\
    prop (prop this "cliError") "name" = VStr "ScratchOrgNotFound" /\
    prop (prop this "cliError") "status" = VNum 1 /\
    prop (prop (prop this "cliError") "result") "rawResult" = Samples.notFoundValue /\
    prop this "message" = VStr "Deletion failed. no such org".
Proof.
  split; [reflexivity|].
  destruct (newSfdxCliError_parsed_fields Samples.samplePlatform Samples.notFoundJson
              Samples.notFoundValue (VStr "Deletion failed") VUndefined false
              "Deletion failed" "no such org" 0
              eq_refl eq_refl eq_refl eq_refl eq_refl)
    as (this & n' & Hnew & Hname & Hmsg & Hstatus & _ & _ & _ & Hraw & Hm & _).
  exists this, n'. split; [exact Hnew|]. split; [exact Hname|].
  split; [exact Hstatus|]. split; [exact (Hraw eq_refl) | exact Hm].
Defined.

Lemma newSfdxCliError_actions_witness :
  exists this n',
    newSfdxCliError
      {| JSON_parse := fun _ =>
           Some (VObj 0 CObject [("actions", VArr [VStr "Check the alias"]);
                                 ("action", VStr "Run force:org:list")]);
         notANumber := Samples.sampleNotANumber;
         stackOf := fun _ => "";
         chalk := fun style text => text;
         inspect := Samples.sampleInspect |}
      "response" VUndefined VUndefined 0 = (Normal this, n') /\
    prop this "actions" = VArr [VStr "Check the alias"; VStr "Run force:org:list"].
Proof.
  destruct (newSfdxCliError_actions
              {| JSON_parse := fun _ =>
                   Some (VObj 0 CObject [("actions", VArr [VStr "Check the alias"]);
                                         ("action", VStr "Run force:org:list")]);
                 notANumber := Samples.sampleNotANumber;
                 stackOf := fun _ => "";
                 chalk := fun style text => text;
                 inspect := Samples.sampleInspect |}
              "response"
              (VObj 0 CObject [("actions", VArr [VStr "Check the alias"]);
                               ("action", VStr "Run force:org:list")])
              VUndefined VUndefined true "Unknown CLI Error"
              "Unknown CLI Error (see 'cliError.result.rawResult' for original CLI response)"
              0 eq_refl eq_refl eq_refl eq_refl eq_refl)
    as (this & n' & Hnew & Hcli & Hsame).
  exists this, n'. split; [exact Hnew|]. rewrite Hsame, Hcli. reflexivity.
Defined.

Lemma newSfdxCliError_null_witness :
  JSON_parse Samples.samplePlatform "null" = Some VNull /\
  exists this n',
    newSfdxCliError Samples.samplePlatform "null" VUndefined VUndefined 0
    = (Normal this, n') /\
    prop (prop this "cliError") "name" = VStr "UnparseableCliError" /\
    prop (prop (prop this "cliError") "result") "rawResult" = VStr "null".
Proof.
  split; [reflexivity|].
  pose proof (newSfdxCliError_null Samples.samplePlatform "null" VUndefined VUndefined 0
                eq_refl) as H.
  destruct (newSfdxCliError Samples.samplePlatform "null" VUndefined VUndefined 0)
    as [[this|e] n'] eqn:Hnew.
  - destruct H as (Hname & _ & Hraw). exists this, n'.
    split; [reflexivity|]. split; [exact Hname | exact Hraw].
  - destruct H as (_ & H). discriminate H.
Defined.

Lemma newSfdxCliError_unreadable_status_witness :
  JSON_parse Samples.samplePlatform Samples.oddStatusJson = Some Samples.oddStatusValue /\
  prop Samples.oddStatusValue "actions" = VArr [VStr "a"] /\
  exists this n',
    newSfdxCliError Samples.samplePlatform Samples.oddStatusJson (VStr "Deletion failed")
      VUndefined 0 = (Normal this, n') /\
    prop (prop this "cliError") "name" = VStr "UnparseableCliError" /\
    prop (prop this "cliError") "actions" = VArr [].
Proof.
  split; [reflexivity|]. split; [reflexivity|].
  destruct (newSfdxCliError_unreadable_status Samples.samplePlatform
              Samples.oddStatusJson Samples.oddStatusValue "Deletion failed" VUndefined 0
              eq_refl eq_refl) as (this & n' & Hnew & Hname & _ & Hacts & _).
  exists this, n'. split; [exact Hnew|]. split; [exact Hname | exact Hacts].
Defined.

Section ShellErrorFields.
Variable P : Platform.

(** X14.  A ShellError keeps what it was built from: its [shellError]
    member holds the command, the exit code, the signal and both buffers as
    given, with [null] for a stdout buffer that was left out; a message
    given by the caller is the message of [shellError] and, converted to a
    string, of the error.  The constructor throws only when a conversion
    does: of the message it was given, or of the code or the signal when it
    has to make up a message from them. *)
Theorem newShellError_keeps_outcome
    (command code signal stdErrBuffer stdOutBuffer source message : value) (n : nat) :
  match newShellError P command code signal stdErrBuffer stdOutBuffer source message n
  with
  | (Normal this, _) =>
      instanceOf this CShellError = true /\
      prop this "name" = VStr "ShellError" /\
      prop (prop this "shellError") "command" = command /\
      prop (prop this "shellError") "code" = code /\
      prop (prop this "shellError") "signal" = signal /\
      prop (prop this "shellError") "stderr" = stdErrBuffer /\
      prop (prop this "shellError") "stdout" = defaultTo VNull stdOutBuffer /\
      (truthy message = true ->
       exists text,
         toStr message = Some text /\
         prop this "message" = VStr text /\
         prop (prop this "shellError") "message" = message)
  | (Throw e, _) =>
      e = conversionError /\
      (if truthy message then toStr message = None
       else toStr code = None \/ toStr signal = None)
  end.
Proof.
  destruct (shellErrorMessage code signal stdErrBuffer (defaultTo VNull stdOutBuffer)
              (defaultTo (VStr "") message)) as [m|e] eqn:Hm.
  - destruct (toStr m) as [text|] eqn:Ht.
    + destruct (newShellError_built P command code signal stdErrBuffer stdOutBuffer
                  source message m text n Hm Ht)
        as (ps & Hnew & Hse & Hmsg & Hname & _).
      rewrite Hnew, Hse, Hmsg, Hname. cbn.
      do 7 (split; [reflexivity|]).
      intros Htr. exists text. revert Hm. unfold shellErrorMessage.
      destruct message; try discriminate Htr; cbn [defaultTo]; rewrite Htr; cbn [negb];
        intros Hm; inversion Hm; subst m; repeat split; exact Ht.
    + unfold newShellError, bind, lift, toString. rewrite Hm, Ht.
      split; [reflexivity|].
      revert Hm. unfold shellErrorMessage.
      destruct (truthy message) eqn:Htr.
      * destruct message; try discriminate Htr; cbn [defaultTo]; rewrite Htr; cbn [negb];
          intros Hm; inversion Hm; subst m; exact Ht.
      * assert (Hd : truthy (defaultTo (VStr "") message) = false)
          by (destruct message; try discriminate Htr; try reflexivity; exact Htr).
        rewrite Hd. cbn [negb].
        destruct (nonEmptyText stdErrBuffer);
          [intros Hm; inversion Hm; subst m; discriminate Ht|].
        destruct (nonEmptyText (defaultTo VNull stdOutBuffer));
          [intros Hm; inversion Hm; subst m; discriminate Ht|].
        unfold toString. destruct (toStr code); [|now left].
        destruct (toStr signal); [|now right].
        cbn [cbind]. intros Hm; inversion Hm; subst m; discriminate Ht.
  - unfold newShellError, bind, lift. rewrite Hm.
    revert Hm. unfold shellErrorMessage.
    destruct (truthy message) eqn:Htr.
    + destruct message; try discriminate Htr; cbn [defaultTo]; rewrite Htr; cbn [negb];
        discriminate.
    + assert (Hd : truthy (defaultTo (VStr "") message) = false)
        by (destruct message; try discriminate Htr; try reflexivity; exact Htr).
      rewrite Hd. cbn [negb].
      destruct (nonEmptyText stdErrBuffer); [discriminate|].
      destruct (nonEmptyText (defaultTo VNull stdOutBuffer)); [discriminate|].
      unfold toString. destruct (toStr code); cbn [cbind].
      * destruct (toStr signal); cbn [cbind]; [discriminate|].
        intros Hm; inversion Hm. split; [reflexivity | now right].
      * intros Hm; inversion Hm. split; [reflexivity | now left].
Qed.

End ShellErrorFields.

Lemma newShellError_keeps_outcome_witness :
  truthy (VStr "git is not installed") = true /\
  exists this n',
    newShellError Samples.samplePlatform (VStr "git --version") (VNum 127) VNull
      (VStr "sh: git: command not found") VUndefined VUndefined
      (VStr "git is not installed") 0 = (Normal this, n') /\
    prop this "message" = VStr "git is not installed" /\
    prop (prop this "shellError") "code" = VNum 127 /\
    prop (prop this "shellError") "stdout" = VNull.
Proof.
  split; [reflexivity|].
  pose proof (newShellError_keeps_outcome Samples.samplePlatform (VStr "git --version")
                (VNum 127) VNull (VStr "sh: git: command not found") VUndefined
                VUndefined (VStr "git is not installed") 0) as H.
  destruct (newShellError Samples.samplePlatform (VStr "git --version") (VNum 127) VNull
              (VStr "sh: git: command not found") VUndefined VUndefined
              (VStr "git is not installed") 0) as [[this|e] n'] eqn:Hnew.
  - destruct H as (_ & _ & _ & Hcode & _ & _ & Hout & Hmsg).
    exists this, n'. split; [reflexivity|].
    destruct (Hmsg eq_refl) as (text & Htext & Hthis & _).
    inversion Htext; subst text.
    split; [exact Hthis|]. split; [exact Hcode | exact Hout].
  - destruct H as (_ & H). discriminate H.
Defined.

Section RenderingMore.
Variable P : Platform.

(** X15.  A numeric status of [cliError] is never rendered, as a number is
    empty for [isEmpty]: the rendering of an SfdxCliError is the same
    whatever number its status is. *)
Theorem renderSfdxCliErrorDetail_hides_status
    (i j : nat) (c : cls) (ps cli : props) (a b : Z)
    (options : SfdxFalconErrorRenderOptions) :
  renderSfdxCliErrorDetail P
    (setProp (VObj i c ps) "cliError" (setProp (VObj j CObject cli) "status" (VNum a)))
    options
  = renderSfdxCliErrorDetail P
      (setProp (VObj i c ps) "cliError" (setProp (VObj j CObject cli) "status" (VNum b)))
      options.
Proof.
  assert (Hm : forall x k,
             getMember (setProp (VObj i c ps) "cliError"
                          (setProp (VObj j CObject cli) "status" (VNum x)))
                       "cliError" k
             = Normal (prop (setProp (VObj j CObject cli) "status" (VNum x)) k)).
  { intros x k. unfold getMember.
    rewrite getProp_readable by reflexivity. cbn [cbind].
    rewrite (prop_setProp_same i c ps "cliError" _ eq_refl).
    now rewrite getProp_readable by reflexivity. }
  assert (Ho : forall x k, k <> "status" ->
             prop (setProp (VObj j CObject cli) "status" (VNum x)) k
             = prop (VObj j CObject cli) k).
  { intros x k Hk. apply prop_setProp_other; [exact Hk|].
    unfold accessorTarget.
    destruct (String.eqb k "detail"); [discriminate|].
    destruct (String.eqb k "debugInfo"); [discriminate|].
    destruct (String.eqb k "devInfo"); [discriminate|].
    destruct (String.eqb k "resultStack"); [discriminate|].
    destruct (String.eqb k "userInfo"); discriminate. }
  assert (Hs : forall x,
             prop (setProp (VObj j CObject cli) "status" (VNum x)) "status" = VNum x).
  { intros x. now apply prop_setProp_same. }
  unfold renderSfdxCliErrorDetail.
  rewrite !Hm. cbn [cbind]. rewrite !Hs. cbn [isEmpty negb].
  rewrite !Ho by discriminate. reflexivity.
Qed.

End RenderingMore.

End FalconErrorExtra.

Module ExecutorExtra.
Import JsString Js Eff Sanitizer FalconError FalconErrorSpec Executor ExecutorSpec.
Import SanitizerProofs FalconErrorProofs ExecutorProofs FalconErrorExtra.
Local Open Scope eff_scope.

Section Outcomes.
Variable P : Platform.
Variable detectSalesforceCliError : string -> bool.
Variable safeParse : string -> value.

(** X16.  Only the text the child process wrote counts, not how it arrived:
    two runs whose stdout chunks concatenate to the same text, whose stderr
    chunks do too, and that close with the same code and signal, settle the
    promise the same way. *)
Theorem executeSfdxCommand_chunking (def : SfdxCommandDefinition)
    (child child' : childProcess) (n : nat) :
  stdoutText (events child) = stdoutText (events child') ->
  stderrText (events child) = stderrText (events child') ->
  code child = code child' -> signal child = signal child' ->
  executeSfdxCommand P detectSalesforceCliError safeParse def child n
  = executeSfdxCommand P detectSalesforceCliError safeParse def child' n.
Proof.
  intros Hout Herr Hcode Hsig. unfold executeSfdxCommand.
  rewrite !onData_fold, Hout, Herr, Hcode, Hsig. reflexivity.
Qed.

(** X17.  On exit code 0 the promise resolves with a Result whose detail
    holds the command definition, the compiled command string, the whole of
    stdout and of stderr, and stdout as [safeParse] reads it; no object is
    created.  When the compiler throws there is no command to run, and the
    promise rejects with what it throws. *)
Theorem executeSfdxCommand_success_detail (def : SfdxCommandDefinition)
    (child : childProcess) (n : nat) :
  code child = Some 0%Z ->
  executeSfdxCommand P detectSalesforceCliError safeParse def child n
  = match parseSfdxCommand def with
    | Normal commandString =>
        (Resolved
           (Result "sfdx:executeSfdxCommand" EXECUTOR SUCCESS
              (ExecutorDetail
                 {| sfdxCommandDef := def;
                    sfdxCommandString := Some commandString;
                    stdOutParsed := safeParse (stdoutText (events child));
                    stdOutBuffer := Some (stdoutText (events child));
                    stdErrBuffer := Some (stderrText (events child)) |}) []),
         n)
    | Throw x => (Rejected (ReasonError x), n)
    end.
Proof.
  intros Hcode. unfold executeSfdxCommand.
  destruct (parseSfdxCommand def) as [commandString|x]; [|reflexivity].
  rewrite onData_fold, Hcode. reflexivity.
Qed.


(** X19.  On another exit code with a stdout that is not recognized, the
    promise rejects with a Result whose detail is a ShellError that holds
    the compiled command string, the exit code and the signal of the child
    process, and the whole of stdout and of stderr.  When the compiler
    throws there is no command to run, and the promise rejects with what it
    throws. *)
Theorem executeSfdxCommand_error_detail (def : SfdxCommandDefinition)
    (child : childProcess) (n : nat) :
  code child <> Some 0%Z ->
  detectSalesforceCliError (stdoutText (events child)) = false ->
  match parseSfdxCommand def with
  | Normal commandString =>
      exists e,
        executeSfdxCommand P detectSalesforceCliError safeParse def child n
        = (Rejected
             (ReasonResult
                (Result "sfdx:executeSfdxCommand" EXECUTOR ERROR (ErrorDetail e) [])),
           (n + 7)%nat) /\
        instanceOf e CShellError = true /\
        prop e "source" = VStr "EXECUTOR:sfdx:executeSfdxCommand" /\
        prop (prop e "shellError") "command" = VStr commandString /\
        prop (prop e "shellError") "code" = codeValue (code child) /\
        prop (prop e "shellError") "signal" = signalValue (signal child) /\
        prop (prop e "shellError") "stdout" = VStr (stdoutText (events child)) /\
        prop (prop e "shellError") "stderr" = VStr (stderrText (events child))
  | Throw x =>
      executeSfdxCommand P detectSalesforceCliError safeParse def child n
      = (Rejected (ReasonError x), n)
  end.
Proof.
  intros Hcode Hd. unfold executeSfdxCommand.
  destruct (parseSfdxCommand def) as [commandString|x]; [|reflexivity].
  rewrite onData_fold.
  cbn [String.append]. unfold onClose.
  assert (Hnz : notZero (code child) = true).
  { destruct (notZero (code child)) eqn:H; [reflexivity|].
    apply notZero_iff in H. contradiction. }
  rewrite Hnz, Hd. unfold bind.
  destruct (newShellError_child P commandString (code child) (signal child)
              (stderrText (events child)) (stdoutText (events child))
              (dbgNs ++ "executeSfdxCommand") n)
    as (ps & Hnew & Hsrc & Hcmd & Hc & Hs & Ho & He).
  rewrite Hnew. eexists. split; [reflexivity|].
  rewrite Hsrc, Hcmd, Hc, Hs, Ho, He. repeat split.
Qed.

(** How the promise of the Executor can end. *)
Lemma executeSfdxCommand_outcomes (def : SfdxCommandDefinition)
    (child : childProcess) (n : nat) :
  match executeSfdxCommand P detectSalesforceCliError safeParse def child n with
  | (Resolved r, _) => exists commandString, parseSfdxCommand def = Normal commandString
  | (Rejected (ReasonResult r), _) =>
      exists commandString, parseSfdxCommand def = Normal commandString
  | (Rejected (ReasonError x), n') => parseSfdxCommand def = Throw x /\ n' = n
  | (Uncaught x, _) =>
      x = conversionError /\
      (exists commandString, parseSfdxCommand def = Normal commandString) /\
      code child <> Some 0%Z /\
      detectSalesforceCliError (stdoutText (events child)) = true /\
      unprintableCliMessage P (stdoutText (events child)) = true
  end.
Proof.
  unfold executeSfdxCommand.
  destruct (parseSfdxCommand def) as [commandString|x]; [|split; reflexivity].
  rewrite onData_fold. cbn [String.append]. unfold onClose.
  pose proof (notZero_iff (code child)) as Hz.
  destruct (notZero (code child)) eqn:Hnz.
  - assert (Hcode : code child <> Some 0%Z)
      by (intros Heq; apply Hz in Heq; discriminate Heq).
    destruct (detectSalesforceCliError (stdoutText (events child))) eqn:Hd; unfold bind.
    + pose proof (newSfdxCliError_executor P (stdoutText (events child)) (errorMsg def)
                    (dbgNs ++ "executeSfdxCommand") n) as Hcli.
      destruct (unprintableCliMessage P (stdoutText (events child))).
      * destruct Hcli as (n' & He). rewrite He.
        split; [reflexivity|]. split; [now exists commandString|].
        repeat split; assumption.
      * destruct Hcli as (i & ps & n' & He). rewrite He. now exists commandString.
    + destruct (newShellError_child P commandString (code child) (signal child)
                  (stderrText (events child)) (stdoutText (events child))
                  (dbgNs ++ "executeSfdxCommand") n) as (ps & He & _).
      rewrite He. now exists commandString.
  - now exists commandString.
Qed.

End Outcomes.

Lemma executeSfdxCommand_chunking_witness :
  executeSfdxCommand Samples.samplePlatform Samples.sampleDetect Samples.sampleSafeParse
    Samples.sampleDef Samples.notFoundChild 0
  = executeSfdxCommand Samples.samplePlatform Samples.sampleDetect
      Samples.sampleSafeParse Samples.sampleDef
      {| events := [StdoutData Samples.notFoundJson]; code := Some 1%Z;
         signal := None |}
      0.
Proof.
  apply (executeSfdxCommand_chunking Samples.samplePlatform Samples.sampleDetect
           Samples.sampleSafeParse Samples.sampleDef Samples.notFoundChild
           {| events := [StdoutData Samples.notFoundJson]; code := Some 1%Z;
              signal := None |} 0); reflexivity.
Defined.

Lemma executeSfdxCommand_success_detail_witness :
  code Samples.okChild = Some 0%Z /\
  fst (executeSfdxCommand Samples.samplePlatform Samples.sampleDetect
         Samples.sampleSafeParse Samples.sampleDef Samples.okChild 0)
  = Resolved
      (Result "sfdx:executeSfdxCommand" EXECUTOR SUCCESS
         (ExecutorDetail
            {| sfdxCommandDef := Samples.sampleDef;
               sfdxCommandString :=
                 Some "sfdx force:org:delete --targetusername gone --json";
               stdOutParsed := VNum 1;
               stdOutBuffer := Some "1";
               stdErrBuffer := Some "" |}) []).
Proof.
  split; [reflexivity|].
  rewrite (executeSfdxCommand_success_detail Samples.samplePlatform Samples.sampleDetect
             Samples.sampleSafeParse Samples.sampleDef Samples.okChild 0 eq_refl).
  reflexivity.
Defined.


Lemma executeSfdxCommand_error_detail_witness :
  exists e,
    executeSfdxCommand Samples.samplePlatform Samples.sampleDetect
      Samples.sampleSafeParse Samples.sampleDef Samples.killedChild 0
    = (Rejected
         (ReasonResult
            (Result "sfdx:executeSfdxCommand" EXECUTOR ERROR (ErrorDetail e) [])), 7) /\
    prop (prop e "shellError") "signal" = VStr "SIGKILL" /\
    prop (prop e "shellError") "code" = VNull.
Proof.
  destruct (executeSfdxCommand_error_detail Samples.samplePlatform
              Samples.sampleDetect Samples.sampleSafeParse Samples.sampleDef
              Samples.killedChild 0)
    as (e & Hrun & _ & _ & _ & Hcode & Hsig & _);
    [intros H; discriminate H | reflexivity |].
  exists e. split; [exact Hrun|]. split; [exact Hsig | exact Hcode].
Defined.
End ExecutorExtra.

Module DeleteScratchOrgExtra.
Import JsString Js Eff Sanitizer SanitizerSpec FalconError FalconErrorSpec Executor
  ExecutorSpec DeleteScratchOrg.
Import SanitizerProofs DeleteScratchOrgProofs ExecutorExtra.
Local Open Scope eff_scope.

(** The first part of [executeAction] throws when the action options are
    [null], or their scratch org alias does not convert to a string, and
    only then; the flags of the definition it makes are those of the
    context. *)
Lemma commandDefFor_cases (this : DeleteScratchOrgAction)
    (actionContext : AppxEngineActionContext) (actionOptions : value) (n : nat) :
  match commandDefFor this actionContext actionOptions n with
  | (Normal def, _) =>
      Sanitizer.command def = command this /\
      commandArgs def = [] /\
      commandFlags def
      = Some [("FLAG_TARGETUSERNAME", targetOrgAlias actionContext);
              ("FLAG_TARGETDEVHUBUSERNAME", devHubAlias actionContext);
              ("FLAG_NOPROMPT", VBool true);
              ("FLAG_JSON", VBool true);
              ("FLAG_LOGLEVEL", logLevel actionContext)]
  | (Throw e, _) =>
      actionOptions = VNull \/ toStr (prop actionOptions "scratchOrgAlias") = None
  end.
Proof.
  unfold commandDefFor, bind, optionsOrDefault, lift, ret, newObject,
    progressMessageFor, errorMessageFor, successMessageFor, toString.
  destruct actionOptions as [| |b|z|s|xs|i c ps].
  1: cbn; repeat split; reflexivity.
  1: now left.
  all: cbn [getProp cbind];
    match goal with
    | |- context [toStr ?v] => destruct (toStr v) eqn:Ht
    end; cbn [cbind]; [repeat split | now right].
Qed.

Section Suppressing.
Variable P : Platform.
Variable detectSalesforceCliError : string -> bool.
Variable safeParse : string -> value.
Variable parseExecutorResponse : string -> reason -> SfdxFalconResult.

(** X20.  The promise of [executeAction] of an Action that has not finished
    never rejects with a Result: where it resolves, the Result of the Action
    is marked SUCCESS and has one child more, so a rejection of the Executor
    call, its ERROR, is suppressed as its FAILURE is.  It rejects only with
    what the first part of the method throws, before the Executor is called,
    on action options that are [null] or whose alias does not convert to a
    string.  It is left unsettled only when the promise of the Executor is:
    on a CLI response whose message does not convert to a string. *)
Theorem executeAction_outcomes
    (this : DeleteScratchOrgAction) (actionContext : AppxEngineActionContext)
    (actionOptions : value) (child : childProcess) (n : nat) :
  isFinal (status (actionResponse this)) = false ->
  match executeAction P detectSalesforceCliError safeParse parseExecutorResponse
          this actionContext actionOptions child n with
  | (Resolved this', _) =>
      status (actionResponse this') = SUCCESS /\
      List.length (children (actionResponse this'))
      = S (List.length (children (actionResponse this)))
  | (Rejected why, n') =>
      exists e,
        why = ReasonError e /\
        commandDefFor this actionContext actionOptions n = (Throw e, n') /\
        (actionOptions = VNull \/ toStr (prop actionOptions "scratchOrgAlias") = None)
  | (Uncaught e, n') =>
      exists def m,
        commandDefFor this actionContext actionOptions n = (Normal def, m) /\
        executeSfdxCommand P detectSalesforceCliError safeParse def child m
        = (Uncaught e, n') /\
        e = conversionError /\
        code child <> Some 0%Z /\
        detectSalesforceCliError (stdoutText (events child)) = true /\
        unprintableCliMessage P (stdoutText (events child)) = true
  end.
Proof.
  intros Hopen. unfold executeAction.
  pose proof (commandDefFor_cases this actionContext actionOptions n) as Hdef.
  destruct (commandDefFor this actionContext actionOptions n) as [[def|e] m] eqn:Hprep.
  - clear Hdef.
    pose proof (executeSfdxCommand_outcomes P detectSalesforceCliError safeParse def
                  child m) as Hout.
    destruct (executeSfdxCommand P detectSalesforceCliError safeParse def child m)
      as [[r|why|x] n'] eqn:Hrun; cbn [actionResponse].
    + destruct (execSuccess_open r (actionResponse this) Hopen)
        as (a & Ha & Hs & Hc & _).
      rewrite Ha. cbn [withResponse actionResponse]. split; [exact Hs|].
      rewrite Hc, List.length_app. cbn. lia.
    + unfold onRejected. cbn [actionResponse].
      destruct (execSuccess_open
                  (parseExecutorResponse "Suppressed Scratch Org Deletion Error" why)
                  (actionResponse this) Hopen)
        as (a & Ha & Hs & Hc & _).
      rewrite Ha. cbn [withResponse actionResponse]. split; [exact Hs|].
      rewrite Hc, List.length_app. cbn. lia.
    + destruct Hout as (Hx & _ & Hcode & Hd & Hu).
      exists def, m. repeat split; assumption.
  - exists e. repeat split. exact Hdef.
Qed.

End Suppressing.

Lemma executeAction_outcomes_witness :
  isFinal (status (actionResponse newDeleteScratchOrgAction)) = false /\
  exists this' n',
    executeAction Samples.samplePlatform Samples.sampleDetect Samples.sampleSafeParse
      Samples.sampleExecutorResponse newDeleteScratchOrgAction Samples.sampleContext
      Samples.sampleOptions Samples.killedChild 0 = (Resolved this', n') /\
    status (actionResponse this') = SUCCESS.
Proof.
  split; [reflexivity|].
  pose proof (executeAction_outcomes Samples.samplePlatform Samples.sampleDetect
                Samples.sampleSafeParse Samples.sampleExecutorResponse
                newDeleteScratchOrgAction Samples.sampleContext Samples.sampleOptions
                Samples.killedChild 0 eq_refl) as H.
  destruct (executeAction Samples.samplePlatform Samples.sampleDetect
              Samples.sampleSafeParse Samples.sampleExecutorResponse
              newDeleteScratchOrgAction Samples.sampleContext Samples.sampleOptions
              Samples.killedChild 0) as [[this'|why|x] n'] eqn:Hrun.
  - exists this', n'. split; [reflexivity | exact (proj1 H)].
  - vm_compute in Hrun. discriminate Hrun.
  - vm_compute in Hrun. discriminate Hrun.
Defined.

(** X21.  The command a new delete-scratch-org Action compiles is
    [sfdx force:org:delete] with the alias of the target org, the alias of
    the Dev Hub and the log level of the context, each sanitized, and the
    bare flags [--noprompt] and [--json]; the compiler throws what the first
    of the three sanitizings that fails throws.  The action options play no
    part in it: the org that is deleted is the target org of the context.
    They only stop the method before it compiles the command, when they are
    [null] or their alias does not convert to a string. *)
Theorem deleteScratchOrg_command_line
    (actionContext : AppxEngineActionContext) (actionOptions : value) (n : nat) :
  isBoolean (targetOrgAlias actionContext) = false ->
  isBoolean (devHubAlias actionContext) = false ->
  isBoolean (logLevel actionContext) = false ->
  match commandDefFor newDeleteScratchOrgAction actionContext actionOptions n with
  | (Normal def, _) =>
      parseSfdxCommand def
      = (target <~ sanitizeArgument (targetOrgAlias actionContext) ;;
         devHub <~ sanitizeArgument (devHubAlias actionContext) ;;
         level <~ sanitizeArgument (logLevel actionContext) ;;
         Normal ("sfdx force:org:delete --targetusername " ++ target
                   ++ " --targetdevhubusername " ++ devHub
                   ++ " --noprompt --json --loglevel " ++ level))
  | (Throw e, _) =>
      actionOptions = VNull \/ toStr (prop actionOptions "scratchOrgAlias") = None
  end.
Proof.
  intros H1 H2 H3.
  pose proof (commandDefFor_cases newDeleteScratchOrgAction actionContext actionOptions n)
    as Hdef.
  destruct (commandDefFor newDeleteScratchOrgAction actionContext actionOptions n)
    as [[def|e] m]; [|exact Hdef].
  destruct Hdef as (Hcmd & Hargs & Hflags).
  unfold parseSfdxCommand. rewrite Hcmd, Hargs.
  cbn [foldM cbind]. rewrite Hflags. cbn [objectKeys cbind]. rewrite addFlag_fold.
  change (List.filter (fun kv => isFlagKey (fst kv))
            [("FLAG_TARGETUSERNAME", targetOrgAlias actionContext);
             ("FLAG_TARGETDEVHUBUSERNAME", devHubAlias actionContext);
             ("FLAG_NOPROMPT", VBool true);
             ("FLAG_JSON", VBool true);
             ("FLAG_LOGLEVEL", logLevel actionContext)])
    with [("FLAG_TARGETUSERNAME", targetOrgAlias actionContext);
          ("FLAG_TARGETDEVHUBUSERNAME", devHubAlias actionContext);
          ("FLAG_NOPROMPT", VBool true);
          ("FLAG_JSON", VBool true);
          ("FLAG_LOGLEVEL", logLevel actionContext)].
  cbn [mapM]. unfold renderFlag. cbn [fst snd].
  rewrite H1, H2, H3.
  change (flagToken "FLAG_TARGETUSERNAME") with "--targetusername".
  change (flagToken "FLAG_TARGETDEVHUBUSERNAME") with "--targetdevhubusername".
  change (flagToken "FLAG_NOPROMPT") with "--noprompt".
  change (flagToken "FLAG_JSON") with "--json".
  change (flagToken "FLAG_LOGLEVEL") with "--loglevel".
  change (isBoolean (VBool true)) with true. cbv iota.
  change (command newDeleteScratchOrgAction) with "force:org:delete".
  destruct (sanitizeArgument (targetOrgAlias actionContext)) as [a|x]; cbn [cbind];
    [|reflexivity].
  destruct (sanitizeArgument (devHubAlias actionContext)) as [b|x]; cbn [cbind];
    [|reflexivity].
  destruct (sanitizeArgument (logLevel actionContext)) as [c|x]; cbn [cbind];
    [|reflexivity].
  cbn [flatten fold_right String.append]. rewrite ?append_assoc, ?append_empty_r.
  cbn [String.append]. rewrite ?append_assoc, ?append_empty_r.
  reflexivity.
Qed.

Lemma deleteScratchOrg_command_line_witness :
  isBoolean (targetOrgAlias Samples.sampleContext) = false /\
  exists def n',
    commandDefFor newDeleteScratchOrgAction Samples.sampleContext Samples.sampleOptions 0
    = (Normal def, n') /\
    parseSfdxCommand def
    = Normal "sfdx force:org:delete --targetusername gone --targetdevhubusername hub --noprompt --json --loglevel error".
Proof.
  split; [reflexivity|].
  pose proof (deleteScratchOrg_command_line Samples.sampleContext Samples.sampleOptions 0
                eq_refl eq_refl eq_refl) as H.
  destruct (commandDefFor newDeleteScratchOrgAction Samples.sampleContext
              Samples.sampleOptions 0) as [[def|e] n'] eqn:Hdef.
  - exists def, n'. split; [reflexivity|]. rewrite H. reflexivity.
  - vm_compute in Hdef. discriminate Hdef.
Defined.

End DeleteScratchOrgExtra.

Module FalconHelperProofs.
Import JsString Js Eff FalconError FalconErrorSpec.
Import FalconErrorProofs FalconErrorExtra.

Lemma typeOf_undefined (v : value) :
  (match typeOf v with TUndefined => true | _ => false end) = true <-> v = VUndefined.
Proof. destruct v; cbn; split; intros H; try discriminate H; reflexivity. Qed.

(** X22.  [FalconError.wrap] of the helper library is idempotent on every
    value it accepts: a value with a [stdErrJson] is returned as it is, any
    other is kept as the [stdErrJson] of a new error with the message
    [Unexpected Exception] and status 1, and wrapping the result again
    returns it and creates nothing.  On [null] and [undefined] it throws a
    TypeError. *)
Theorem helper_wrap_idempotent (error : value) (n : nat) :
  (readable error = true ->
   exists w n',
     FalconHelper.wrap error n = (Normal w, n') /\
     FalconHelper.wrap w n' = (Normal w, n') /\
     (prop error "stdErrJson" <> VUndefined -> w = error /\ n' = n) /\
     (prop error "stdErrJson" = VUndefined ->
      prop w "stdErrJson" = error /\
      prop w "message" = VStr "Unexpected Exception" /\
      prop w "status" = VNum 1)) /\
  (readable error = false ->
   exists m, fst (FalconHelper.wrap error n) = Throw (TypeError m)).
Proof.
  split.
  - intros Hr. unfold FalconHelper.wrap at 1. unfold bind, lift.
    rewrite (getProp_readable error _ Hr).
    destruct (prop error "stdErrJson") eqn:Hs;
      try (exists error, n; split; [reflexivity|]; split;
           [unfold FalconHelper.wrap, bind, lift;
            rewrite (getProp_readable error _ Hr), Hs; reflexivity|];
           split; [intros _; split; reflexivity | intros H; discriminate H]).
    cbn [typeOf]. unfold newObject.
    eexists; eexists. split; [reflexivity|]. split.
    + unfold FalconHelper.wrap, bind, lift. cbn [getProp prop].
      cbn. destruct error; try discriminate Hr; reflexivity.
    + split; [intros H; contradiction|]. intros _. cbn. repeat split.
  - intros Hr. unfold FalconHelper.wrap, bind, lift.
    destruct (getProp_unreadable error "stdErrJson" Hr) as (m & Hm).
    rewrite Hm. now exists m.
Qed.

Lemma helper_wrap_idempotent_witness :
  (exists w n',
     FalconHelper.wrap (VStr "ENOENT") 3 = (Normal w, n') /\
     FalconHelper.wrap w n' = (Normal w, n') /\
     prop w "stdErrJson" = VStr "ENOENT") /\
  (exists m, fst (FalconHelper.wrap VNull 3) = Throw (TypeError m)).
Proof.
  destruct (helper_wrap_idempotent (VStr "ENOENT") 3) as [Hok _].
  destruct (helper_wrap_idempotent VNull 3) as [_ Hbad].
  split.
  - destruct (Hok eq_refl) as (w & n' & H1 & H2 & _ & H4).
    exists w, n'. split; [exact H1|]. split; [exact H2|].
    exact (proj1 (H4 eq_refl)).
  - exact (Hbad eq_refl).
Defined.

Section Composing.
Variable P : Platform.

(** X23.  [composeFalconError] returns for every input: the error it
    composes has the given message and status, status 1 when none is given,
    and as [stdErrJson] the parsed stderr text, or a fixed object named Error
    with status 1 when the text does not parse.  As [JSON.parse] never gives
    [undefined], [FalconError.wrap] takes the result for a Falcon Error and
    returns it as it is. *)
Theorem composeFalconError_wraps_to_itself
    (falconErrMsg stdErrOutput : string) (falconStatus : value) (n : nat) :
  JSON_parse P stdErrOutput <> Some VUndefined ->
  exists e n',
    FalconHelper.composeFalconError P falconErrMsg stdErrOutput falconStatus n
    = (Normal e, n') /\
    prop e "message" = VStr falconErrMsg /\
    prop e "status" = defaultTo (VNum 1) falconStatus /\
    (forall v, JSON_parse P stdErrOutput = Some v -> prop e "stdErrJson" = v) /\
    (JSON_parse P stdErrOutput = None ->
     prop (prop e "stdErrJson") "name" = VStr "Error" /\
     prop (prop e "stdErrJson") "message"
     = VStr "Unknown SFDX Error (could not parse stderr result from CLI)" /\
     prop (prop e "stdErrJson") "status" = VNum 1) /\
    FalconHelper.wrap e n' = (Normal e, n').
Proof.
  intros Hdef. unfold FalconHelper.composeFalconError, bind, tryCatch, lift, newObject.
  destruct (JSON_parse P stdErrOutput) as [v|] eqn:Hp.
  - eexists; eexists. split; [reflexivity|]. cbn.
    split; [reflexivity|]. split; [reflexivity|].
    split; [intros v' Hv; now inversion Hv|].
    split; [intros Hn; discriminate Hn|].
    unfold FalconHelper.wrap, bind, lift. cbn.
    destruct v; try reflexivity. congruence.
  - eexists; eexists. split; [reflexivity|]. cbn.
    split; [reflexivity|]. split; [reflexivity|].
    split; [intros v' Hv; discriminate Hv|].
    split; [intros _; repeat split | reflexivity].
Qed.

End Composing.

Lemma composeFalconError_wraps_to_itself_witness :
  JSON_parse Samples.samplePlatform "sh: sfdx: command not found" <> Some VUndefined /\
  exists e n',
    FalconHelper.composeFalconError Samples.samplePlatform "Could not list orgs"
      "sh: sfdx: command not found" VUndefined 0 = (Normal e, n') /\
    prop e "status" = VNum 1 /\
    FalconHelper.wrap e n' = (Normal e, n').
Proof.
  split; [discriminate|].
  destruct (composeFalconError_wraps_to_itself Samples.samplePlatform
              "Could not list orgs" "sh: sfdx: command not found" VUndefined 0)
    as (e & n' & H1 & _ & H3 & _ & _ & H6); [discriminate|].
  exists e, n'. split; [exact H1|]. split; [exact H3 | exact H6].
Defined.

(** X24.  The debug enablement can be set once: the first call stores the
    three options and marks the class as initialized, and every later call
    throws, whatever it asks for. *)
Theorem setDebugEnablement_once (enabled asyncEnabled extendedEnabled : bool)
    (st st' : FalconHelper.FalconDebug) :
  FalconHelper.setDebugEnablement enabled asyncEnabled extendedEnabled st = Normal st' ->
  FalconHelper.getDebugInitialized st = false /\
  FalconHelper.getDebugEnabled st' = enabled /\
  FalconHelper.getDebugAsyncEnabled st' = asyncEnabled /\
  FalconHelper.getDebugExtendedEnabled st' = extendedEnabled /\
  FalconHelper.getDebugInitialized st' = true /\
  forall a b c,
    FalconHelper.setDebugEnablement a b c st'
    = Throw (OtherError
               "ERROR_DEBUG_OPTIONS_SET: Debug enablement options can only be set once").
Proof.
  unfold FalconHelper.setDebugEnablement, FalconHelper.getDebugInitialized.
  destruct (FalconHelper.debugInitialized st); intros H; inversion H; subst.
  cbn. repeat split.
Qed.

Lemma setDebugEnablement_once_witness :
  exists st',
    FalconHelper.setDebugEnablement true false true FalconHelper.initialFalconDebug
    = Normal st' /\
    FalconHelper.getDebugExtendedEnabled st' = true /\
    FalconHelper.setDebugEnablement false false false st'
    = Throw (OtherError
               "ERROR_DEBUG_OPTIONS_SET: Debug enablement options can only be set once").
Proof.
  eexists. split; [reflexivity|].
  destruct (setDebugEnablement_once true false true FalconHelper.initialFalconDebug
              _ eq_refl) as (_ & _ & _ & He & _ & Hagain).
  split; [exact He | exact (Hagain false false false)].
Defined.

Section Timer.
Variable thousandthText : Z -> string.

(** X25.  A report whose timer is started at [t0] and stopped at [t1], on a
    clock that does not run backwards, gives [t1 - t0] as its run time: from
    [stopTimer], and from [getRunTime] at any later moment.  While the timer
    runs, [getRunTime] gives the time since the start.  A report created
    with [startTimer] set is one whose timer was started at creation. *)
Theorem timer_run_time (t0 t1 now : Z) :
  (0 <= t0)%Z -> (t0 <= t1)%Z ->
  exists fresh running stopped,
    FalconHelper.newFalconStatusReport VUndefined now = Normal fresh /\
    FalconHelper.startTimer t0 fresh = Normal running /\
    FalconHelper.newFalconStatusReport (VBool true) t0 = Normal running /\
    FalconHelper.getRunTime thousandthText VUndefined now running
    = Normal (VNum (now - t0)) /\
    FalconHelper.stopTimer t1 running = Normal ((t1 - t0)%Z, stopped) /\
    FalconHelper.getRunTime thousandthText VUndefined now stopped
    = Normal (VNum (t1 - t0)) /\
    FalconHelper.getRunTime thousandthText (VBool true) now stopped
    = Normal (VStr (thousandthText (t1 - t0))).
Proof.
  intros H0 H1.
  assert (Ht0 : (t0 =? -1)%Z = false) by (apply Z.eqb_neq; lia).
  assert (Hrun : (t1 - t0 =? -1)%Z = false) by (apply Z.eqb_neq; lia).
  eexists; eexists; eexists.
  split; [reflexivity|]. split; [reflexivity|]. split; [reflexivity|].
  unfold FalconHelper.getRunTime, FalconHelper.stopTimer, FalconHelper.withTimes.
  cbn [FalconHelper.startTime FalconHelper.endTime FalconHelper.runTime
       FalconHelper.statusCode FalconHelper.statusLog FalconHelper.statusMessage
       defaultTo].
  change ((-1 =? -1)%Z) with true. cbn [negb].
  split; [now rewrite Ht0|].
  split; [rewrite Ht0; reflexivity|].
  cbn [FalconHelper.startTime FalconHelper.endTime FalconHelper.runTime].
  rewrite Ht0, Hrun. split; reflexivity.
Qed.

(** X26.  A timer runs once.  After it was started, starting it again
    throws; after it was stopped, starting it and stopping it both throw;
    and a timer that was never started can neither be stopped nor asked for
    its run time. *)
Theorem timer_single_use (t0 t1 t : Z)
    (fresh running stopped : FalconHelper.FalconStatusReport) :
  (0 <= t0)%Z -> (0 <= t1)%Z ->
  FalconHelper.newFalconStatusReport VUndefined t = Normal fresh ->
  FalconHelper.startTimer t0 fresh = Normal running ->
  FalconHelper.stopTimer t1 running = Normal ((t1 - t0)%Z, stopped) ->
  (exists m, FalconHelper.stopTimer t fresh = Throw (OtherError m)) /\
  (exists m, FalconHelper.getRunTime thousandthText VUndefined t fresh
             = Throw (OtherError m)) /\
  (exists m, FalconHelper.startTimer t running = Throw (OtherError m)) /\
  (exists m, FalconHelper.startTimer t stopped = Throw (OtherError m)) /\
  (exists m, FalconHelper.stopTimer t stopped = Throw (OtherError m)).
Proof.
  intros H0 H1 Hfresh Hstart Hstop.
  assert (Ht0 : (t0 =? -1)%Z = false) by (apply Z.eqb_neq; lia).
  assert (Ht1 : (t1 =? -1)%Z = false) by (apply Z.eqb_neq; lia).
  cbn in Hfresh. inversion Hfresh; subst fresh. clear Hfresh.
  cbn in Hstart. inversion Hstart; subst running. clear Hstart.
  unfold FalconHelper.stopTimer in Hstop. cbn in Hstop. rewrite Ht0 in Hstop.
  cbn in Hstop. inversion Hstop; subst stopped. clear Hstop.
  unfold FalconHelper.stopTimer, FalconHelper.startTimer, FalconHelper.getRunTime.
  cbn. rewrite ?Ht0, ?Ht1. cbn.
  repeat split; eexists; reflexivity.
Qed.

End Timer.

Lemma timer_run_time_witness :
  exists running stopped,
    FalconHelper.newFalconStatusReport (VBool true) 1000 = Normal running /\
    FalconHelper.stopTimer 2500 running = Normal (1500%Z, stopped) /\
    FalconHelper.getRunTime (fun ms => JsString.ofZ ms) VUndefined 9999 stopped
    = Normal (VNum 1500).
Proof.
  destruct (timer_run_time (fun ms => JsString.ofZ ms) 1000 2500 9999)
    as (fresh & running & stopped & _ & _ & H3 & _ & H5 & H6 & _); [lia | lia |].
  exists running, stopped. split; [exact H3|]. split; [exact H5 | exact H6].
Defined.

Lemma timer_single_use_witness :
  exists fresh running stopped,
    FalconHelper.newFalconStatusReport VUndefined 0 = Normal fresh /\
    FalconHelper.startTimer 1000 fresh = Normal running /\
    FalconHelper.stopTimer 2500 running = Normal (1500%Z, stopped) /\
    (exists m, FalconHelper.startTimer 3000 stopped = Throw (OtherError m)).
Proof.
  eexists; eexists; eexists.
  split; [reflexivity|]. split; [reflexivity|]. split; [reflexivity|].
  refine (proj1 (proj2 (proj2 (proj2
            (timer_single_use (fun ms => JsString.ofZ ms) 1000 2500 3000 _ _ _
               _ _ eq_refl eq_refl eq_refl))))); lia.
Defined.

End FalconHelperProofs.

Module CreateAppxPackageProjectProofs.
Import JsString Js Eff FalconError FalconErrorSpec CreateAppxPackageProject.
Import FalconErrorProofs.
Local Open Scope eff_scope.

(** A row is added for an answer that converts to a string, and the
    conversion throws for one that does not. *)
Lemma pushAnswer_cases (userAnswers : Js.value) (k : string) :
  readable userAnswers = true ->
  (exists answer,
     toStr (prop userAnswers k) = Some answer /\
     forall label tableData,
       pushAnswer userAnswers label k tableData
       = Normal (tableData ++ [{| option := label; value := answer |}])%list) \/
  (toStr (prop userAnswers k) = None /\
   forall label tableData,
     pushAnswer userAnswers label k tableData = Throw conversionError).
Proof.
  intros Hr. unfold pushAnswer. rewrite (getProp_readable userAnswers k Hr).
  cbn [cbind]. unfold toString.
  destruct (toStr (prop userAnswers k)) as [answer|].
  - left. exists answer. split; [reflexivity|]. intros label tableData. reflexivity.
  - right. split; [reflexivity|]. intros label tableData. reflexivity.
Qed.

(** X27.  The table of answers has nine rows that are always there, two more
    when a Git remote is declared, four more for a managed package, and one
    or two more when Git is initialized.  The row [Git Remote URI:] is
    listed twice when a Git remote is declared, Git is initialized and the
    URI is not empty.  The method throws only when there are no answers to
    read, or one of the answers it prints does not convert to a string. *)
Theorem getInterviewAnswersTableData_rows (P : Platform) (userAnswers : Js.value) :
  let hasRemote := truthy (prop userAnswers "hasGitRemoteRepository") in
  let managed := truthy (prop userAnswers "isCreatingManagedPackage") in
  let initGit := truthy (prop userAnswers "isInitializingGit") in
  let hasUri := truthy (prop userAnswers "gitRemoteUri") in
  match getInterviewAnswersTableData P userAnswers with
  | Normal rows =>
      List.length rows
      = (9 + (if hasRemote then 2 else 0) + (if managed then 4 else 0)
           + (if initGit then (if hasUri then 2 else 1) else 0))%nat /\
      List.length (List.filter (isOption "Git Remote URI:") rows)
      = ((if hasRemote then 1 else 0) + (if initGit && hasUri then 1 else 0))%nat
  | Throw e =>
      readable userAnswers = false \/
      exists k, List.In k printedAnswers /\ toStr (prop userAnswers k) = None
  end.
Proof.
  cbv zeta. destruct (readable userAnswers) eqn:Hr.
  - unfold getInterviewAnswersTableData.
    repeat first
      [ progress cbn [cbind]
      | rewrite (getProp_readable userAnswers _ Hr); cbn [cbind]
      | match goal with
        | |- context [pushAnswer userAnswers _ ?k _] =>
            let Hp := fresh "Hp" in
            let Hn := fresh "Hn" in
            destruct (pushAnswer_cases userAnswers k Hr)
              as [(? & _ & Hp) | (Hn & Hp)];
            [ rewrite !Hp; cbn [cbind]; clear Hp
            | rewrite Hp; cbn [cbind]; right; exists k;
              split; [cbn; tauto | exact Hn] ]
        end
      | match goal with
        | |- context [if truthy ?v then _ else _] => destruct (truthy v) eqn:?
        end ].
    all: split; reflexivity.
  - destruct userAnswers; try discriminate Hr; left; reflexivity.
Qed.

End CreateAppxPackageProjectProofs.
